(** * Task Management API: validators, handlers and query construction

    A shallow embedding of [app.py] and [models.py].  Request payloads are
    decoded JSON objects, the relational store is a record of row lists, and
    every handler is a function from a request and a store to a response and
    a store.  The Python runtime ([str.upper], [str.lower], [int],
    [datetime.fromisoformat]), the storage engine and the clock are outside
    the repository and enter as explicit inputs.

    What the model takes from the engine: the lookup of a row by key, the
    binding of a key as a query parameter, the column defaults of
    [models.py], the binding of an enum attribute when a row is written, and
    the order of [ORDER BY].  What it leaves out: integers taken from the URL
    or from the query string are unbounded, and the values of the columns
    that are not enum columns are stored as the handler assigned them, so the
    conversions and the refusals of the engine for a value that is not of the
    column's type are not part of the model. *)

From Stdlib Require Import ZArith Ascii String.
From stdpp Require Import base option list sorting strings gmap.

Set Warnings "-register-all".
Local Open Scope Z_scope.
Local Open Scope string_scope.

(** ** Values *)

(** A decoded JSON value, as [request.get_json()] hands it to a handler
    (numbers are restricted to integers). *)
Inductive json :=
  | JNull
  | JBool (b : bool)
  | JInt (n : Z)
  | JStr (s : string)
  | JArr (l : list json)
  | JObj (l : list (string * json)).

(** Python truthiness of a decoded value: [if v:] *)
Definition truthy (v : json) : bool :=
  match v with
  | JNull => false
  | JBool b => b
  | JInt n => negb (Z.eqb n 0)
  | JStr s => negb (String.eqb s "")
  | JArr l => match l with [] => false | _ => true end
  | JObj l => match l with [] => false | _ => true end
  end.

(** [isinstance(v, str)] *)
Definition is_str (v : json) : bool :=
  match v with JStr _ => true | _ => false end.

(** A point in time ([datetime]); only the order of instants matters here. *)
Definition datetime := Z.

(** ** String primitives *)

Definition upper_ascii (c : ascii) : ascii :=
  let n := nat_of_ascii c in
  if (Nat.leb 97 n && Nat.leb n 122)%bool then ascii_of_nat (n - 32) else c.

Definition lower_ascii (c : ascii) : ascii :=
  let n := nat_of_ascii c in
  if (Nat.leb 65 n && Nat.leb n 90)%bool then ascii_of_nat (n + 32) else c.

(** The ASCII letters of a string in upper and in lower case; every other
    character is kept. *)
Fixpoint upper_letters (s : string) : string :=
  match s with
  | EmptyString => EmptyString
  | String c s' => String (upper_ascii c) (upper_letters s')
  end.

Fixpoint lower_letters (s : string) : string :=
  match s with
  | EmptyString => EmptyString
  | String c s' => String (lower_ascii c) (lower_letters s')
  end.

(** A string of ASCII characters only.  A string is UTF-8 text: a character
    beyond ASCII takes several bytes, all of them above 127. *)
Fixpoint ascii_text (s : string) : bool :=
  match s with
  | EmptyString => true
  | String c s' => Nat.ltb (nat_of_ascii c) 128 && ascii_text s'
  end.

(** [s.replace(old, new)] for a one-character [old]: every occurrence is
    replaced, left to right. *)
Fixpoint replace (old : ascii) (new : string) (s : string) : string :=
  match s with
  | EmptyString => EmptyString
  | String c s' =>
      if Ascii.eqb c old then new +:+ replace old new s'
      else String c (replace old new s')
  end.

(** [sep.join(l)] *)
Definition join (sep : string) (l : list string) : string := String.concat sep l.

(** [x in l] for a list of strings *)
Definition str_in (x : string) (l : list string) : bool :=
  existsb (String.eqb x) l.

(** ** Enumerations ([models.py]) *)

Inductive TaskStatus := PENDING | IN_PROGRESS | COMPLETED.
Inductive TaskPriority := LOW | MEDIUM | HIGH.

(** What the code uses of an [enum.Enum] class: iteration over the members in
    declaration order, the member name and the member value. *)
Class PyEnum (E : Type) := {
  members : list E;
  name : E → string;
  value : E → string;
}.

#[export] Instance TaskStatus_enum : PyEnum TaskStatus := {|
  members := [PENDING; IN_PROGRESS; COMPLETED];
  name e := match e with
            | PENDING => "PENDING"
            | IN_PROGRESS => "IN_PROGRESS"
            | COMPLETED => "COMPLETED"
            end;
  value e := match e with
             | PENDING => "pending"
             | IN_PROGRESS => "in_progress"
             | COMPLETED => "completed"
             end;
|}.

#[export] Instance TaskPriority_enum : PyEnum TaskPriority := {|
  members := [LOW; MEDIUM; HIGH];
  name e := match e with
            | LOW => "LOW"
            | MEDIUM => "MEDIUM"
            | HIGH => "HIGH"
            end;
  value e := match e with
             | LOW => "low"
             | MEDIUM => "medium"
             | HIGH => "high"
             end;
|}.

(** [enum_class[key]]: lookup by member name; [None] stands for [KeyError]. *)
Definition enum_getitem {E} `{PyEnum E} (key : string) : option E :=
  List.find (λ e, String.eqb (name e) key) members.

(** The third component of [validate_enum_value]'s result, and the content of
    an enum attribute of a row object: Python [None], a member, or a raw
    value that went through unchecked. *)
Inductive resolved (E : Type) :=
  | RNone
  | RMember (e : E)
  | RRaw (v : json).
Arguments RNone {E}.
Arguments RMember {E} e.
Arguments RRaw {E} v.

(** ** Collaborators outside the repository *)

(** The Python runtime and the storage engine, as far as the handlers depend
    on them. *)
Class Runtime := {
  (** [datetime.fromisoformat]; [None] stands for [ValueError] *)
  fromisoformat : string → option datetime;
  (** [int(text)], as [request.args.get(key, type=int)] applies it; [None]
      stands for [ValueError], which makes [get] return its default *)
  py_int : string → option Z;
  (** the engine's equality between an integer key and a bound or stored
      value, as in [User.id == data['user_id']] *)
  key_eq : Z → json → bool;
  (** [s.upper()] and [s.lower()].  Python maps every character of the
      string by the Unicode tables, so a character beyond ASCII may change,
      also into ASCII letters ("ß" becomes "SS").  What is known of the two
      mappings here: on ASCII text they change the ASCII letters and nothing
      else, and the case in which an ASCII letter is written makes no
      difference to the result. *)
  upper : string → string;
  lower : string → string;
  upper_ascii_text : ∀ s, ascii_text s = true → upper s = upper_letters s;
  upper_upper_letters : ∀ s, upper (upper_letters s) = upper s;
  lower_ascii_text : ∀ s, ascii_text s = true → lower s = lower_letters s;
  lower_lower_letters : ∀ s, lower (lower_letters s) = lower s;
}.

(** ** Helper functions ([app.py]) *)

(** The list comprehension's condition:
    [field not in data or data[field] == ''] *)
Definition missing_or_empty (data : gmap string json) (field : string) : bool :=
  match data !! field with
  | None => true
  | Some (JStr s) => String.eqb s ""
  | Some _ => false
  end.

Definition validate_required_fields (data : gmap string json)
    (required_fields : list string) : bool * option string :=
  let missing_fields := List.filter (missing_or_empty data) required_fields in
  match missing_fields with
  | [] => (true, None)
  | _ => (false, Some ("Missing required fields: " +:+ join ", " missing_fields))
  end.

Definition invalid_enum_msg E `{PyEnum E} (field_name : string) : string :=
  "Invalid " +:+ field_name +:+ ". Must be one of: "
    +:+ join ", " (List.map value (members (E:=E))).

Definition validate_enum_value `{Runtime} {E} `{PyEnum E} (v : json)
    (field_name : string) : bool * option string * resolved E :=
  match v with
  | JNull => (true, None, RNone)
  | JStr s =>
      match enum_getitem (upper s) with
      | Some e => (true, None, RMember e)
      | None => (false, Some (invalid_enum_msg E field_name), RNone)
      end
  | _ => (true, None, RRaw v)
  end.

(** [date_string.replace] raises [AttributeError] on anything that is not a
    string; both exceptions are caught and give [None]. *)
Definition parse_datetime `{Runtime} (date_string : json) : option datetime :=
  if negb (truthy date_string) then None
  else match date_string with
       | JStr s => fromisoformat (replace "Z" "+00:00" s)
       | _ => None
       end.

(** ** Entity model ([models.py]) *)

(** Row objects carry what the handlers assign to them: payload values are
    stored as they come, column by column. *)
Module User.
Record t := mk {
  id : Z;
  username : json;
  email : json;
  created_at : datetime;
}.
End User.

Module Category.
Record t := mk {
  id : Z;
  name : json;
  description : json;
  user_id : json;
}.
End Category.

Module Task.
Record t := mk {
  id : Z;
  title : json;
  description : json;
  status : resolved TaskStatus;
  priority : resolved TaskPriority;
  due_date : option datetime;
  category_id : json;
  user_id : json;
  created_at : datetime;
  updated_at : datetime;
}.

Definition set_title (v : json) (x : t) : t :=
  mk (id x) v (description x) (status x) (priority x) (due_date x)
     (category_id x) (user_id x) (created_at x) (updated_at x).
Definition set_description (v : json) (x : t) : t :=
  mk (id x) (title x) v (status x) (priority x) (due_date x)
     (category_id x) (user_id x) (created_at x) (updated_at x).
Definition set_status (v : resolved TaskStatus) (x : t) : t :=
  mk (id x) (title x) (description x) v (priority x) (due_date x)
     (category_id x) (user_id x) (created_at x) (updated_at x).
Definition set_priority (v : resolved TaskPriority) (x : t) : t :=
  mk (id x) (title x) (description x) (status x) v (due_date x)
     (category_id x) (user_id x) (created_at x) (updated_at x).
Definition set_due_date (v : option datetime) (x : t) : t :=
  mk (id x) (title x) (description x) (status x) (priority x) v
     (category_id x) (user_id x) (created_at x) (updated_at x).
Definition set_category_id (v : json) (x : t) : t :=
  mk (id x) (title x) (description x) (status x) (priority x) (due_date x)
     v (user_id x) (created_at x) (updated_at x).
Definition set_user_id (v : json) (x : t) : t :=
  mk (id x) (title x) (description x) (status x) (priority x) (due_date x)
     (category_id x) v (created_at x) (updated_at x).
Definition set_updated_at (v : datetime) (x : t) : t :=
  mk (id x) (title x) (description x) (status x) (priority x) (due_date x)
     (category_id x) (user_id x) (created_at x) v.
End Task.

(** The three tables. *)
Record DB := mkDB {
  users : list User.t;
  categories : list Category.t;
  tasks : list Task.t;
}.

(** ** Committing *)

(** What [db.commit()] does in one request: it goes through, or it raises
    [IntegrityError], or another [SQLAlchemyError]; the string is [str(e)]. *)
Inductive commit_result :=
  | Committed
  | IntegrityError (e : string)
  | OtherError (e : string).

(** Per-request inputs: the clock reading, the engine's verdict on the
    commit of a unit of work it has taken, and the text of the exception
    ([str(e)]) for a statement the engine refuses before that. *)
Record Env := mkEnv {
  utcnow : datetime;
  commit_outcome : commit_result;
  statement_error : string;
}.

(** ** Responses *)

Inductive body :=
  | ErrorBody (msg : option string)      (* {'error': msg} *)
  | MessageBody (msg : string)           (* {'message': msg} *)
  | UserBody (u : User.t)                (* user.to_dict() *)
  | CategoryBody (c : Category.t)
  | TaskBody (x : Task.t)
  | UserList (l : list User.t)
  | CategoryList (l : list Category.t)
  | TaskList (l : list Task.t).

(** [jsonify(body), status] *)
Definition response : Type := body * Z.

Definition error (msg : string) (code : Z) : response := (ErrorBody (Some msg), code).

(** The [errorhandler(500)] of the application: Flask's reply to an exception
    that no [except] clause of the handler has caught. *)
Definition internal_error : response := error "Internal server error" 500.

(** The [except SQLAlchemyError] clause of a handler, for a statement the
    engine has refused. *)
Definition database_error (env : Env) : response :=
  error ("Database error: " +:+ statement_error env) 500.

(** ** Store access *)

(** [data[key]]; the handlers index only keys that passed the required-field
    validation, so [KeyError] does not arise. *)
Definition getitem (data : gmap string json) (key : string) : json :=
  default JNull (data !! key).

(** [data.get(key, dflt)] *)
Definition get (data : gmap string json) (key : string) (dflt : json) : json :=
  default dflt (data !! key).

(** [not data] for a decoded object *)
Definition is_empty (data : gmap string json) : bool :=
  bool_decide (data = ∅).

(** The key the engine gives to a new row. *)
Definition next_id (ids : list Z) : Z := 1 + foldr Z.max 0 ids.

(** Replace the first row that satisfies [p], the one [.first()] returned. *)
Fixpoint replace_first {A} (p : A → bool) (new : A) (l : list A) : list A :=
  match l with
  | [] => []
  | x :: l' => if p x then new :: l' else x :: replace_first p new l'
  end.

(** Remove the first row that satisfies [p]. *)
Fixpoint remove_first {A} (p : A → bool) (l : list A) : list A :=
  match l with
  | [] => []
  | x :: l' => if p x then l' else x :: remove_first p l'
  end.

(** How the driver takes a value that a query compares with a key: null
    (compared with [IS NULL]), booleans, strings and the integers of 64 bits
    are bound; a larger integer raises [OverflowError], which is no
    [SQLAlchemyError]; a list or an object is a type the driver does not
    support, reported as a [SQLAlchemyError]. *)
Inductive binding :=
  | Bound
  | TooLarge
  | Unsupported.

Definition bind (v : json) : binding :=
  match v with
  | JInt n =>
      if (Z.leb (- 2 ^ 63) n && Z.ltb n (2 ^ 63))%bool then Bound else TooLarge
  | JArr _ | JObj _ => Unsupported
  | _ => Bound
  end.

(** A query by a key taken from the payload, [.first()] included: the row,
    if any, or the reply to the exception the query has raised. *)
Definition query_key {A} (env : Env) (lookup : json → option A) (v : json)
    : response + option A :=
  match bind v with
  | Bound => inr (lookup v)
  | TooLarge => inl internal_error
  | Unsupported => inl (database_error env)
  end.

Section Queries.
Context `{Runtime}.

(** [db.query(User).filter(User.id == v).first()] *)
Definition find_user (db : DB) (v : json) : option User.t :=
  List.find (λ u, key_eq (User.id u) v) (users db).

Definition find_category (db : DB) (v : json) : option Category.t :=
  List.find (λ c, key_eq (Category.id c) v) (categories db).

(** With the id taken from the URL ([<int:task_id>]). *)
Definition get_task_row (db : DB) (task_id : Z) : option Task.t :=
  List.find (λ x, Z.eqb (Task.id x) task_id) (tasks db).

Definition get_category_row (db : DB) (category_id : Z) : option Category.t :=
  List.find (λ c, Z.eqb (Category.id c) category_id) (categories db).

Definition get_user_row (db : DB) (user_id : Z) : option User.t :=
  List.find (λ u, Z.eqb (User.id u) user_id) (users db).
End Queries.

(** ** The unit of work *)

(** The columns [status] and [priority] are [Enum] columns with a default
    and [nullable=False] ([models.py]).  When a row is written the [Enum]
    type binds a member by its name; for a value that is no member it raises
    [LookupError] inside the statement, a [SQLAlchemyError]. *)
Definition is_member {E} (r : resolved E) : bool :=
  match r with
  | RMember _ => true
  | _ => false
  end.

(** An attribute that holds [None] is left out of the INSERT, and the
    column takes its default. *)
Definition column_default {E} (dflt : E) (r : resolved E) : resolved E :=
  match r with
  | RNone => RMember dflt
  | _ => r
  end.

(** The flush of a new task: the row as [db.refresh] reads it back, or
    [None] when the statement is refused. *)
Definition flush_new (x : Task.t) : option Task.t :=
  let x := Task.set_status (column_default PENDING (Task.status x)) x in
  let x := Task.set_priority (column_default MEDIUM (Task.priority x)) x in
  if (is_member (Task.status x) && is_member (Task.priority x))%bool
  then Some x else None.

(** The flush of a task the handler has changed.  An enum attribute set to
    [None] violates [nullable=False] and one set to another value that is no
    member is refused by the [Enum] type; an attribute the handler has left
    alone holds what an earlier flush has stored, a member. *)
Definition flush_dirty (x : Task.t) : bool :=
  (is_member (Task.status x) && is_member (Task.priority x))%bool.

(** [db.commit()] followed by the handler's reply, or the [except] branch:
    roll back and report.  The [db.refresh(row)] between the commit and the
    reply reads the committed row back and is not a point of failure here. *)
Definition commit (env : Env) (old new : DB) (ok : response) : response * DB :=
  match commit_outcome env with
  | Committed => (ok, new)
  | IntegrityError e | OtherError e => (error ("Database error: " +:+ e) 500, old)
  end.

(** ** Request handlers ([app.py]) *)

(** A handler body with early returns: [inl r] leaves the handler with the
    response [r], [inr a] goes on with [a]. *)
Definition and_then {A B} (m : response + A) (k : A → response + B) : response + B :=
  match m with
  | inl r => inl r
  | inr a => k a
  end.

Notation "x ←' m ;; k" := (and_then m (λ x, k))
  (at level 100, m at next level, right associativity, only parsing).

Section Handlers.
Context `{Runtime}.

(** *** Users *)

Definition create_user (env : Env) (data : gmap string json) (db : DB)
    : response * DB :=
  if is_empty data then (error "No data provided" 400, db) else
  let '(is_valid, error_msg) := validate_required_fields data ["username"; "email"] in
  if negb is_valid then ((ErrorBody error_msg, 400), db) else
  let new_user :=
    User.mk (next_id (User.id <$> users db))
            (getitem data "username") (getitem data "email") (utcnow env) in
  match commit_outcome env with
  | Committed =>
      ((UserBody new_user, 201),
       mkDB (users db ++ [new_user]) (categories db) (tasks db))
  | IntegrityError _ => (error "Username already exists" 400, db)
  | OtherError e => (error ("Database error: " +:+ e) 500, db)
  end.

Definition get_user (user_id : Z) (db : DB) : response :=
  match get_user_row db user_id with
  | None => error "User not found" 404
  | Some user => (UserBody user, 200)
  end.

Definition get_all_users (db : DB) : response := (UserList (users db), 200).

(** *** Categories *)

Definition create_category (env : Env) (data : gmap string json) (db : DB)
    : response * DB :=
  if is_empty data then (error "No data provided" 400, db) else
  let '(is_valid, error_msg) := validate_required_fields data ["name"; "user_id"] in
  if negb is_valid then ((ErrorBody error_msg, 400), db) else
  match query_key env (find_user db) (getitem data "user_id") with
  | inl r => (r, db)
  | inr None => (error "User not found" 404, db)
  | inr (Some _) =>
      let new_category :=
        Category.mk (next_id (Category.id <$> categories db))
                    (getitem data "name") (get data "description" (JStr ""))
                    (getitem data "user_id") in
      commit env db
        (mkDB (users db) (categories db ++ [new_category]) (tasks db))
        (CategoryBody new_category, 201)
  end.

(** [request.args.get(key, type=int)] *)
Definition get_int (args : gmap string string) (key : string) : option Z :=
  args !! key ≫= py_int.

(** [if n:] for an optional integer: [None] and [0] are both false. *)
Definition truthy_int (n : option Z) : bool :=
  match n with
  | None => false
  | Some n => negb (Z.eqb n 0)
  end.

Definition get_all_categories (args : gmap string string) (db : DB) : response :=
  let query := categories db in
  let user_id := get_int args "user_id" in
  let query :=
    if truthy_int user_id
    then List.filter (λ c, key_eq (default 0 user_id) (Category.user_id c)) query
    else query in
  (CategoryList query, 200).

Definition get_category (category_id : Z) (db : DB) : response :=
  match get_category_row db category_id with
  | None => error "Category not found" 404
  | Some category => (CategoryBody category, 200)
  end.

Definition update_category (env : Env) (category_id : Z)
    (data : gmap string json) (db : DB) : response * DB :=
  if is_empty data then (error "No data provided" 400, db) else
  match get_category_row db category_id with
  | None => (error "Category not found" 404, db)
  | Some category =>
      let '(is_valid, error_msg) := validate_required_fields data ["name"; "user_id"] in
      if negb is_valid then ((ErrorBody error_msg, 400), db) else
      let category :=
        Category.mk (Category.id category)
                    (getitem data "name")
                    (get data "description" (Category.description category))
                    (getitem data "user_id") in
      commit env db
        (mkDB (users db)
              (replace_first (λ c, Z.eqb (Category.id c) category_id) category
                             (categories db))
              (tasks db))
        (CategoryBody category, 200)
  end.

(** The rows [db.delete(category)] removes with it: the relationship
    [Category.tasks] is declared with [cascade='all, delete-orphan']. *)
Definition in_category (category : Category.t) (x : Task.t) : bool :=
  key_eq (Category.id category) (Task.category_id x).

Definition delete_category (env : Env) (category_id : Z) (db : DB)
    : response * DB :=
  match get_category_row db category_id with
  | None => (error "Category not found" 404, db)
  | Some category =>
      commit env db
        (mkDB (users db)
              (remove_first (λ c, Z.eqb (Category.id c) category_id) (categories db))
              (List.filter (λ x, negb (in_category category x)) (tasks db)))
        (MessageBody "Category deleted successfully", 200)
  end.
End Handlers.

(** ** Ordering of column values *)

(** A stored column value as the engine compares it.  [database.py] binds the
    session to SQLite, which has no enum type: the columns [Enum(TaskStatus)]
    and [Enum(TaskPriority)] of [models.py] are text columns holding the
    member name.  Timestamps are compared as instants. *)
Inductive sqlval :=
  | SNull
  | SInt (n : Z)
  | SText (s : string).

(** The engine's [<=] in [ORDER BY]: NULL first, then numbers, then text in
    character-code order. *)
Definition sql_le (a b : sqlval) : bool :=
  match a, b with
  | SNull, _ => true
  | _, SNull => false
  | SInt x, SInt y => Z.leb x y
  | SInt _, SText _ => true
  | SText _, SInt _ => false
  | SText x, SText y => String.leb x y
  end.

(** The label stored for an enum attribute. *)
Definition enum_column {E} `{PyEnum E} (r : resolved E) : sqlval :=
  match r with
  | RNone => SNull
  | RMember e => SText (name e)
  | RRaw (JInt n) => SInt n
  | RRaw (JBool b) => SInt (if b then 1 else 0)
  | RRaw (JStr s) => SText s
  | RRaw _ => SNull
  end.

Definition timestamp_column (d : option datetime) : sqlval :=
  match d with
  | None => SNull
  | Some d => SInt d
  end.

(** [getattr(Task, sort_by)], for the names of the allow-list. *)
Definition sort_column (sort_by : string) (x : Task.t) : sqlval :=
  if String.eqb sort_by "due_date" then timestamp_column (Task.due_date x)
  else if String.eqb sort_by "created_at" then SInt (Task.created_at x)
  else if String.eqb sort_by "priority" then enum_column (Task.priority x)
  else if String.eqb sort_by "status" then enum_column (Task.status x)
  else if String.eqb sort_by "updated_at" then SInt (Task.updated_at x)
  else SNull.

(** [column.asc()] and [column.desc()] as relations on rows. *)
Definition asc (column : Task.t → sqlval) : relation Task.t :=
  λ x y, Is_true (sql_le (column x) (column y)).

Definition desc (column : Task.t → sqlval) : relation Task.t :=
  λ x y, Is_true (sql_le (column y) (column x)).

#[export] Instance asc_dec column x y : Decision (asc column x y).
Proof. unfold asc. apply _. Defined.

#[export] Instance desc_dec column x y : Decision (desc column x y).
Proof. unfold desc. apply _. Defined.

(** [query.order_by(...)]: the rows sorted by the given relation. *)
Definition order_by (R : relation Task.t) `{∀ x y, Decision (R x y)}
    (query : list Task.t) : list Task.t :=
  merge_sort R query.

(** [Task.status == status_enum] as a filter predicate. *)
Definition enum_eq {E} `{EqDecision E} (column bound : resolved E) : bool :=
  match column, bound with
  | RMember a, RMember b => bool_decide (a = b)
  | _, _ => false
  end.

#[export] Instance TaskStatus_eq_dec : EqDecision TaskStatus.
Proof. solve_decision. Defined.

#[export] Instance TaskPriority_eq_dec : EqDecision TaskPriority.
Proof. solve_decision. Defined.

Section TaskHandlers.
Context `{Runtime}.

(** *** Tasks *)

Definition create_task (env : Env) (data : gmap string json) (db : DB)
    : response * DB :=
  if is_empty data then (error "No data provided" 400, db) else
  let '(is_valid, error_msg) :=
    validate_required_fields data ["title"; "category_id"; "user_id"] in
  if negb is_valid then ((ErrorBody error_msg, 400), db) else
  match query_key env (find_user db) (getitem data "user_id") with
  | inl r => (r, db)
  | inr None => (error "User not found" 404, db)
  | inr (Some _) =>
  match query_key env (find_category db) (getitem data "category_id") with
  | inl r => (r, db)
  | inr None => (error "Category not found" 404, db)
  | inr (Some _) =>
  let '(is_valid, error_msg, status) :=
    match data !! "status" with
    | Some v => validate_enum_value v "status"
    | None => (true, None, RMember PENDING)
    end in
  if negb is_valid then ((ErrorBody error_msg, 400), db) else
  let '(is_valid, error_msg, priority) :=
    match data !! "priority" with
    | Some v => validate_enum_value v "priority"
    | None => (true, None, RMember MEDIUM)
    end in
  if negb is_valid then ((ErrorBody error_msg, 400), db) else
  let due_date := parse_datetime (get data "due_date" JNull) in
  let new_task :=
    Task.mk (next_id (Task.id <$> tasks db))
            (getitem data "title") (get data "description" (JStr ""))
            status priority due_date
            (getitem data "category_id") (getitem data "user_id")
            (utcnow env) (utcnow env) in
  match flush_new new_task with
  | None => (database_error env, db)
  | Some new_task =>
      commit env db
        (mkDB (users db) (categories db) (tasks db ++ [new_task]))
        (TaskBody new_task, 201)
  end
  end end.

Definition invalid_sort_by_msg : string :=
  "Invalid sort_by parameter. Must be one of: due_date, created_at, priority, status, updated_at".

Definition invalid_order_msg : string :=
  "Invalid order parameter. Must be asc or desc".

(** The filter of one enum query parameter: skipped when the parameter is
    absent or empty. *)
Definition enum_filter {E} `{PyEnum E, EqDecision E} (args : gmap string string)
    (key : string) (column : Task.t → resolved E) (query : list Task.t)
    : response + list Task.t :=
  match args !! key with
  | None => inr query
  | Some filter_value =>
      if String.eqb filter_value "" then inr query else
      let '(is_valid, error_msg, enum_value) :=
        validate_enum_value (JStr filter_value) key in
      if negb is_valid then inl (ErrorBody error_msg, 400)
      else inr (List.filter (λ x, enum_eq (column x) enum_value) query)
  end.

(** The filter of one integer query parameter: applied when the parsed
    value is truthy. *)
Definition int_filter (args : gmap string string) (key : string)
    (column : Task.t → json) (query : list Task.t) : list Task.t :=
  let n := get_int args key in
  if truthy_int n
  then List.filter (λ x, key_eq (default 0 n) (column x)) query
  else query.

Definition get_all_tasks (args : gmap string string) (db : DB) : response :=
  let result :=
    query ←' enum_filter args "status" Task.status (tasks db) ;;
    query ←' enum_filter args "priority" Task.priority query ;;
    let query := int_filter args "category_id" Task.category_id query in
    let query := int_filter args "user_id" Task.user_id query in
    let sort_by := default "created_at" (args !! "sort_by") in
    let order := lower (default "desc" (args !! "order")) in
    if negb (str_in sort_by ["due_date"; "created_at"; "priority"; "status"; "updated_at"])
    then inl (error invalid_sort_by_msg 400) else
    if negb (str_in order ["asc"; "desc"])
    then inl (error invalid_order_msg 400) else
    let query :=
      if String.eqb order "desc"
      then order_by (desc (sort_column sort_by)) query
      else order_by (asc (sort_column sort_by)) query in
    inr query in
  match result with
  | inl r => r
  | inr tasks => (TaskList tasks, 200)
  end.

Definition get_task (task_id : Z) (db : DB) : response :=
  match get_task_row db task_id with
  | None => error "Task not found" 404
  | Some task => (TaskBody task, 200)
  end.

(** One enum attribute of an update: validated and assigned when the key
    is in the payload, left alone otherwise. *)
Definition assign_enum {E} `{PyEnum E} (data : gmap string json) (key : string)
    (set : resolved E → Task.t → Task.t) (task : Task.t) : response + Task.t :=
  match data !! key with
  | None => inr task
  | Some v =>
      let '(is_valid, error_msg, enum_value) := validate_enum_value v key in
      if negb is_valid then inl (ErrorBody error_msg, 400)
      else inr (set enum_value task)
  end.

(** [if key in data: task.attr = f(data[key])] *)
Definition assign_if_present {A} (data : gmap string json) (key : string)
    (f : json → A) (set : A → Task.t → Task.t) (task : Task.t) : Task.t :=
  match data !! key with
  | None => task
  | Some v => set (f v) task
  end.

(** Write the mutated row object back in place of the row that was read. *)
Definition save_task (env : Env) (task_id : Z) (task : Task.t) (db : DB)
    : response * DB :=
  if flush_dirty task then
    commit env db
      (mkDB (users db) (categories db)
            (replace_first (λ x, Z.eqb (Task.id x) task_id) task (tasks db)))
      (TaskBody task, 200)
  else (database_error env, db).

Definition update_task (env : Env) (task_id : Z) (data : gmap string json)
    (db : DB) : response * DB :=
  if is_empty data then (error "No data provided" 400, db) else
  match get_task_row db task_id with
  | None => (error "Task not found" 404, db)
  | Some task =>
      let '(is_valid, error_msg) :=
        validate_required_fields data ["title"; "category_id"; "user_id"] in
      if negb is_valid then ((ErrorBody error_msg, 400), db) else
      let result :=
        task ←' assign_enum data "status" Task.set_status task ;;
        task ←' assign_enum data "priority" Task.set_priority task ;;
        let task := assign_if_present data "due_date" parse_datetime
                                      Task.set_due_date task in
        let task := Task.set_title (getitem data "title") task in
        let task := Task.set_description (get data "description" (JStr "")) task in
        let task := Task.set_category_id (getitem data "category_id") task in
        let task := Task.set_user_id (getitem data "user_id") task in
        let task := Task.set_updated_at (utcnow env) task in
        inr task in
      match result with
      | inl r => (r, db)
      | inr task => save_task env task_id task db
      end
  end.

(** One foreign key of a partial update: when the key is in the payload the
    referenced row must exist, and the attribute is assigned. *)
Definition assign_reference {R} (env : Env) (data : gmap string json) (key : string)
    (lookup : json → option R) (not_found : string)
    (set : json → Task.t → Task.t) (task : Task.t) : response + Task.t :=
  match data !! key with
  | None => inr task
  | Some v =>
      match query_key env lookup v with
      | inl r => inl r
      | inr None => inl (error not_found 404)
      | inr (Some _) => inr (set v task)
      end
  end.

Definition partial_update_task (env : Env) (task_id : Z)
    (data : gmap string json) (db : DB) : response * DB :=
  if is_empty data then (error "No data provided" 400, db) else
  match get_task_row db task_id with
  | None => (error "Task not found" 404, db)
  | Some task =>
      let result :=
        let task := assign_if_present data "title" id Task.set_title task in
        let task := assign_if_present data "description" id
                                      Task.set_description task in
        task ←' assign_enum data "status" Task.set_status task ;;
        task ←' assign_enum data "priority" Task.set_priority task ;;
        let task := assign_if_present data "due_date" parse_datetime
                                      Task.set_due_date task in
        task ←' assign_reference env data "category_id" (find_category db)
                  "Category not found" Task.set_category_id task ;;
        task ←' assign_reference env data "user_id" (find_user db)
                  "User not found" Task.set_user_id task ;;
        let task := Task.set_updated_at (utcnow env) task in
        inr task in
      match result with
      | inl r => (r, db)
      | inr task => save_task env task_id task db
      end
  end.

Definition delete_task (env : Env) (task_id : Z) (db : DB) : response * DB :=
  match get_task_row db task_id with
  | None => (error "Task not found" 404, db)
  | Some task =>
      commit env db
        (mkDB (users db) (categories db)
              (remove_first (λ x, Z.eqb (Task.id x) task_id) (tasks db)))
        (MessageBody "Task deleted successfully", 200)
  end.
End TaskHandlers.

(** ** Serialisation ([models.py]) *)

(** [self.status.value if isinstance(self.status, TaskStatus) else self.status] *)
Definition enum_to_json {E} `{PyEnum E} (r : resolved E) : json :=
  match r with
  | RNone => JNull
  | RMember e => JStr (value e)
  | RRaw v => v
  end.

Section to_dict.
(** [datetime.isoformat] *)
Context (isoformat : datetime → string).

(** [User.to_dict]; a dictionary keeps the order in which its keys were
    written. *)
Definition user_to_dict (u : User.t) : list (string * json) :=
  [("id", JInt (User.id u));
   ("username", User.username u);
   ("email", User.email u);
   ("created_at", JStr (isoformat (User.created_at u)))].

(** [Category.to_dict] *)
Definition category_to_dict (c : Category.t) : list (string * json) :=
  [("id", JInt (Category.id c));
   ("name", Category.name c);
   ("description", Category.description c);
   ("user_id", Category.user_id c)].

(** [Task.to_dict] *)
Definition task_to_dict (x : Task.t) : list (string * json) :=
  [("id", JInt (Task.id x));
   ("title", Task.title x);
   ("description", Task.description x);
   ("status", enum_to_json (Task.status x));
   ("priority", enum_to_json (Task.priority x));
   ("due_date", match Task.due_date x with
                | Some d => JStr (isoformat d)
                | None => JNull
                end);
   ("category_id", Task.category_id x);
   ("user_id", Task.user_id x);
   ("created_at", JStr (isoformat (Task.created_at x)));
   ("updated_at", JStr (isoformat (Task.updated_at x)))].

(** The body a client decodes from a task representation and may send back. *)
Definition task_payload (x : Task.t) : gmap string json :=
  list_to_map (task_to_dict x).
End to_dict.

(** ** A concrete runtime and store for evaluating the handlers *)

Module Sample.
(** Decimal digits with an optional minus sign. *)
Definition digit (c : ascii) : option Z :=
  let n := nat_of_ascii c in
  if (Nat.leb 48 n && Nat.leb n 57)%bool then Some (Z.of_nat (n - 48)) else None.

Fixpoint digits (acc : Z) (s : string) : option Z :=
  match s with
  | EmptyString => Some acc
  | String c s' =>
      match digit c with
      | Some d => digits (10 * acc + d) s'
      | None => None
      end
  end.

Definition int (s : string) : option Z :=
  match s with
  | EmptyString => None
  | String "-" (String c s') => Z.opp <$> digits 0 (String c s')
  | _ => digits 0 s
  end.

(** Two instants are enough here: midnight and noon of 1 January 2024,
    in seconds since the epoch. *)
Definition isoformat (s : string) : option datetime :=
  if String.eqb s "2024-01-01T00:00:00+00:00" then Some 1704067200
  else if String.eqb s "2024-01-01T12:00:00+00:00" then Some 1704110400
  else None.

Definition int_key_eq (n : Z) (v : json) : bool :=
  match v with
  | JInt m => Z.eqb n m
  | _ => false
  end.

(** [str.upper] for the ASCII letters and the sharp s: "ß", the bytes 195
    and 159 of UTF-8, becomes "SS", and its capital form "ẞ" is kept. *)
Fixpoint str_upper (s : string) : string :=
  match s with
  | EmptyString => EmptyString
  | String c s' =>
      match s' with
      | String d s'' =>
          if (Nat.eqb (nat_of_ascii c) 195 && Nat.eqb (nat_of_ascii d) 159)%bool
          then String "S" (String "S" (str_upper s''))
          else String (upper_ascii c) (str_upper s')
      | EmptyString => String (upper_ascii c) EmptyString
      end
  end.

(** [str.lower] for the ASCII letters and the sharp s: "ẞ", the bytes 225,
    186 and 158, becomes "ß". *)
Fixpoint str_lower (s : string) : string :=
  match s with
  | EmptyString => EmptyString
  | String c s' =>
      match s' with
      | String d (String e s'') =>
          if (Nat.eqb (nat_of_ascii c) 225 && Nat.eqb (nat_of_ascii d) 186
              && Nat.eqb (nat_of_ascii e) 158)%bool
          then String "195" (String "159" (str_lower s''))
          else String (lower_ascii c) (str_lower s')
      | _ => String (lower_ascii c) (str_lower s')
      end
  end.

Lemma string_ind3 (P : string → Prop) :
  P "" → (∀ c, P (String c "")) → (∀ c d, P (String c (String d ""))) →
  (∀ c d e s, P s → P (String e s) → P (String d (String e s)) →
              P (String c (String d (String e s)))) →
  ∀ s, P s.
Proof.
  intros H0 H1 H2 H3 s.
  assert (P s ∧ (∀ e, P (String e s)) ∧ (∀ d e, P (String d (String e s)))) as [? _].
  { induction s as [|c s (IH0 & IH1 & IH2)]; [by auto|].
    split; [apply IH1|]. split; [intros e; apply IH2|].
    intros d e. apply H3; [done | apply IH1 | apply IH2]. }
  done.
Qed.

Lemma upper_ascii_byte (c : ascii) :
  upper_ascii (upper_ascii c) = upper_ascii c
  ∧ (Nat.ltb (nat_of_ascii c) 128 = true → Nat.eqb (nat_of_ascii c) 195 = false)
  ∧ Nat.eqb (nat_of_ascii (upper_ascii c)) 195 = Nat.eqb (nat_of_ascii c) 195
  ∧ Nat.eqb (nat_of_ascii (upper_ascii c)) 159 = Nat.eqb (nat_of_ascii c) 159.
Proof. destruct c as [[] [] [] [] [] [] [] []]; vm_compute; by auto. Qed.

Lemma lower_ascii_byte (c : ascii) :
  lower_ascii (lower_ascii c) = lower_ascii c
  ∧ (Nat.ltb (nat_of_ascii c) 128 = true → Nat.eqb (nat_of_ascii c) 225 = false)
  ∧ Nat.eqb (nat_of_ascii (lower_ascii c)) 225 = Nat.eqb (nat_of_ascii c) 225
  ∧ Nat.eqb (nat_of_ascii (lower_ascii c)) 186 = Nat.eqb (nat_of_ascii c) 186
  ∧ Nat.eqb (nat_of_ascii (lower_ascii c)) 158 = Nat.eqb (nat_of_ascii c) 158.
Proof. destruct c as [[] [] [] [] [] [] [] []]; vm_compute; by auto. Qed.

Lemma upper_on_ascii_text (s : string) : ascii_text s = true → str_upper s = upper_letters s.
Proof.
  induction s as [|c s IH]; [done|].
  intros [Hc Hs]%andb_prop. specialize (IH Hs).
  destruct (upper_ascii_byte c) as (_ & Hno & _). specialize (Hno Hc).
  change (upper_letters (String c s)) with (String (upper_ascii c) (upper_letters s)).
  rewrite <- IH. destruct s as [|d s]; [done|].
  change (str_upper (String c (String d s)))
    with (if (Nat.eqb (nat_of_ascii c) 195 && Nat.eqb (nat_of_ascii d) 159)%bool
          then String "S" (String "S" (str_upper s))
          else String (upper_ascii c) (str_upper (String d s))).
  by rewrite Hno.
Qed.

Lemma upper_of_upper_letters (s : string) : str_upper (upper_letters s) = str_upper s.
Proof.
  induction s as [|c|c d|c d e s _ IH1 IH2] using string_ind3.
  - done.
  - simpl. by destruct (upper_ascii_byte c) as (-> & _).
  - destruct (upper_ascii_byte c) as (Hcc & _ & Hc & _).
    destruct (upper_ascii_byte d) as (Hdd & _ & _ & Hd).
    simpl. rewrite Hc, Hd, Hcc, Hdd. done.
  - destruct (upper_ascii_byte c) as (Hcc & _ & Hc & _).
    destruct (upper_ascii_byte d) as (_ & _ & _ & Hd).
    change (upper_letters (String c (String d (String e s))))
      with (String (upper_ascii c) (upper_letters (String d (String e s)))).
    change (upper_letters (String d (String e s)))
      with (String (upper_ascii d) (upper_letters (String e s))) in *.
    change (str_upper (String (upper_ascii c) (String (upper_ascii d) (upper_letters (String e s)))))
      with (if (Nat.eqb (nat_of_ascii (upper_ascii c)) 195
                && Nat.eqb (nat_of_ascii (upper_ascii d)) 159)%bool
            then String "S" (String "S" (str_upper (upper_letters (String e s))))
            else String (upper_ascii (upper_ascii c))
                   (str_upper (String (upper_ascii d) (upper_letters (String e s))))).
    change (str_upper (String c (String d (String e s))))
      with (if (Nat.eqb (nat_of_ascii c) 195 && Nat.eqb (nat_of_ascii d) 159)%bool
            then String "S" (String "S" (str_upper (String e s)))
            else String (upper_ascii c) (str_upper (String d (String e s)))).
    by rewrite Hc, Hd, Hcc, IH1, IH2.
Qed.

Lemma lower_on_ascii_text (s : string) : ascii_text s = true → str_lower s = lower_letters s.
Proof.
  induction s as [|c s IH]; [done|].
  intros [Hc Hs]%andb_prop. specialize (IH Hs).
  destruct (lower_ascii_byte c) as (_ & Hno & _). specialize (Hno Hc).
  change (lower_letters (String c s)) with (String (lower_ascii c) (lower_letters s)).
  rewrite <- IH. destruct s as [|d [|e s]]; [done..|].
  change (str_lower (String c (String d (String e s))))
    with (if (Nat.eqb (nat_of_ascii c) 225 && Nat.eqb (nat_of_ascii d) 186
              && Nat.eqb (nat_of_ascii e) 158)%bool
          then String "195" (String "159" (str_lower s))
          else String (lower_ascii c) (str_lower (String d (String e s)))).
  by rewrite Hno.
Qed.

Lemma lower_of_lower_letters (s : string) : str_lower (lower_letters s) = str_lower s.
Proof.
  induction s as [|c|c d|c d e s IH0 IH1 IH2] using string_ind3.
  - done.
  - simpl. by destruct (lower_ascii_byte c) as (-> & _).
  - destruct (lower_ascii_byte c) as (Hcc & _).
    destruct (lower_ascii_byte d) as (Hdd & _).
    simpl. by rewrite Hcc, Hdd.
  - destruct (lower_ascii_byte c) as (Hcc & _ & Hc & _).
    destruct (lower_ascii_byte d) as (_ & _ & _ & Hd & _).
    destruct (lower_ascii_byte e) as (_ & _ & _ & _ & He).
    change (lower_letters (String c (String d (String e s))))
      with (String (lower_ascii c) (String (lower_ascii d)
              (String (lower_ascii e) (lower_letters s)))).
    change (lower_letters (String d (String e s)))
      with (String (lower_ascii d) (String (lower_ascii e) (lower_letters s))) in IH2.
    change (str_lower (String (lower_ascii c) (String (lower_ascii d)
              (String (lower_ascii e) (lower_letters s)))))
      with (if (Nat.eqb (nat_of_ascii (lower_ascii c)) 225
                && Nat.eqb (nat_of_ascii (lower_ascii d)) 186
                && Nat.eqb (nat_of_ascii (lower_ascii e)) 158)%bool
            then String "195" (String "159" (str_lower (lower_letters s)))
            else String (lower_ascii (lower_ascii c))
                   (str_lower (String (lower_ascii d)
                             (String (lower_ascii e) (lower_letters s))))).
    change (str_lower (String c (String d (String e s))))
      with (if (Nat.eqb (nat_of_ascii c) 225 && Nat.eqb (nat_of_ascii d) 186
                && Nat.eqb (nat_of_ascii e) 158)%bool
            then String "195" (String "159" (str_lower s))
            else String (lower_ascii c) (str_lower (String d (String e s)))).
    by rewrite Hc, Hd, He, Hcc, IH0, IH2.
Qed.

Definition runtime : Runtime := {|
  fromisoformat := isoformat;
  py_int := int;
  key_eq := int_key_eq;
  upper := str_upper;
  lower := str_lower;
  upper_ascii_text := upper_on_ascii_text;
  upper_upper_letters := upper_of_upper_letters;
  lower_ascii_text := lower_on_ascii_text;
  lower_lower_letters := lower_of_lower_letters;
|}.

Definition alice : User.t := User.mk 1 (JStr "alice") (JStr "alice@example.com") 100.

Definition work : Category.t := Category.mk 1 (JStr "Work") (JStr "") (JInt 1).

Definition task (id : Z) (status : TaskStatus) (priority : TaskPriority)
    (created_at : datetime) : Task.t :=
  Task.mk id (JStr "task") (JStr "") (RMember status) (RMember priority) None
          (JInt 1) (JInt 1) created_at created_at.

Definition db : DB :=
  mkDB [alice] [work]
       [task 1 PENDING LOW 101; task 2 COMPLETED HIGH 102; task 3 IN_PROGRESS MEDIUM 103].

Definition env (now : datetime) : Env := mkEnv now Committed "statement refused".

(** Payloads. *)
Definition raise_priority : gmap string json := {[ "priority" := JStr "high" ]}.

(** A full update of task 1 that points it at category 999, and a full
    update of category 1 that points it at user 999; neither row exists. *)
Definition move_task : gmap string json :=
  {[ "title" := JStr "task"; "category_id" := JInt 999; "user_id" := JInt 1 ]}.
Definition move_category : gmap string json :=
  {[ "name" := JStr "Work"; "user_id" := JInt 999 ]}.

(** A new task without a title in category 999, and a new task of the user
    with the key 2^63; neither row exists. *)
Definition untitled : gmap string json :=
  {[ "category_id" := JInt 999; "user_id" := JInt 1 ]}.
Definition huge_user : gmap string json :=
  {[ "title" := JStr "task"; "category_id" := JInt 1; "user_id" := JInt (2 ^ 63) ]}.

(** A new task whose status is the number 5. *)
Definition numeric_status : gmap string json :=
  {[ "title" := JStr "task"; "category_id" := JInt 1; "user_id" := JInt 1;
     "status" := JInt 5 ]}.

(** Query strings. *)
Definition pending_only : gmap string string := {[ "status" := "pending" ]}.
Definition by_priority_asc : gmap string string :=
  {[ "sort_by" := "priority"; "order" := "asc" ]}.
Definition by_status_asc : gmap string string :=
  {[ "sort_by" := "status"; "order" := "asc" ]}.
End Sample.

(** More rows and payloads for evaluating the handlers. *)
Module Fixture.
(** The two instants of [Sample.isoformat], printed. *)
Definition isoformat (d : datetime) : string :=
  if Z.eqb d 1704067200 then "2024-01-01T00:00:00+00:00"
  else "2024-01-01T12:00:00+00:00".

Definition report : Task.t :=
  Task.mk 7 (JStr "report") (JStr "Q4 figures") (RMember IN_PROGRESS) (RMember HIGH)
          (Some 1704067200) (JInt 1) (JInt 1) 150 160.

Definition home : Category.t := Category.mk 2 (JStr "Home") (JStr "") (JInt 1).

Definition chore : Task.t :=
  Task.mk 8 (JStr "chore") (JStr "") (RMember PENDING) (RMember LOW) None
          (JInt 2) (JInt 1) 170 170.

Definition db : DB :=
  mkDB [Sample.alice] [Sample.work; home] [Sample.task 1 PENDING LOW 101; report; chore].

Definition new_task : gmap string json :=
  {[ "title" := JStr "errand"; "category_id" := JInt 2; "user_id" := JInt 1;
     "status" := JNull ]}.

Definition new_category : gmap string json :=
  {[ "name" := JStr "Garden"; "user_id" := JInt 1 ]}.

Definition new_user : gmap string json :=
  {[ "username" := JStr "bob"; "email" := JStr "bob@example.com" ]}.

Definition rename : gmap string json :=
  {[ "title" := JStr "report v2"; "category_id" := JInt 1; "user_id" := JInt 1 ]}.

Definition in_home : gmap string string := {[ "category_id" := "2" ]}.
End Fixture.

(** ** Vocabulary of the properties *)

(** A field that is not in the payload, or is the empty string there. *)
Definition absent_or_empty (data : gmap string json) (field : string) : Prop :=
  data !! field = None ∨ data !! field = Some (JStr "").

(** Two characters that are the same ASCII letter in possibly different
    case, or the same character. *)
Definition same_letter (a b : ascii) : bool :=
  let m := nat_of_ascii a in
  let n := nat_of_ascii b in
  (Nat.eqb m n
   || (Nat.leb 97 m && Nat.leb m 122 && Nat.eqb n (m - 32))
   || (Nat.leb 65 m && Nat.leb m 90 && Nat.eqb n (m + 32)))%bool.

(** Two strings that differ only in letter case. *)
Fixpoint differ_only_in_case (s1 s2 : string) : bool :=
  match s1, s2 with
  | EmptyString, EmptyString => true
  | String a s1', String b s2' => same_letter a b && differ_only_in_case s1' s2'
  | _, _ => false
  end.

(** [c in s] for a character. *)
Fixpoint occurs (c : ascii) (s : string) : bool :=
  match s with
  | EmptyString => false
  | String c' s' => Ascii.eqb c' c || occurs c s'
  end.

(** Position of a member in the declaration of its class. *)
Definition status_ordinal (e : TaskStatus) : nat :=
  match e with PENDING => 0 | IN_PROGRESS => 1 | COMPLETED => 2 end.

Definition priority_ordinal (e : TaskPriority) : nat :=
  match e with LOW => 0 | MEDIUM => 1 | HIGH => 2 end.

(** Position of a member when the stored labels are put in alphabetical
    order. *)
Definition status_alphabetical (e : TaskStatus) : nat :=
  match e with COMPLETED => 0 | IN_PROGRESS => 1 | PENDING => 2 end.

Definition priority_alphabetical (e : TaskPriority) : nat :=
  match e with HIGH => 0 | LOW => 1 | MEDIUM => 2 end.

(** Two rows are in order with respect to a ranking of the members held by
    an enum attribute; rows holding no member are not constrained. *)
Definition ranked {E} (rank : E → nat) (column : Task.t → resolved E)
    : relation Task.t :=
  λ x y, match column x, column y with
         | RMember a, RMember b => (rank a ≤ rank b)%nat
         | _, _ => True
         end.

(** The row a partial update is to leave behind: each attribute whose key is
    in the payload takes the value resolved from the payload, every other
    attribute keeps its value, and [updated_at] is the time of the update. *)
Definition patched `{Runtime} (data : gmap string json) (now : datetime) (x : Task.t) : Task.t :=
  Task.mk (Task.id x)
    (default (Task.title x) (data !! "title"))
    (default (Task.description x) (data !! "description"))
    (match data !! "status" with
     | Some v => (validate_enum_value v "status").2
     | None => Task.status x
     end)
    (match data !! "priority" with
     | Some v => (validate_enum_value v "priority").2
     | None => Task.priority x
     end)
    (match data !! "due_date" with
     | Some v => parse_datetime v
     | None => Task.due_date x
     end)
    (default (Task.category_id x) (data !! "category_id"))
    (default (Task.user_id x) (data !! "user_id"))
    (Task.created_at x)
    now.

(** The payload passes every check of the partial update against a store. *)
Definition patch_accepted `{Runtime} (data : gmap string json) (db : DB) : Prop :=
  is_empty data = false
  ∧ (∀ v, data !! "status" = Some v → (validate_enum_value (E:=TaskStatus) v "status").1.1 = true)
  ∧ (∀ v, data !! "priority" = Some v → (validate_enum_value (E:=TaskPriority) v "priority").1.1 = true)
  ∧ (∀ v, data !! "category_id" = Some v → bind v = Bound ∧ is_Some (find_category db v))
  ∧ (∀ v, data !! "user_id" = Some v → bind v = Bound ∧ is_Some (find_user db v)).

(** What a partial update must leave alone: the key, the creation time and
    every attribute whose key is not in the payload. *)
Definition untouched (data : gmap string json) (old new : Task.t) : Prop :=
  Task.id new = Task.id old
  ∧ Task.created_at new = Task.created_at old
  ∧ (data !! "title" = None → Task.title new = Task.title old)
  ∧ (data !! "description" = None → Task.description new = Task.description old)
  ∧ (data !! "status" = None → Task.status new = Task.status old)
  ∧ (data !! "priority" = None → Task.priority new = Task.priority old)
  ∧ (data !! "due_date" = None → Task.due_date new = Task.due_date old)
  ∧ (data !! "category_id" = None → Task.category_id new = Task.category_id old)
  ∧ (data !! "user_id" = None → Task.user_id new = Task.user_id old).

(** Two stores that hold the same rows, except that rows of task [task_id]
    may differ in [updated_at]. *)
Definition same_except_updated_at (task_id : Z) (db1 db2 : DB) : Prop :=
  users db1 = users db2
  ∧ categories db1 = categories db2
  ∧ Forall2 (λ x y, y = x ∨ (Task.id x = task_id
                             ∧ y = Task.set_updated_at (Task.updated_at y) x))
            (tasks db1) (tasks db2).

(** A response that reports a failure: any status other than 200 and 201. *)
Definition failed (r : response) : Prop := r.2 ≠ 200 ∧ r.2 ≠ 201.

(** The reply to an enum value that failed validation. *)
Definition invalid_enum (E : Type) `{PyEnum E} (field_name : string) : response :=
  (ErrorBody (Some (invalid_enum_msg E field_name)), 400).

(** *** Vocabulary of the further properties *)

(** The row a full update is to leave behind: the required attributes and the
    description come from the payload (the description is emptied when its
    key is absent), the enum attributes and the due date change only when
    their key is in the payload, and [updated_at] is the time of the update. *)
Definition replaced `{Runtime} (data : gmap string json) (now : datetime) (x : Task.t)
    : Task.t :=
  Task.mk (Task.id x)
    (getitem data "title")
    (get data "description" (JStr ""))
    (match data !! "status" with
     | Some v => (validate_enum_value v "status").2
     | None => Task.status x
     end)
    (match data !! "priority" with
     | Some v => (validate_enum_value v "priority").2
     | None => Task.priority x
     end)
    (match data !! "due_date" with
     | Some v => parse_datetime v
     | None => Task.due_date x
     end)
    (getitem data "category_id")
    (getitem data "user_id")
    (Task.created_at x)
    now.

(** The payload passes every check of the full update. *)
Definition put_accepted `{Runtime} (data : gmap string json) : Prop :=
  (validate_required_fields data ["title"; "category_id"; "user_id"]).1 = true
  ∧ (∀ v, data !! "status" = Some v →
          (validate_enum_value (E:=TaskStatus) v "status").1.1 = true)
  ∧ (∀ v, data !! "priority" = Some v →
          (validate_enum_value (E:=TaskPriority) v "priority").1.1 = true).

(** The row a creation hands to the flush: the attributes come from the
    payload, with PENDING and MEDIUM for an absent [status] and [priority],
    the empty string for an absent description, and the time of the request
    in both timestamps. *)
Definition created `{Runtime} (data : gmap string json) (now : datetime) (db : DB)
    : Task.t :=
  Task.mk (next_id (Task.id <$> tasks db))
    (getitem data "title")
    (get data "description" (JStr ""))
    (match data !! "status" with
     | Some v => (validate_enum_value v "status").2
     | None => RMember PENDING
     end)
    (match data !! "priority" with
     | Some v => (validate_enum_value v "priority").2
     | None => RMember MEDIUM
     end)
    (parse_datetime (get data "due_date" JNull))
    (getitem data "category_id")
    (getitem data "user_id")
    now
    now.

(** The payload passes every check of the task creation against a store. *)
Definition post_accepted `{Runtime} (data : gmap string json) (db : DB) : Prop :=
  (validate_required_fields data ["title"; "category_id"; "user_id"]).1 = true
  ∧ bind (getitem data "user_id") = Bound
  ∧ is_Some (find_user db (getitem data "user_id"))
  ∧ bind (getitem data "category_id") = Bound
  ∧ is_Some (find_category db (getitem data "category_id"))
  ∧ (∀ v, data !! "status" = Some v →
          (validate_enum_value (E:=TaskStatus) v "status").1.1 = true)
  ∧ (∀ v, data !! "priority" = Some v →
          (validate_enum_value (E:=TaskPriority) v "priority").1.1 = true).

(** A row matches one enum query parameter: no parameter or an empty one
    matches every row, a member name matches the rows holding that member. *)
Definition enum_selected `{Runtime} {E} `{PyEnum E, EqDecision E} (args : gmap string string)
    (key : string) (column : Task.t → resolved E) (x : Task.t) : bool :=
  match args !! key with
  | None => true
  | Some s =>
      if String.eqb s "" then true
      else match enum_getitem (upper s) with
           | Some e => enum_eq (column x) (RMember e)
           | None => false
           end
  end.

(** A row matches one integer query parameter: no parameter, one that is not
    an integer, or 0 matches every row. *)
Definition int_selected `{Runtime} (args : gmap string string) (key : string)
    (column : Task.t → json) (x : Task.t) : bool :=
  match get_int args key with
  | None => true
  | Some n => if Z.eqb n 0 then true else key_eq n (column x)
  end.

(** A row matches all four filters of the task listing. *)
Definition selected `{Runtime} (args : gmap string string) (x : Task.t) : bool :=
  enum_selected args "status" Task.status x
  && enum_selected args "priority" Task.priority x
  && int_selected args "category_id" Task.category_id x
  && int_selected args "user_id" Task.user_id x.

(** A response is either the success of its handler, with a body that is not
    an error, or one of the listed failures, with an error message. *)
Definition answers (success : Z) (failures : list Z) (r : response) : Prop :=
  (r.2 = success ∧ ∀ msg, r.1 ≠ ErrorBody msg)
  ∨ (r.2 ∈ failures ∧ ∃ msg, r.1 = ErrorBody (Some msg)).

(** Every reference held by a row resolves: each category names a user that
    is found, each task names a user and a category that are found. *)
Definition consistent `{Runtime} (db : DB) : Prop :=
  (∀ c, c ∈ categories db → is_Some (find_user db (Category.user_id c)))
  ∧ (∀ x, x ∈ tasks db →
          is_Some (find_user db (Task.user_id x))
          ∧ is_Some (find_category db (Task.category_id x))).

(** Between two stores only rows of task [task_id] differ, and those keep
    their key and creation time. *)
Definition only_task_changed (task_id : Z) (db db' : DB) : Prop :=
  users db' = users db
  ∧ categories db' = categories db
  ∧ Forall2 (λ old new, new = old
                        ∨ (Task.id old = task_id ∧ Task.id new = task_id
                           ∧ Task.created_at new = Task.created_at old))
            (tasks db) (tasks db').

(** Between two stores only rows of category [category_id] differ, and those
    keep their key. *)
Definition only_category_changed (category_id : Z) (db db' : DB) : Prop :=
  users db' = users db
  ∧ tasks db' = tasks db
  ∧ Forall2 (λ old new, new = old
                        ∨ (Category.id old = category_id
                           ∧ Category.id new = category_id))
            (categories db) (categories db').

(** ** Proof automation *)

(** Rewriting of the lookups a handler makes in a payload with one key set. *)
Ltac payload_lookups :=
  unfold getitem, get, assign_enum, assign_if_present, assign_reference;
  repeat first
    [ rewrite lookup_insert_eq
    | rewrite lookup_insert_ne by done
    | rewrite lookup_delete_eq
    | rewrite lookup_delete_ne by done ].

(** An error path: every branch of the handler that answers with a failure
    returns the store it was given. *)
Ltac error_path :=
  intros Hrun [H200 H201]; revert Hrun H200 H201;
  unfold save_task, commit, and_then, error;
  repeat case_match; intros; simplify_eq; simpl in *; congruence.

(** Membership in a list of status codes. *)
Ltac answer_mem :=
  repeat first [apply list_elem_of_here | apply list_elem_of_further].

(** Closing a goal about the status and body of a computed response. *)
Ltac answer :=
  unfold answers, error; simpl;
  first
    [ left; split; [reflexivity | intros ? ?; discriminate]
    | right; split; [answer_mem | by eexists] ].

(** ** Properties *)

(** *** Required fields *)

Lemma missing_or_empty_spec data field :
  missing_or_empty data field = true ↔ absent_or_empty data field.
Proof.
  unfold missing_or_empty, absent_or_empty.
  destruct (data !! field) as [[]|] eqn:E; try (split; [discriminate | intros [|]; congruence]).
  - rewrite String.eqb_eq. split.
    + intros ->. by right.
    + intros [|]; congruence.
  - split; auto.
Qed.

Lemma filter_sublist {A} (p : A → bool) (l : list A) : sublist (List.filter p l) l.
Proof.
  induction l as [|x l IH]; simpl.
  - constructor.
  - destruct (p x); by constructor.
Qed.

Lemma missing_or_empty_insert_empty data f field :
  missing_or_empty (<[f := JStr ""]> data) field = missing_or_empty (delete f data) field.
Proof.
  unfold missing_or_empty. destruct (decide (f = field)) as [->|Hne].
  - by rewrite lookup_insert_eq, lookup_delete_eq.
  - by rewrite lookup_insert_ne, lookup_delete_ne.
Qed.

Lemma validate_required_fields_message data fields msg :
  validate_required_fields data fields = (false, msg) → ∃ s, msg = Some s.
Proof.
  unfold validate_required_fields. destruct (List.filter _ _); [done|].
  intros [= <-]. by eexists.
Qed.

(** C4.  [validate_required_fields] fails exactly when some required field
    is absent or the empty string; the message then joins, in the order of
    the required list, every such field and no other; an absent field and an
    empty-string field cannot be told apart; with no such field the
    validation succeeds without a message. *)
Theorem validate_required_fields_enumerates_all
    (data : gmap string json) (required_fields : list string) :
  ∃ missing_fields : list string,
    sublist missing_fields required_fields
    ∧ (∀ field, field ∈ missing_fields ↔
                field ∈ required_fields ∧ absent_or_empty data field)
    ∧ validate_required_fields data required_fields =
        match missing_fields with
        | [] => (true, None)
        | _ => (false, Some ("Missing required fields: " +:+ join ", " missing_fields))
        end
    ∧ (∀ f, validate_required_fields (<[f := JStr ""]> data) required_fields
            = validate_required_fields (delete f data) required_fields).
Proof.
  exists (List.filter (missing_or_empty data) required_fields).
  split; [apply filter_sublist|]. split; [|split].
  - intros field. rewrite !list_elem_of_In, filter_In, missing_or_empty_spec. tauto.
  - reflexivity.
  - intros f. unfold validate_required_fields.
    assert (List.filter (missing_or_empty (<[f:=JStr ""]> data)) required_fields
            = List.filter (missing_or_empty (delete f data)) required_fields) as ->; [|done].
    apply filter_ext. intros a. apply missing_or_empty_insert_empty.
Qed.

(** *** Enum values *)

Lemma upper_ascii_code c :
  upper_ascii c =
  ascii_of_nat (if (Nat.leb 97 (nat_of_ascii c) && Nat.leb (nat_of_ascii c) 122)%bool
                then nat_of_ascii c - 32 else nat_of_ascii c).
Proof.
  unfold upper_ascii. destruct (_ && _)%bool; [done | by rewrite ascii_nat_embedding].
Qed.

Lemma same_letter_upper a b :
  same_letter a b = true → upper_ascii a = upper_ascii b.
Proof.
  rewrite !upper_ascii_code. unfold same_letter.
  generalize (nat_of_ascii a) (nat_of_ascii b). intros m n Hs. f_equal.
  destruct (Nat.leb_spec 97 m), (Nat.leb_spec m 122), (Nat.leb_spec 65 m),
    (Nat.leb_spec m 90), (Nat.eqb_spec m n), (Nat.eqb_spec n (m - 32)),
    (Nat.eqb_spec n (m + 32)); simpl in Hs; try discriminate;
  destruct (Nat.leb_spec 97 n), (Nat.leb_spec n 122); simpl; lia.
Qed.

Lemma differ_only_in_case_upper_letters s1 s2 :
  differ_only_in_case s1 s2 = true → upper_letters s1 = upper_letters s2.
Proof.
  revert s2. induction s1 as [|a s1 IH]; intros [|b s2]; simpl; try done.
  intros [Hab Hs]%andb_prop.
  by rewrite (same_letter_upper _ _ Hab), (IH _ Hs).
Qed.

Lemma enum_getitem_None {E} `{PyEnum E} (key : string) :
  enum_getitem key = None ↔ ∀ e, e ∈ members → name e ≠ key.
Proof.
  unfold enum_getitem. split.
  - intros Hf e He%list_elem_of_In Hn.
    apply (find_none _ _ Hf) in He. simpl in He.
    apply String.eqb_neq in He. done.
  - intros Hall. destruct (List.find _ _) as [e|] eqn:Hf; [|done].
    apply find_some in Hf as [He Hn]. apply String.eqb_eq in Hn.
    exfalso. apply (Hall e); [by apply list_elem_of_In | done].
Qed.

Lemma enum_getitem_Some {E} `{PyEnum E} (key : string) (e : E) :
  enum_getitem key = Some e → e ∈ members ∧ name e = key.
Proof.
  unfold enum_getitem. intros [He Hn]%find_some.
  split; [by apply list_elem_of_In | by apply String.eqb_eq].
Qed.

(** With member names that are all different, the lookup by a member's name
    gives that member. *)
Lemma enum_getitem_name {E} `{PyEnum E} (e : E) :
  NoDup (name <$> members) → e ∈ members → enum_getitem (name e) = Some e.
Proof.
  unfold enum_getitem. generalize (members (E:=E)) as l.
  induction l as [|x l IH]; [by intros _ ?%elem_of_nil|].
  rewrite fmap_cons. intros [Hx Hl]%NoDup_cons He. simpl.
  destruct (String.eqb_spec (name x) (name e)) as [Heq|Hne].
  - apply elem_of_cons in He as [->|He]; [done|].
    exfalso. apply Hx. rewrite Heq. apply list_elem_of_fmap. by exists e.
  - apply elem_of_cons in He as [->|He]; [done|]. by apply IH.
Qed.

Section EnumValues.
Context `{Runtime}.

Lemma differ_only_in_case_upper s1 s2 :
  differ_only_in_case s1 s2 = true → upper s1 = upper s2.
Proof.
  intros Hs. rewrite <- (upper_upper_letters s1), <- (upper_upper_letters s2).
  by rewrite (differ_only_in_case_upper_letters _ _ Hs).
Qed.

(** The upper-case form of a member's value is the member's name. *)
Lemma upper_status_value (e : TaskStatus) : upper (value e) = name e.
Proof. rewrite upper_ascii_text by (by destruct e). by destruct e. Qed.

Lemma upper_priority_value (e : TaskPriority) : upper (value e) = name e.
Proof. rewrite upper_ascii_text by (by destruct e). by destruct e. Qed.

Lemma validate_enum_value_member {E} `{PyEnum E} (s : string) (e : E)
    (field_name : string) :
  NoDup (name <$> members) → e ∈ members → name e = upper s →
  validate_enum_value (JStr s) field_name = (true, None, RMember e).
Proof.
  intros Hnd He Hn. simpl. by rewrite <- Hn, (enum_getitem_name e Hnd He).
Qed.

(** C5, as amended.  For either enum class: a null value validates with no
    resolved value; two strings that differ only in the case of their ASCII
    letters get the same result; a string resolves to a member exactly when
    its upper-case form, as [str.upper] gives it, is the name of that
    member, so every spelling of a member's value in ASCII letters of either
    case resolves to that member; a string whose upper-case form is no
    member name fails with the message that names the field and lists every
    member value in declaration order, which for the two enums of the model
    are the lowercase labels. *)
Theorem validate_enum_value_strings {E} `{PyEnum E} (field_name : string) :
  validate_enum_value (E:=E) JNull field_name = (true, None, RNone)
  ∧ (∀ s1 s2, differ_only_in_case s1 s2 = true →
       validate_enum_value (E:=E) (JStr s1) field_name
       = validate_enum_value (E:=E) (JStr s2) field_name)
  ∧ (∀ s e, validate_enum_value (E:=E) (JStr s) field_name = (true, None, RMember e) →
       e ∈ members ∧ name e = upper s)
  ∧ (∀ s (e : E), NoDup (name <$> members (E:=E)) → e ∈ members → name e = upper s →
       validate_enum_value (JStr s) field_name = (true, None, RMember e))
  ∧ (∀ s, (∀ e : E, e ∈ members → name e ≠ upper s) →
       validate_enum_value (E:=E) (JStr s) field_name =
         (false,
          Some ("Invalid " +:+ field_name +:+ ". Must be one of: "
                +:+ join ", " (value <$> members (E:=E))),
          RNone))
  ∧ (∀ s (e : TaskStatus), differ_only_in_case s (value e) = true →
       validate_enum_value (JStr s) field_name = (true, None, RMember e))
  ∧ (∀ s (e : TaskPriority), differ_only_in_case s (value e) = true →
       validate_enum_value (JStr s) field_name = (true, None, RMember e))
  ∧ validate_enum_value (JStr "HIGH") "priority" = (true, None, RMember HIGH)
  ∧ validate_enum_value (JStr "high") "priority" = (true, None, RMember HIGH)
  ∧ validate_enum_value (E:=TaskPriority) (JStr "urgent") "priority" =
      (false, Some "Invalid priority. Must be one of: low, medium, high", RNone)
  ∧ validate_enum_value (E:=TaskStatus) (JStr "done") "status" =
      (false, Some "Invalid status. Must be one of: pending, in_progress, completed", RNone).
Proof.
  assert (Hstatus : ∀ s (e : TaskStatus), differ_only_in_case s (value e) = true →
            validate_enum_value (JStr s) field_name = (true, None, RMember e)).
  { intros s e Hs. simpl.
    rewrite (differ_only_in_case_upper _ _ Hs), upper_status_value. by destruct e. }
  assert (Hpriority : ∀ s (e : TaskPriority), differ_only_in_case s (value e) = true →
            validate_enum_value (JStr s) field_name = (true, None, RMember e)).
  { intros s e Hs. simpl.
    rewrite (differ_only_in_case_upper _ _ Hs), upper_priority_value. by destruct e. }
  split; [done|]. split; [|split; [|split; [|split; [|split; [|split]]]]].
  - intros s1 s2 Hs. simpl. by rewrite (differ_only_in_case_upper _ _ Hs).
  - intros s e. simpl. destruct (enum_getitem (upper s)) as [e'|] eqn:Hg; [|done].
    intros [= <-]. by apply enum_getitem_Some.
  - intros s e. apply validate_enum_value_member.
  - intros s Hs. simpl. apply enum_getitem_None in Hs. by rewrite Hs.
  - done.
  - done.
  - split; [|split; [|split]]; simpl; by rewrite upper_ascii_text.
Qed.
End EnumValues.

(** C5, as stated, fails beyond ASCII.  The strings "in_progreß" and
    "in_progreẞ" differ only in the case of their last letter ([str.lower]
    gives "in_progreß" for both), yet the first resolves to IN_PROGRESS,
    because [str.upper] turns "ß" into "SS", and the second is rejected; and
    the first, which is no spelling of a member's name or value, is not
    rejected. *)
Lemma validate_enum_value_beyond_ascii :
  @lower Sample.runtime "in_progreẞ" = @lower Sample.runtime "in_progreß"
  ∧ "in_progreẞ" ≠ "in_progreß"
  ∧ @upper Sample.runtime "in_progreß" = "IN_PROGRESS"
  ∧ @validate_enum_value Sample.runtime TaskStatus _ (JStr "in_progreß") "status"
    = (true, None, RMember IN_PROGRESS)
  ∧ @validate_enum_value Sample.runtime TaskStatus _ (JStr "in_progreẞ") "status"
    = (false, Some "Invalid status. Must be one of: pending, in_progress, completed",
       RNone).
Proof. repeat split; done. Qed.

(** *** Due dates *)

Lemma append_cons x (a b : string) : String x a +:+ b = String x (a +:+ b).
Proof. reflexivity. Qed.

Lemma append_nil (b : string) : "" +:+ b = b.
Proof. reflexivity. Qed.

Lemma append_assoc (a b c : string) : (a +:+ b) +:+ c = a +:+ (b +:+ c).
Proof.
  induction a as [|x a IH]; [by rewrite !append_nil|].
  by rewrite !append_cons, IH.
Qed.

Lemma replace_append old new (a b : string) :
  replace old new (a +:+ b) = replace old new a +:+ replace old new b.
Proof.
  induction a as [|x a IH]; [by rewrite !append_nil|].
  rewrite append_cons. simpl.
  destruct (Ascii.eqb x old); rewrite IH; [by rewrite append_assoc | done].
Qed.

Lemma replace_absent old new (s : string) :
  occurs old s = false → replace old new s = s.
Proof.
  induction s as [|x s IH]; simpl; [done|].
  intros [Hx Hs]%orb_false_elim. rewrite Hx. by rewrite IH.
Qed.

Lemma truthy_append (a b : string) : b ≠ "" → truthy (JStr (a +:+ b)) = true.
Proof.
  intros Hb. destruct a; [rewrite append_nil; by destruct b | by rewrite append_cons].
Qed.

Lemma validate_required_fields_ext (data data' : gmap string json) required_fields :
  (∀ field, field ∈ required_fields → data !! field = data' !! field) →
  validate_required_fields data required_fields
  = validate_required_fields data' required_fields.
Proof.
  intros Hagree. unfold validate_required_fields.
  assert (List.filter (missing_or_empty data) required_fields
          = List.filter (missing_or_empty data') required_fields) as ->; [|done].
  apply filter_ext_in. intros f Hf%list_elem_of_In.
  unfold missing_or_empty. by rewrite (Hagree f Hf).
Qed.

Lemma is_empty_insert (data : gmap string json) k v : is_empty (<[k := v]> data) = false.
Proof. unfold is_empty. apply bool_decide_eq_false. apply insert_non_empty. Qed.

Section DueDate.
Context `{Runtime}.

Lemma required_fields_due_date (data : gmap string json) v w fields :
  str_in "due_date" fields = false →
  validate_required_fields (<["due_date" := v]> data) fields
  = validate_required_fields (<["due_date" := w]> data) fields.
Proof.
  intros Hnot. apply validate_required_fields_ext. intros f Hf.
  assert ("due_date" ≠ f).
  { intros <-. apply list_elem_of_In in Hf.
    assert (str_in "due_date" fields = true); [|congruence].
    apply existsb_exists. exists "due_date". by rewrite String.eqb_refl. }
  by rewrite !lookup_insert_ne.
Qed.

(** C6.  A string ending in [Z] is parsed as the same string ending in
    [+00:00]; when that [Z] is the only one, the result is what
    [fromisoformat] gives on the substituted string.  An absent (null)
    value, a string [fromisoformat] rejects and a value that is not a
    string all give no value, and a handler given such a due date answers
    as it does for a null due date. *)
Theorem parse_datetime_tolerates_Z_and_drops_malformed :
  (∀ s, parse_datetime (JStr (s +:+ "Z")) = parse_datetime (JStr (s +:+ "+00:00")))
  ∧ (∀ s, occurs "Z" s = false →
          parse_datetime (JStr (s +:+ "Z")) = fromisoformat (s +:+ "+00:00"))
  ∧ parse_datetime JNull = None
  ∧ (∀ s, fromisoformat (replace "Z" "+00:00" s) = None →
          parse_datetime (JStr s) = None)
  ∧ (∀ v, is_str v = false → parse_datetime v = None)
  ∧ (∀ env data db v, parse_datetime v = None →
       create_task env (<["due_date" := v]> data) db
       = create_task env (<["due_date" := JNull]> data) db)
  ∧ (∀ env task_id data db v, parse_datetime v = None →
       update_task env task_id (<["due_date" := v]> data) db
       = update_task env task_id (<["due_date" := JNull]> data) db)
  ∧ (∀ env task_id data db v, parse_datetime v = None →
       partial_update_task env task_id (<["due_date" := v]> data) db
       = partial_update_task env task_id (<["due_date" := JNull]> data) db).
Proof.
  assert (Hnull : parse_datetime JNull = None) by done.
  repeat split.
  - intros s. unfold parse_datetime. rewrite !truthy_append by done. simpl.
    by rewrite !replace_append.
  - intros s Hs. unfold parse_datetime. rewrite truthy_append by done. simpl.
    by rewrite replace_append, (replace_absent _ _ _ Hs).
  - intros s Hs. unfold parse_datetime. by destruct (truthy (JStr s)).
  - intros v Hv. unfold parse_datetime. destruct v; try done; by destruct (negb _).
  - intros env data db v Hv. unfold create_task.
    rewrite !is_empty_insert.
    rewrite (required_fields_due_date data v JNull) by done.
    payload_lookups. simpl. by rewrite Hv, Hnull.
  - intros env task_id data db v Hv. unfold update_task.
    rewrite !is_empty_insert.
    rewrite (required_fields_due_date data v JNull) by done.
    payload_lookups. by rewrite Hv, Hnull.
  - intros env task_id data db v Hv. unfold partial_update_task.
    rewrite !is_empty_insert. payload_lookups. by rewrite Hv, Hnull.
Qed.
End DueDate.

Example parse_datetime_utc_suffix :
  @parse_datetime Sample.runtime (JStr "2024-01-01T00:00:00Z") = Some 1704067200
  ∧ @parse_datetime Sample.runtime (JStr "2024-01-01T00:00:00+00:00") = Some 1704067200
  ∧ @parse_datetime Sample.runtime (JStr "next week") = None
  ∧ @parse_datetime Sample.runtime (JInt 20240101) = None.
Proof. repeat split; reflexivity. Qed.

(** *** Listing: sort parameters and integer filters *)

Lemma lower_ascii_code c :
  lower_ascii c =
  ascii_of_nat (if (Nat.leb 65 (nat_of_ascii c) && Nat.leb (nat_of_ascii c) 90)%bool
                then nat_of_ascii c + 32 else nat_of_ascii c).
Proof.
  unfold lower_ascii. destruct (_ && _)%bool; [done | by rewrite ascii_nat_embedding].
Qed.

Lemma same_letter_lower a b :
  same_letter a b = true → lower_ascii a = lower_ascii b.
Proof.
  rewrite !lower_ascii_code. unfold same_letter.
  generalize (nat_of_ascii a) (nat_of_ascii b). intros m n Hs. f_equal.
  destruct (Nat.leb_spec 97 m), (Nat.leb_spec m 122), (Nat.leb_spec 65 m),
    (Nat.leb_spec m 90), (Nat.eqb_spec m n), (Nat.eqb_spec n (m - 32)),
    (Nat.eqb_spec n (m + 32)); simpl in Hs; try discriminate;
  destruct (Nat.leb_spec 65 n), (Nat.leb_spec n 90); simpl; lia.
Qed.

Lemma differ_only_in_case_lower_letters s1 s2 :
  differ_only_in_case s1 s2 = true → lower_letters s1 = lower_letters s2.
Proof.
  revert s2. induction s1 as [|a s1 IH]; intros [|b s2]; simpl; try done.
  intros [Hab Hs]%andb_prop.
  by rewrite (same_letter_lower _ _ Hab), (IH _ Hs).
Qed.

Section Listing.
Context `{Runtime}.

Lemma differ_only_in_case_lower s1 s2 :
  differ_only_in_case s1 s2 = true → lower s1 = lower s2.
Proof.
  intros Hs. rewrite <- (lower_lower_letters s1), <- (lower_lower_letters s2).
  by rewrite (differ_only_in_case_lower_letters _ _ Hs).
Qed.

(** An enum filter either rejects the request whatever the rows are, or
    maps the rows it is given. *)
Lemma enum_filter_cases {E} `{PyEnum E, EqDecision E} (args : gmap string string)
    (key : string) (column : Task.t → resolved E) :
  (∃ msg, ∀ query, enum_filter args key column query = inl (ErrorBody msg, 400))
  ∨ (∃ f, ∀ query, enum_filter args key column query = inr (f query)).
Proof.
  unfold enum_filter. destruct (args !! key) as [v|]; [|right; by exists id].
  destruct (String.eqb v ""); [right; by exists id|].
  destruct (validate_enum_value (JStr v) key) as [[[] msg] r]; simpl.
  - right. by eexists (λ query, List.filter _ query).
  - left. by exists msg.
Qed.


(** The handler's decision tree, spelled out. *)
Lemma get_all_tasks_eq (args : gmap string string) (db : DB) :
  get_all_tasks args db =
  match enum_filter args "status" Task.status (tasks db) with
  | inl r => r
  | inr q1 =>
      match enum_filter args "priority" Task.priority q1 with
      | inl r => r
      | inr q2 =>
          let query :=
            int_filter args "user_id" Task.user_id
              (int_filter args "category_id" Task.category_id q2) in
          let sort_by := default "created_at" (args !! "sort_by") in
          let order := lower (default "desc" (args !! "order")) in
          if str_in sort_by ["due_date"; "created_at"; "priority"; "status"; "updated_at"]
          then if str_in order ["asc"; "desc"]
               then (TaskList (if String.eqb order "desc"
                               then order_by (desc (sort_column sort_by)) query
                               else order_by (asc (sort_column sort_by)) query), 200)
               else error invalid_order_msg 400
          else error invalid_sort_by_msg 400
      end
  end.
Proof.
  unfold get_all_tasks.
  destruct (enum_filter args "status" _ _) as [r|q1]; [done|].
  unfold and_then at 1.
  destruct (enum_filter args "priority" _ _) as [r|q2]; [done|].
  unfold and_then. cbv zeta.
  destruct (str_in (default "created_at" _) _); [|done].
  by destruct (str_in (lower _) _).
Qed.

Lemma str_in_elem_of (x : string) (l : list string) :
  str_in x l = true → x ∈ l.
Proof.
  intros (y & Hy & ->%String.eqb_eq)%existsb_exists. by apply list_elem_of_In.
Qed.

(** C7.  With [sort_by] defaulting to [created_at] and [order], lowered,
    defaulting to [desc]: a [sort_by] outside the allow-list or an [order]
    other than [asc] and [desc] gives a 400 error that is the same for
    every store, so no row has a part in it; a listing that returns rows
    had both parameters valid; leaving a parameter out is the same as
    giving its default; and orders that differ only in letter case are
    treated alike. *)
Theorem get_all_tasks_sort_parameters (args : gmap string string) :
  let sort_by := default "created_at" (args !! "sort_by") in
  let order := lower (default "desc" (args !! "order")) in
  let allowed := ["due_date"; "created_at"; "priority"; "status"; "updated_at"] in
  (str_in sort_by allowed = false ∨ str_in order ["asc"; "desc"] = false →
     ∃ msg, ∀ db, get_all_tasks args db = (ErrorBody msg, 400))
  ∧ (args !! "status" = None → args !! "priority" = None →
     str_in sort_by allowed = false →
     ∀ db, get_all_tasks args db = error invalid_sort_by_msg 400)
  ∧ (args !! "status" = None → args !! "priority" = None →
     str_in sort_by allowed = true → str_in order ["asc"; "desc"] = false →
     ∀ db, get_all_tasks args db = error invalid_order_msg 400)
  ∧ (∀ db tasks, get_all_tasks args db = (TaskList tasks, 200) →
     sort_by ∈ allowed ∧ order ∈ ["asc"; "desc"])
  ∧ (∀ db, get_all_tasks (delete "sort_by" args) db
           = get_all_tasks (<["sort_by" := "created_at"]> args) db)
  ∧ (∀ db, get_all_tasks (delete "order" args) db
           = get_all_tasks (<["order" := "desc"]> args) db)
  ∧ (∀ db o1 o2, differ_only_in_case o1 o2 = true →
       get_all_tasks (<["order" := o1]> args) db
       = get_all_tasks (<["order" := o2]> args) db).
Proof.
  intros sort_by order allowed.
  split; [|split; [|split; [|split; [|split; [|split]]]]].
  - intros Hbad.
    destruct (enum_filter_cases args "status" Task.status) as [[m Hs]|[f Hs]].
    { exists m. intros db. by rewrite get_all_tasks_eq, Hs. }
    destruct (enum_filter_cases args "priority" Task.priority) as [[m Hp]|[g Hp]].
    { exists m. intros db. by rewrite get_all_tasks_eq, Hs, Hp. }
    destruct (str_in sort_by allowed) eqn:Hsort.
    + destruct Hbad as [|Hord]; [done|]. exists (Some invalid_order_msg).
      intros db. rewrite get_all_tasks_eq, Hs, Hp. cbv zeta.
      fold sort_by order allowed. by rewrite Hsort, Hord.
    + exists (Some invalid_sort_by_msg).
      intros db. rewrite get_all_tasks_eq, Hs, Hp. cbv zeta.
      fold sort_by allowed. by rewrite Hsort.
  - intros Hs Hp Hsort db. rewrite get_all_tasks_eq. unfold enum_filter.
    rewrite Hs, Hp. cbv zeta. fold sort_by allowed. by rewrite Hsort.
  - intros Hs Hp Hsort Hord db. rewrite get_all_tasks_eq. unfold enum_filter.
    rewrite Hs, Hp. cbv zeta. fold sort_by order allowed. by rewrite Hsort, Hord.
  - intros db tasks. rewrite get_all_tasks_eq.
    destruct (enum_filter_cases args "status" Task.status) as [[m Hs]|[f Hs]];
      rewrite Hs; [done|].
    destruct (enum_filter_cases args "priority" Task.priority) as [[m Hp]|[g Hp]];
      rewrite Hp; [done|].
    cbv zeta. fold sort_by order allowed.
    destruct (str_in sort_by allowed) eqn:Hsort; [|done].
    destruct (str_in order ["asc"; "desc"]) eqn:Hord; [|done].
    intros _. split; by apply str_in_elem_of.
  - intros db. unfold get_all_tasks, enum_filter, int_filter, get_int.
    by payload_lookups.
  - intros db. unfold get_all_tasks, enum_filter, int_filter, get_int.
    by payload_lookups.
  - intros db o1 o2 Hcase. unfold get_all_tasks, enum_filter, int_filter, get_int.
    payload_lookups. simpl default. by rewrite (differ_only_in_case_lower _ _ Hcase).
Qed.
End Listing.

Section ZeroFilter.
Context `{Runtime}.

(** C10.  A [category_id] or [user_id] query parameter whose integer value
    is 0 leaves the task listing, and a [user_id] of 0 the category
    listing, exactly as if the parameter had not been sent. *)
Theorem zero_filter_is_no_filter (args : gmap string string) (db : DB)
    (zero : string) :
  py_int zero = Some 0 →
  get_all_tasks (<["category_id" := zero]> args) db
    = get_all_tasks (delete "category_id" args) db
  ∧ get_all_tasks (<["user_id" := zero]> args) db
    = get_all_tasks (delete "user_id" args) db
  ∧ get_all_categories (<["user_id" := zero]> args) db
    = get_all_categories (delete "user_id" args) db.
Proof.
  intros Hzero. repeat split.
  - unfold get_all_tasks, enum_filter, int_filter, get_int.
    payload_lookups. simpl. by rewrite Hzero.
  - unfold get_all_tasks, enum_filter, int_filter, get_int.
    payload_lookups. simpl. by rewrite Hzero.
  - unfold get_all_categories, get_int.
    payload_lookups. simpl. by rewrite Hzero.
Qed.
End ZeroFilter.

Lemma zero_filter_is_no_filter_witness :
  @py_int Sample.runtime "0" = Some 0
  ∧ @get_all_tasks Sample.runtime (<["category_id" := "0"]> Sample.pending_only) Sample.db
    = @get_all_tasks Sample.runtime (delete "category_id" Sample.pending_only) Sample.db
  ∧ @get_all_tasks Sample.runtime (<["user_id" := "0"]> Sample.pending_only) Sample.db
    = @get_all_tasks Sample.runtime (delete "user_id" Sample.pending_only) Sample.db
  ∧ @get_all_categories Sample.runtime (<["user_id" := "0"]> Sample.pending_only) Sample.db
    = @get_all_categories Sample.runtime (delete "user_id" Sample.pending_only) Sample.db.
Proof.
  split; [reflexivity|].
  apply (@zero_filter_is_no_filter Sample.runtime Sample.pending_only Sample.db "0").
  reflexivity.
Defined.

(** *** Listing: order of the rows *)

Lemma sql_le_total a b : sql_le a b = true ∨ sql_le b a = true.
Proof.
  destruct a as [|x|x], b as [|y|y]; simpl; auto.
  - destruct (Z.leb_spec x y), (Z.leb_spec y x); auto; lia.
  - apply String.leb_total.
Qed.

Lemma sql_le_trans a b c : sql_le a b = true → sql_le b c = true → sql_le a c = true.
Proof.
  destruct a as [|x|x], b as [|y|y], c as [|z|z]; simpl; try done.
  - rewrite !Z.leb_le. lia.
  - intros Hxy%Is_true_true Hyz%Is_true_true. apply Is_true_true.
    change (String.le x z). by transitivity y.
Qed.

Lemma asc_total column : Total (asc column).
Proof.
  intros x y. unfold asc.
  destruct (sql_le_total (column x) (column y)) as [->| ->]; simpl; auto.
Qed.

Lemma asc_trans column : Transitive (asc column).
Proof.
  intros x y z. unfold asc. rewrite !Is_true_true. apply sql_le_trans.
Qed.

Lemma desc_total column : Total (desc column).
Proof. intros x y. apply (asc_total column y x). Qed.

Lemma desc_trans column : Transitive (desc column).
Proof. intros x y z Hxy Hyz. by apply (asc_trans column z y x). Qed.

Lemma StronglySorted_weaken {A} (R S : relation A) (l : list A) :
  (∀ x y, R x y → S x y) → StronglySorted R l → StronglySorted S l.
Proof.
  intros HRS. induction 1 as [|x l Hl IH Hx]; constructor; [done|].
  eapply Forall_impl; [exact Hx | auto].
Qed.

Lemma priority_label_order (p q : TaskPriority) :
  sql_le (enum_column (RMember p)) (enum_column (RMember q)) = true →
  (priority_alphabetical p ≤ priority_alphabetical q)%nat.
Proof. destruct p, q; simpl; first [discriminate | lia]. Qed.

Lemma status_label_order (p q : TaskStatus) :
  sql_le (enum_column (RMember p)) (enum_column (RMember q)) = true →
  (status_alphabetical p ≤ status_alphabetical q)%nat.
Proof. destruct p, q; simpl; first [discriminate | lia]. Qed.

Section SortOrder.
Context `{Runtime}.

Lemma get_all_tasks_asc (args : gmap string string) (db : DB) (rows : list Task.t)
    (sort_by : string) :
  args !! "sort_by" = Some sort_by →
  lower (default "desc" (args !! "order")) = "asc" →
  get_all_tasks args db = (TaskList rows, 200) →
  ∃ query, rows = order_by (asc (sort_column sort_by)) query
           ∧ (args !! "status" = None → args !! "priority" = None →
              args !! "category_id" = None → args !! "user_id" = None →
              query = tasks db).
Proof.
  intros Hsort Hord. rewrite get_all_tasks_eq.
  destruct (enum_filter args "status" _ _) as [r|q1] eqn:Hs.
  { destruct (enum_filter_cases args "status" Task.status) as [[m Hm]|[f Hf]];
      intros; congruence. }
  destruct (enum_filter args "priority" _ _) as [r|q2] eqn:Hp.
  { destruct (enum_filter_cases args "priority" Task.priority) as [[m Hm]|[f Hf]];
      intros; congruence. }
  cbv zeta. rewrite Hsort, Hord. simpl default.
  destruct (str_in sort_by _); [|done]. simpl.
  intros [= <-]. eexists. split; [done|].
  intros Hs' Hp' Hc Hu. revert Hs Hp. unfold enum_filter, int_filter, get_int.
  rewrite Hs', Hp', Hc, Hu. simpl. by intros [= <-] [= <-].
Qed.

(** C1, as amended.  A listing with [sort_by=priority] (or [status]) and an
    ascending order returns its rows sorted by the stored label compared as
    text: HIGH, LOW, MEDIUM for the priority and COMPLETED, IN_PROGRESS,
    PENDING for the status.  Without filters the rows are all the rows of
    the table. *)
Theorem get_all_tasks_sorts_enums_by_label (args : gmap string string) (db : DB)
    (rows : list Task.t) :
  lower (default "desc" (args !! "order")) = "asc" →
  get_all_tasks args db = (TaskList rows, 200) →
  (args !! "sort_by" = Some "priority" →
     StronglySorted (asc (λ x, enum_column (Task.priority x))) rows
     ∧ StronglySorted (ranked priority_alphabetical Task.priority) rows)
  ∧ (args !! "sort_by" = Some "status" →
     StronglySorted (asc (λ x, enum_column (Task.status x))) rows
     ∧ StronglySorted (ranked status_alphabetical Task.status) rows)
  ∧ (args !! "status" = None → args !! "priority" = None →
     args !! "category_id" = None → args !! "user_id" = None →
     rows ≡ₚ tasks db).
Proof.
  intros Hord Hget. split; [|split].
  - intros Hsort.
    destruct (get_all_tasks_asc _ _ _ _ Hsort Hord Hget) as (query & -> & _).
    assert (StronglySorted (asc (λ x, enum_column (Task.priority x)))
              (order_by (asc (sort_column "priority")) query)) as Hsorted
      by apply (@StronglySorted_merge_sort _ (asc (sort_column "priority")) _
                  (asc_trans _) (asc_total _)).
    split; [done|].
    eapply StronglySorted_weaken; [|exact Hsorted].
    intros x y. unfold asc, ranked.
    destruct (Task.priority x) as [|p|], (Task.priority y) as [|q|]; try done.
    intros Hle%Is_true_true. by apply priority_label_order.
  - intros Hsort.
    destruct (get_all_tasks_asc _ _ _ _ Hsort Hord Hget) as (query & -> & _).
    assert (StronglySorted (asc (λ x, enum_column (Task.status x)))
              (order_by (asc (sort_column "status")) query)) as Hsorted
      by apply (@StronglySorted_merge_sort _ (asc (sort_column "status")) _
                  (asc_trans _) (asc_total _)).
    split; [done|].
    eapply StronglySorted_weaken; [|exact Hsorted].
    intros x y. unfold asc, ranked.
    destruct (Task.status x) as [|p|], (Task.status y) as [|q|]; try done.
    intros Hle%Is_true_true. by apply status_label_order.
  - intros Hs Hp Hc Hu. revert Hget. rewrite get_all_tasks_eq.
    unfold enum_filter, int_filter, get_int. rewrite Hs, Hp, Hc, Hu.
    cbv beta iota zeta. rewrite Hord.
    destruct (str_in (default "created_at" _) _); [|done].
    change (str_in "asc" ["asc"; "desc"]) with true.
    change (String.eqb "asc" "desc") with false.
    cbv beta iota. unfold truthy_int. simpl mbind.
    intros [= <-]. apply merge_sort_Permutation.
Qed.
End SortOrder.

(** C1, as stated, fails: sorted by priority in ascending order, the HIGH row
    comes before the LOW row, and sorted by status the COMPLETED row comes
    before the PENDING row; neither listing follows the declaration order. *)
Lemma get_all_tasks_not_by_declaration_order :
  @get_all_tasks Sample.runtime Sample.by_priority_asc Sample.db
    = (TaskList [Sample.task 2 COMPLETED HIGH 102; Sample.task 1 PENDING LOW 101;
                 Sample.task 3 IN_PROGRESS MEDIUM 103], 200)
  ∧ ¬ StronglySorted (ranked priority_ordinal Task.priority)
        [Sample.task 2 COMPLETED HIGH 102; Sample.task 1 PENDING LOW 101;
         Sample.task 3 IN_PROGRESS MEDIUM 103]
  ∧ @get_all_tasks Sample.runtime Sample.by_status_asc Sample.db
    = (TaskList [Sample.task 2 COMPLETED HIGH 102; Sample.task 3 IN_PROGRESS MEDIUM 103;
                 Sample.task 1 PENDING LOW 101], 200)
  ∧ ¬ StronglySorted (ranked status_ordinal Task.status)
        [Sample.task 2 COMPLETED HIGH 102; Sample.task 3 IN_PROGRESS MEDIUM 103;
         Sample.task 1 PENDING LOW 101].
Proof.
  split; [vm_compute; reflexivity|]. split; [|split; [vm_compute; reflexivity|]].
  - intros Hsorted. apply StronglySorted_inv in Hsorted as [_ Hall].
    apply Forall_inv in Hall. unfold ranked in Hall. simpl in Hall. lia.
  - intros Hsorted. apply StronglySorted_inv in Hsorted as [_ Hall].
    apply Forall_inv in Hall. unfold ranked in Hall. simpl in Hall. lia.
Qed.

Lemma get_all_tasks_sorts_enums_by_label_witness :
  (StronglySorted (asc (λ x, enum_column (Task.priority x)))
     [Sample.task 2 COMPLETED HIGH 102; Sample.task 1 PENDING LOW 101;
      Sample.task 3 IN_PROGRESS MEDIUM 103]
   ∧ StronglySorted (ranked priority_alphabetical Task.priority)
       [Sample.task 2 COMPLETED HIGH 102; Sample.task 1 PENDING LOW 101;
        Sample.task 3 IN_PROGRESS MEDIUM 103])
  ∧ [Sample.task 2 COMPLETED HIGH 102; Sample.task 1 PENDING LOW 101;
     Sample.task 3 IN_PROGRESS MEDIUM 103] ≡ₚ tasks Sample.db.
Proof.
  pose proof (@get_all_tasks_sorts_enums_by_label Sample.runtime
                Sample.by_priority_asc Sample.db
                [Sample.task 2 COMPLETED HIGH 102; Sample.task 1 PENDING LOW 101;
                 Sample.task 3 IN_PROGRESS MEDIUM 103]) as Hthm.
  destruct Hthm as (Hpriority & _ & Hperm); [reflexivity | vm_compute; reflexivity |].
  split; [apply Hpriority; reflexivity | apply Hperm; reflexivity].
Defined.

(** *** Partial update *)

Section PartialUpdate.
Context `{Runtime}.


Lemma and_then_inr {A B} (m : response + A) (k : A → response + B) b :
and_then m k = inr b ↔ ∃ a, m = inr a ∧ k a = inr b.
Proof. destruct m; simpl; split; [done | intros (?&?&?); done | eauto | intros (?&[= <-]&?); done]. Qed.

Lemma and_then_inl {A B} (m : response + A) (k : A → response + B) r :
and_then m k = inl r → m = inl r ∨ ∃ a, m = inr a ∧ k a = inl r.
Proof. destruct m; simpl; [intros [= ->]; by left | right; eauto]. Qed.

Lemma assign_enum_inl {E} `{PyEnum E} data key (set : resolved E → Task.t → Task.t) t r :
assign_enum data key set t = inl r → r.2 = 400.
Proof.
unfold assign_enum. destruct (data !! key) as [v|]; [|done].
destruct (validate_enum_value v key) as [[[] msg] e]; [done|]. by intros [= <-].
Qed.

Lemma query_key_inl {A} env (lookup : json → option A) v r :
query_key env lookup v = inl r → r.2 = 500.
Proof. unfold query_key. destruct (bind v); [done|..]; by intros [= <-]. Qed.

Lemma query_key_inr {A} env (lookup : json → option A) v o :
query_key env lookup v = inr o ↔ bind v = Bound ∧ o = lookup v.
Proof.
unfold query_key. destruct (bind v); split; try done.
- by intros [= <-].
- by intros [_ ->].
- by intros [? _].
- by intros [? _].
Qed.

Lemma assign_reference_inl {R} env data key (lookup : json → option R) msg set t r :
assign_reference env data key lookup msg set t = inl r → r.2 = 404 ∨ r.2 = 500.
Proof.
unfold assign_reference. destruct (data !! key) as [v|]; [|done].
destruct (query_key env lookup v) as [r'|[x|]] eqn:Hq; [|done|].
- intros [= <-]. right. by apply query_key_inl in Hq.
- intros [= <-]. by left.
Qed.

Lemma assign_enum_inr {E} `{PyEnum E} data key (set : resolved E → Task.t → Task.t) t t' :
assign_enum data key set t = inr t' ↔
(∀ v, data !! key = Some v → (validate_enum_value (E:=E) v key).1.1 = true)
∧ t' = assign_if_present data key (λ v, (validate_enum_value v key).2) set t.
Proof.
unfold assign_enum, assign_if_present. destruct (data !! key) as [v|].
- destruct (validate_enum_value v key) as [[[] msg] r] eqn:Hvalid; simpl; split.
  + intros [= <-]. split; [intros ? [= <-]; by rewrite Hvalid | done].
  + by intros [_ ->].
  + done.
  + intros [Hv _]. specialize (Hv v eq_refl). by rewrite Hvalid in Hv.
- split; [intros [= <-]; split; [done|done] | by intros [_ ->]].
Qed.

Lemma assign_reference_inr {R} env data key (lookup : json → option R) msg set t t' :
assign_reference env data key lookup msg set t = inr t' ↔
(∀ v, data !! key = Some v → bind v = Bound ∧ is_Some (lookup v))
∧ t' = assign_if_present data key id set t.
Proof.
unfold assign_reference, assign_if_present. destruct (data !! key) as [v|].
- destruct (query_key env lookup v) as [r'|[x|]] eqn:Hq; split.
  + done.
  + intros [Hv _]. destruct (Hv v eq_refl) as [Hb _].
    unfold query_key in Hq. by rewrite Hb in Hq.
  + intros [= <-]. apply query_key_inr in Hq as [Hb Hx].
    split; [intros ? [= <-]; by rewrite <- Hx | done].
  + by intros [_ ->].
  + done.
  + intros [Hv _]. destruct (Hv v eq_refl) as [_ Hsome].
    apply query_key_inr in Hq as [_ Hx]. rewrite <- Hx in Hsome. by destruct Hsome.
- split; [intros [= <-]; split; [done|done] | by intros [_ ->]].
Qed.

Lemma patched_closed_form data now t0 :
Task.set_updated_at now
  (assign_if_present data "user_id" id Task.set_user_id
     (assign_if_present data "category_id" id Task.set_category_id
        (assign_if_present data "due_date" parse_datetime Task.set_due_date
           (assign_if_present data "priority"
              (λ v, (validate_enum_value v "priority").2) Task.set_priority
              (assign_if_present data "status"
                 (λ v, (validate_enum_value v "status").2) Task.set_status
                 (assign_if_present data "description" id Task.set_description
                    (assign_if_present data "title" id Task.set_title t0)))))))
= patched data now t0.
Proof.
unfold assign_if_present, patched.
destruct t0 as [i ti de st pr du ca us cr up].
by destruct (data !! "title"), (data !! "description"), (data !! "status"),
  (data !! "priority"), (data !! "due_date"), (data !! "category_id"),
  (data !! "user_id").
Qed.

(** The mutations of [partial_update_task] between reading the row and
  committing. *)
Lemma partial_update_steps env data db now t0 t1 :
(let task := assign_if_present data "title" id Task.set_title t0 in
 let task := assign_if_present data "description" id Task.set_description task in
 task ←' assign_enum data "status" Task.set_status task ;;
 task ←' assign_enum data "priority" Task.set_priority task ;;
 let task := assign_if_present data "due_date" parse_datetime Task.set_due_date task in
 task ←' assign_reference env data "category_id" (find_category db)
           "Category not found" Task.set_category_id task ;;
 task ←' assign_reference env data "user_id" (find_user db)
           "User not found" Task.set_user_id task ;;
 let task := Task.set_updated_at now task in
 inr task) = inr t1
↔ (∀ v, data !! "status" = Some v → (validate_enum_value (E:=TaskStatus) v "status").1.1 = true)
  ∧ (∀ v, data !! "priority" = Some v → (validate_enum_value (E:=TaskPriority) v "priority").1.1 = true)
  ∧ (∀ v, data !! "category_id" = Some v → bind v = Bound ∧ is_Some (find_category db v))
  ∧ (∀ v, data !! "user_id" = Some v → bind v = Bound ∧ is_Some (find_user db v))
  ∧ t1 = patched data now t0.
Proof.
cbv zeta. split.
- intros Hrun.
  apply and_then_inr in Hrun as (a & [Hs ->]%assign_enum_inr & Hrun).
  apply and_then_inr in Hrun as (b & [Hp ->]%assign_enum_inr & Hrun).
  apply and_then_inr in Hrun as (c & [Hc ->]%assign_reference_inr & Hrun).
  apply and_then_inr in Hrun as (d & [Hu ->]%assign_reference_inr & Hrun).
  injection Hrun as <-. repeat (split; [assumption|]).
  apply patched_closed_form.
- intros (Hs & Hp & Hc & Hu & ->).
  apply and_then_inr. eexists. split; [apply assign_enum_inr; by split|].
  apply and_then_inr. eexists. split; [apply assign_enum_inr; by split|].
  apply and_then_inr. eexists. split; [apply assign_reference_inr; by split|].
  apply and_then_inr. eexists. split; [apply assign_reference_inr; by split|].
  f_equal. apply patched_closed_form.
Qed.

Lemma find_replace_first {A} (p : A → bool) (new : A) (l : list A) :
is_Some (List.find p l) → p new = true →
List.find p (replace_first p new l) = Some new.
Proof.
intros [x Hx] Hnew. induction l as [|y l IH]; [done|]. simpl in *.
destruct (p y) eqn:Hy; simpl; [by rewrite Hnew | rewrite Hy; auto].
Qed.

Lemma replace_first_twice {A} (p : A → bool) (a b : A) (l : list A) :
p a = true → replace_first p b (replace_first p a l) = replace_first p b l.
Proof.
intros Ha. induction l as [|y l IH]; [done|]. simpl.
destruct (p y) eqn:Hy; simpl; [by rewrite Ha | by rewrite Hy, IH].
Qed.

Lemma replace_first_related {A} (R : relation A) (p : A → bool) (a b : A) (l : list A) :
(∀ x, R x x) → R a b → Forall2 R (replace_first p a l) (replace_first p b l).
Proof.
intros Hrefl Hab. induction l as [|y l IH]; [constructor|]. simpl.
destruct (p y); constructor; auto. by apply Forall_Forall2_diag, Forall_forall.
Qed.

Lemma patched_id data now t : Task.id (patched data now t) = Task.id t.
Proof. done. Qed.

Lemma patched_twice data now1 now2 t :
patched data now2 (patched data now1 t)
= Task.set_updated_at now2 (patched data now1 t).
Proof.
unfold patched, Task.set_updated_at. simpl.
f_equal; by destruct (data !! _).
Qed.

Lemma patched_untouched data now t : untouched data t (patched data now t).
Proof. unfold untouched, patched. simpl. repeat split; by intros ->. Qed.

(** A partial update that answers 200 has stored the patched row, which
    the flush has taken. *)
Lemma partial_update_task_200 env task_id data db r db' :
partial_update_task env task_id data db = ((r, 200), db') →
∃ t0, get_task_row db task_id = Some t0
      ∧ patch_accepted data db
      ∧ flush_dirty (patched data (utcnow env) t0) = true
      ∧ r = TaskBody (patched data (utcnow env) t0)
      ∧ db' = mkDB (users db) (categories db)
                (replace_first (λ x, Z.eqb (Task.id x) task_id)
                   (patched data (utcnow env) t0) (tasks db)).
Proof.
unfold partial_update_task.
destruct (is_empty data) eqn:Hempty; [done|].
destruct (get_task_row db task_id) as [t0|] eqn:Hrow; [|done].
match goal with |- context [match ?m with inl _ => _ | inr _ => _ end] =>
  destruct m as [r'|t1] eqn:Hsteps end.
- intros [= -> <-]. exfalso. cbv zeta in Hsteps.
  repeat (apply and_then_inl in Hsteps as [Hsteps|(? & _ & Hsteps)]);
    first [ by apply assign_enum_inl in Hsteps
          | by apply assign_reference_inl in Hsteps as [|]
          | done ].
- apply partial_update_steps in Hsteps as (Hs & Hp & Hc & Hu & ->).
  unfold save_task, commit, database_error, error.
  destruct (flush_dirty _) eqn:Hflush; [|done].
  destruct (commit_outcome env); [|done|done].
  intros [= <- <-]. exists t0. split; [done|].
  split; [by split; [|split; [|split; [|split]]]|]. by split.
Qed.

(** An accepted partial update of an existing row, flushed and committed,
    answers 200. *)
Lemma partial_update_task_accepted env task_id data db t0 :
get_task_row db task_id = Some t0 →
patch_accepted data db →
flush_dirty (patched data (utcnow env) t0) = true →
commit_outcome env = Committed →
partial_update_task env task_id data db =
  ((TaskBody (patched data (utcnow env) t0), 200),
   mkDB (users db) (categories db)
     (replace_first (λ x, Z.eqb (Task.id x) task_id)
        (patched data (utcnow env) t0) (tasks db))).
Proof.
intros Hrow (Hempty & Hs & Hp & Hc & Hu) Hflush Hcommit.
unfold partial_update_task. rewrite Hempty, Hrow.
match goal with |- context [match ?m with inl _ => _ | inr _ => _ end] =>
  assert (m = inr (patched data (utcnow env) t0)) as ->
    by (by apply partial_update_steps) end.
unfold save_task, commit. by rewrite Hflush, Hcommit.
Qed.

(** C8.  When a partial update has answered 200, the same payload applied
  again (and committed) answers 200 with the same row, its [updated_at] set
  to the time of the second request; the store after the second update is
  the store after the first except for that [updated_at]; after each
  update [updated_at] is the time of that update, and every attribute whose
  key is not in the payload has kept its value. *)
Theorem partial_update_task_idempotent env1 env2 task_id data db r1 db1 :
partial_update_task env1 task_id data db = ((r1, 200), db1) →
commit_outcome env2 = Committed →
∃ t0 t1 t2 db2,
  get_task_row db task_id = Some t0
  ∧ r1 = TaskBody t1
  ∧ get_task_row db1 task_id = Some t1
  ∧ partial_update_task env2 task_id data db1 = ((TaskBody t2, 200), db2)
  ∧ get_task_row db2 task_id = Some t2
  ∧ t2 = Task.set_updated_at (utcnow env2) t1
  ∧ Task.updated_at t1 = utcnow env1
  ∧ same_except_updated_at task_id db1 db2
  ∧ untouched data t0 t1
  ∧ untouched data t1 t2.
Proof.
intros Hfirst Hcommit.
apply partial_update_task_200 in Hfirst as (t0 & Hrow & Hacc & Hflush & -> & ->).
set (t1 := patched data (utcnow env1) t0) in *.
set (p := λ x : Task.t, Z.eqb (Task.id x) task_id).
set (db1 := mkDB _ _ _).
assert (Hid : Task.id t0 = task_id).
{ apply find_some in Hrow as [_ Hid]. by apply Z.eqb_eq in Hid. }
assert (Hp1 : p t1 = true) by (by apply Z.eqb_eq).
assert (Hrow1 : get_task_row db1 task_id = Some t1).
{ apply (find_replace_first p); [by exists t0 | done]. }
assert (Hacc1 : patch_accepted data db1) by exact Hacc.
pose proof (patched_twice data (utcnow env1) (utcnow env2) t0) as Htwice.
fold t1 in Htwice.
assert (Hflush1 : flush_dirty (patched data (utcnow env2) t1) = true).
{ rewrite Htwice. exact Hflush. }
pose proof (partial_update_task_accepted env2 task_id data db1 t1 Hrow1 Hacc1 Hflush1
              Hcommit) as Hsecond.
rewrite Htwice in Hsecond. clear Htwice.
set (t2 := Task.set_updated_at (utcnow env2) t1) in *.
exists t0, t1, t2. eexists. split; [done|]. split; [done|]. split; [done|].
split; [exact Hsecond|].
assert (Hp2 : p t2 = true) by (by apply Z.eqb_eq).
split. { apply (find_replace_first p); [by exists t1 | done]. }
split; [done|]. split; [done|]. split; [|split].
- split; [done|]. split; [done|]. simpl.
  rewrite (replace_first_twice p) by done.
  apply replace_first_related; [by left|]. right. by split.
- apply patched_untouched.
- subst t2. unfold untouched. by destruct t1.
Qed.
End PartialUpdate.

Lemma partial_update_task_idempotent_witness :
  ∃ t0 t1 t2 db2,
    get_task_row Sample.db 1 = Some t0
    ∧ (@partial_update_task Sample.runtime (Sample.env 200) 1 Sample.raise_priority
         Sample.db).1.1 = TaskBody t1
    ∧ get_task_row
        (@partial_update_task Sample.runtime (Sample.env 200) 1 Sample.raise_priority
           Sample.db).2 1 = Some t1
    ∧ @partial_update_task Sample.runtime (Sample.env 300) 1 Sample.raise_priority
        (@partial_update_task Sample.runtime (Sample.env 200) 1 Sample.raise_priority
           Sample.db).2 = ((TaskBody t2, 200), db2)
    ∧ get_task_row db2 1 = Some t2
    ∧ t2 = Task.set_updated_at 300 t1
    ∧ Task.updated_at t1 = 200
    ∧ same_except_updated_at 1
        (@partial_update_task Sample.runtime (Sample.env 200) 1 Sample.raise_priority
           Sample.db).2 db2
    ∧ untouched Sample.raise_priority t0 t1
    ∧ untouched Sample.raise_priority t1 t2.
Proof.
  apply (@partial_update_task_idempotent Sample.runtime (Sample.env 200) (Sample.env 300)
           1 Sample.raise_priority Sample.db); reflexivity.
Defined.

(** *** Error paths and reference checks *)

Section ErrorPaths.
Context `{Runtime}.

(** C3, as amended.  A create-task request that passes the required-field
    check and whose [user_id], or else [category_id], is a value the driver
    binds and no row matches is answered 404 with the entity named, and the
    store is returned as it was.  A request that lacks a required field is
    answered 400 whatever it refers to, and one whose key the driver does
    not bind is answered 500, both with the store as it was.  And whenever
    any writing handler answers with a status other than 200 or 201, the
    store it returns is the store it was given. *)
Theorem error_paths_leave_store_unchanged (env : Env) (db : DB) :
  (∀ data,
     (validate_required_fields data ["title"; "category_id"; "user_id"]).1 = true →
     bind (getitem data "user_id") = Bound →
     (find_user db (getitem data "user_id") = None →
        create_task env data db = (error "User not found" 404, db))
     ∧ (is_Some (find_user db (getitem data "user_id")) →
        bind (getitem data "category_id") = Bound →
        find_category db (getitem data "category_id") = None →
        create_task env data db = (error "Category not found" 404, db)))
  ∧ (∀ data,
       (validate_required_fields data ["title"; "category_id"; "user_id"]).1 = false →
       ∃ msg, create_task env data db = (error msg 400, db))
  ∧ (∀ data,
       (validate_required_fields data ["title"; "category_id"; "user_id"]).1 = true →
       bind (getitem data "user_id") ≠ Bound
       ∨ (bind (getitem data "user_id") = Bound
          ∧ is_Some (find_user db (getitem data "user_id"))
          ∧ bind (getitem data "category_id") ≠ Bound) →
       (create_task env data db).1.2 = 500 ∧ (create_task env data db).2 = db)
  ∧ (∀ data r db', create_user env data db = (r, db') → failed r → db' = db)
  ∧ (∀ data r db', create_category env data db = (r, db') → failed r → db' = db)
  ∧ (∀ id data r db', update_category env id data db = (r, db') → failed r → db' = db)
  ∧ (∀ id r db', delete_category env id db = (r, db') → failed r → db' = db)
  ∧ (∀ data r db', create_task env data db = (r, db') → failed r → db' = db)
  ∧ (∀ id data r db', update_task env id data db = (r, db') → failed r → db' = db)
  ∧ (∀ id data r db', partial_update_task env id data db = (r, db') → failed r → db' = db)
  ∧ (∀ id r db', delete_task env id db = (r, db') → failed r → db' = db).
Proof.
  split; [|split; [|split; [|repeat split]]].
  - intros data Hvalid Hbu. unfold create_task.
    destruct (is_empty data) eqn:Hempty.
    { apply bool_decide_eq_true in Hempty. by subst data. }
    destruct (validate_required_fields data _) as [[] msg]; [|done]. simpl.
    unfold query_key. rewrite Hbu. split.
    + by intros ->.
    + intros [u ->] -> Hc. by rewrite Hc.
  - intros data Hvalid. unfold create_task.
    destruct (is_empty data); [by eexists|].
    destruct (validate_required_fields data _) as [[] msg] eqn:Hv; [done|]. simpl.
    apply validate_required_fields_message in Hv as [m ->]. by exists m.
  - intros data Hvalid Hbind. unfold create_task.
    destruct (is_empty data) eqn:Hempty.
    { apply bool_decide_eq_true in Hempty. by subst data. }
    destruct (validate_required_fields data _) as [[] msg]; [|done]. simpl.
    unfold query_key, internal_error, database_error, error.
    destruct Hbind as [Hu|(-> & [u ->] & Hc)].
    + by destruct (bind (getitem data "user_id")).
    + by destruct (bind (getitem data "category_id")).
  - intros data r db'. unfold create_user. error_path.
  - intros data r db'. unfold create_category. error_path.
  - intros id data r db'. unfold update_category. error_path.
  - intros id r db'. unfold delete_category. error_path.
  - intros data r db'. unfold create_task. error_path.
  - intros id data r db'. unfold update_task. error_path.
  - intros id data r db'. unfold partial_update_task. error_path.
  - intros id r db'. unfold delete_task. error_path.
Qed.
End ErrorPaths.

(** C3, as stated, fails.  Category 999 does not exist, yet a create-task
    request that names it and has no title is answered 400, not 404; and no
    user has the key 2^63, yet a create-task request that names it is
    answered 500, not 404. *)
Lemma create_task_missing_reference_without_404 :
  @find_category Sample.runtime Sample.db (JInt 999) = None
  ∧ @create_task Sample.runtime (Sample.env 200) Sample.untitled Sample.db
    = (error "Missing required fields: title" 400, Sample.db)
  ∧ @find_user Sample.runtime Sample.db (JInt (2 ^ 63)) = None
  ∧ (@create_task Sample.runtime (Sample.env 200) Sample.huge_user Sample.db).1.2 = 500
  ∧ (@create_task Sample.runtime (Sample.env 200) Sample.huge_user Sample.db).2
    = Sample.db.
Proof. repeat split; vm_compute; reflexivity. Qed.

(** C2, at a failing input.  Category 999 and user 999 do not exist.  The
    full update of task 1 with [category_id = 999] is answered 200 and the
    row is stored with the dangling key, although the partial update and the
    creation with the same payload are answered 404 "Category not found" and
    store nothing; the full update of category 1 with [user_id = 999] is
    answered 200 likewise, although the creation is answered 404 "User not
    found". *)
Lemma full_update_skips_reference_checks :
  @find_category Sample.runtime Sample.db (JInt 999) = None
  ∧ @find_user Sample.runtime Sample.db (JInt 999) = None
  ∧ @update_task Sample.runtime (Sample.env 200) 1 Sample.move_task Sample.db
    = ((TaskBody (Task.mk 1 (JStr "task") (JStr "") (RMember PENDING) (RMember LOW)
                          None (JInt 999) (JInt 1) 101 200), 200),
       mkDB [Sample.alice] [Sample.work]
            [Task.mk 1 (JStr "task") (JStr "") (RMember PENDING) (RMember LOW)
                     None (JInt 999) (JInt 1) 101 200;
             Sample.task 2 COMPLETED HIGH 102; Sample.task 3 IN_PROGRESS MEDIUM 103])
  ∧ @partial_update_task Sample.runtime (Sample.env 200) 1 Sample.move_task Sample.db
    = (error "Category not found" 404, Sample.db)
  ∧ @create_task Sample.runtime (Sample.env 200) Sample.move_task Sample.db
    = (error "Category not found" 404, Sample.db)
  ∧ update_category (Sample.env 200) 1 Sample.move_category Sample.db
    = ((CategoryBody (Category.mk 1 (JStr "Work") (JStr "") (JInt 999)), 200),
       mkDB [Sample.alice] [Category.mk 1 (JStr "Work") (JStr "") (JInt 999)]
            (tasks Sample.db))
  ∧ @create_category Sample.runtime (Sample.env 200) Sample.move_category Sample.db
    = (error "User not found" 404, Sample.db).
Proof. repeat split; vm_compute; reflexivity. Qed.

(** *** What an answered request has done *)

Section Answered.
Context `{Runtime}.

Lemma validate_enum_value_message {E} `{PyEnum E} v field_name msg r :
  validate_enum_value (E:=E) v field_name = (false, msg, r) → ∃ s, msg = Some s.
Proof.
  destruct v; simpl; try done. destruct (enum_getitem (upper s)); [done|].
  intros [= <- _]. by eexists.
Qed.

(** The flush looks at the enum attributes only. *)
Lemma flush_new_Some (x y : Task.t) :
  flush_new x = Some y →
  y = Task.set_priority (column_default MEDIUM (Task.priority x))
        (Task.set_status (column_default PENDING (Task.status x)) x)
  ∧ is_member (Task.status y) = true
  ∧ is_member (Task.priority y) = true.
Proof.
  unfold flush_new. cbv zeta.
  destruct (is_member _ && is_member _)%bool eqn:Hm; [|done].
  intros [= <-]. by apply andb_prop in Hm as [? ?].
Qed.

Lemma flush_new_members (x : Task.t) :
  is_member (column_default PENDING (Task.status x)) = true →
  is_member (column_default MEDIUM (Task.priority x)) = true →
  flush_new x
  = Some (Task.set_priority (column_default MEDIUM (Task.priority x))
            (Task.set_status (column_default PENDING (Task.status x)) x)).
Proof. unfold flush_new. cbv zeta. simpl. by intros -> ->. Qed.

Lemma flush_new_refused (x : Task.t) :
  is_member (column_default PENDING (Task.status x)) = false
  ∨ is_member (column_default MEDIUM (Task.priority x)) = false →
  flush_new x = None.
Proof.
  unfold flush_new. cbv zeta. simpl. intros [->| ->]; [done|].
  by rewrite andb_false_r.
Qed.

(** A creation that passes its checks hands the new row to the flush. *)
Lemma create_task_flushes env data db :
  post_accepted data db →
  create_task env data db =
    match flush_new (created data (utcnow env) db) with
    | None => (database_error env, db)
    | Some x =>
        commit env db (mkDB (users db) (categories db) (tasks db ++ [x]))
          (TaskBody x, 201)
    end.
Proof.
  intros (Hreq & Hbu & [u Hu] & Hbc & [c Hc] & Hs & Hp). unfold create_task.
  destruct (is_empty data) eqn:Hempty.
  { apply bool_decide_eq_true in Hempty. by subst data. }
  destruct (validate_required_fields data _) as [[] msg]; [|done]. simpl.
  unfold query_key. rewrite Hbu, Hu, Hbc, Hc. unfold created.
  destruct (data !! "status") as [vs|] eqn:Hvs.
  - specialize (Hs vs eq_refl).
    destruct (validate_enum_value vs "status") as [[[] ms] s]; [|done].
    destruct (data !! "priority") as [vp|] eqn:Hvp; [|done].
    specialize (Hp vp eq_refl).
    by destruct (validate_enum_value vp "priority") as [[[] mp] p].
  - destruct (data !! "priority") as [vp|] eqn:Hvp; [|done].
    specialize (Hp vp eq_refl).
    by destruct (validate_enum_value vp "priority") as [[[] mp] p].
Qed.

(** What a creation answered 201 has done. *)
Lemma create_task_201_inv env data db r db' :
  create_task env data db = ((r, 201), db') →
  ∃ x, r = TaskBody x
       ∧ db' = mkDB (users db) (categories db) (tasks db ++ [x])
       ∧ post_accepted data db
       ∧ flush_new (created data (utcnow env) db) = Some x.
Proof.
  unfold create_task, commit, database_error, error.
  destruct (is_empty data); [done|].
  destruct (validate_required_fields data _) as [[] msg] eqn:Hreq; [|done]. simpl.
  destruct (query_key env (find_user db) _) as [r0|[u|]] eqn:Hu; [| |done].
  { intros [= -> _]. by apply query_key_inl in Hu. }
  destruct (query_key env (find_category db) _) as [r0|[c|]] eqn:Hc; [| |done].
  { intros [= -> _]. by apply query_key_inl in Hc. }
  apply query_key_inr in Hu as [Hbu Hu]. apply query_key_inr in Hc as [Hbc Hc].
  destruct (match data !! "status" with Some v => _ | None => _ end)
    as [[[] ms] s] eqn:Hs; [|done].
  destruct (match data !! "priority" with Some v => _ | None => _ end)
    as [[[] mp] p] eqn:Hp; [|done].
  simpl.
  match goal with |- context [flush_new ?new] =>
    assert (new = created data (utcnow env) db) as ->
  end.
  { unfold created.
    destruct (data !! "status"), (data !! "priority");
      rewrite ?Hs, ?Hp; by simplify_eq. }
  destruct (flush_new _) as [x|] eqn:Hflush; [|done].
  destruct (commit_outcome env); [|done..].
  intros [= <- <-]. exists x. split; [done|]. split; [done|]. split; [|done].
  unfold post_accepted. rewrite Hreq.
  repeat split; try done; try by eexists.
  - intros v Hv. rewrite Hv in Hs. by rewrite Hs.
  - intros v Hv. rewrite Hv in Hp. by rewrite Hp.
Qed.

Lemma create_category_201_inv env data db r db' :
  create_category env data db = ((r, 201), db') →
  ∃ c, r = CategoryBody c
       ∧ db' = mkDB (users db) (categories db ++ [c]) (tasks db)
       ∧ Category.id c = next_id (Category.id <$> categories db)
       ∧ Category.name c = getitem data "name"
       ∧ Category.description c = get data "description" (JStr "")
       ∧ Category.user_id c = getitem data "user_id"
       ∧ bind (getitem data "user_id") = Bound
       ∧ is_Some (find_user db (getitem data "user_id")).
Proof.
  unfold create_category, commit, error.
  destruct (is_empty data); [done|].
  destruct (validate_required_fields data _) as [[] msg]; [|done]. simpl.
  destruct (query_key env (find_user db) _) as [r0|[u|]] eqn:Hu; [| |done].
  { intros [= -> _]. by apply query_key_inl in Hu. }
  apply query_key_inr in Hu as [Hbu Hu].
  destruct (commit_outcome env); [|done..].
  intros [= <- <-]. eexists. do 2 (split; [reflexivity|]). simpl.
  repeat split; try done; by eexists.
Qed.

Lemma create_user_201_inv env data db r db' :
  create_user env data db = ((r, 201), db') →
  ∃ u, r = UserBody u
       ∧ db' = mkDB (users db ++ [u]) (categories db) (tasks db)
       ∧ User.id u = next_id (User.id <$> users db)
       ∧ User.username u = getitem data "username"
       ∧ User.email u = getitem data "email"
       ∧ User.created_at u = utcnow env.
Proof.
  unfold create_user, error.
  destruct (is_empty data); [done|].
  destruct (validate_required_fields data _) as [[] msg]; [|done]. simpl.
  destruct (commit_outcome env); [|done..].
  intros [= <- <-]. eexists. by do 2 (split; [reflexivity|]).
Qed.

Lemma replaced_closed_form data now t0 :
  Task.set_updated_at now
    (Task.set_user_id (getitem data "user_id")
       (Task.set_category_id (getitem data "category_id")
          (Task.set_description (get data "description" (JStr ""))
             (Task.set_title (getitem data "title")
                (assign_if_present data "due_date" parse_datetime Task.set_due_date
                   (assign_if_present data "priority"
                      (λ v, (validate_enum_value v "priority").2) Task.set_priority
                      (assign_if_present data "status"
                         (λ v, (validate_enum_value v "status").2) Task.set_status
                         t0)))))))
  = replaced data now t0.
Proof.
  unfold assign_if_present, replaced.
  destruct t0 as [i ti de st pr du ca us cr up].
  by destruct (data !! "status"), (data !! "priority"), (data !! "due_date").
Qed.

(** The mutations of [update_task] between the validation and the commit. *)
Lemma update_task_steps data now t0 t1 :
  (task ←' assign_enum data "status" Task.set_status t0 ;;
   task ←' assign_enum data "priority" Task.set_priority task ;;
   let task := assign_if_present data "due_date" parse_datetime Task.set_due_date task in
   let task := Task.set_title (getitem data "title") task in
   let task := Task.set_description (get data "description" (JStr "")) task in
   let task := Task.set_category_id (getitem data "category_id") task in
   let task := Task.set_user_id (getitem data "user_id") task in
   let task := Task.set_updated_at now task in
   inr task) = inr t1
  ↔ (∀ v, data !! "status" = Some v →
          (validate_enum_value (E:=TaskStatus) v "status").1.1 = true)
    ∧ (∀ v, data !! "priority" = Some v →
            (validate_enum_value (E:=TaskPriority) v "priority").1.1 = true)
    ∧ t1 = replaced data now t0.
Proof.
  cbv zeta. split.
  - intros Hrun.
    apply and_then_inr in Hrun as (a & [Hs ->]%assign_enum_inr & Hrun).
    apply and_then_inr in Hrun as (b & [Hp ->]%assign_enum_inr & Hrun).
    injection Hrun as <-. repeat (split; [assumption|]).
    apply replaced_closed_form.
  - intros (Hs & Hp & ->).
    apply and_then_inr. eexists. split; [apply assign_enum_inr; by split|].
    apply and_then_inr. eexists. split; [apply assign_enum_inr; by split|].
    f_equal. apply replaced_closed_form.
Qed.

(** A full update that passes its checks hands the replaced row to the
    flush. *)
Lemma update_task_saves env task_id data db t0 :
  get_task_row db task_id = Some t0 →
  put_accepted data →
  update_task env task_id data db
  = save_task env task_id (replaced data (utcnow env) t0) db.
Proof.
  intros Hrow (Hreq & Hs & Hp). unfold update_task.
  destruct (is_empty data) eqn:Hempty.
  { apply bool_decide_eq_true in Hempty. by subst data. }
  rewrite Hrow.
  destruct (validate_required_fields data _) as [[] msg]; [|done].
  cbv beta iota zeta. simpl negb. cbv iota.
  match goal with |- context [match ?m with inl _ => _ | inr _ => _ end] =>
    assert (m = inr (replaced data (utcnow env) t0)) as ->
      by (by apply update_task_steps) end.
  done.
Qed.

(** A full update that answers 200 has stored the replaced row, which the
    flush has taken. *)
Lemma update_task_200_inv env task_id data db r db' :
  update_task env task_id data db = ((r, 200), db') →
  ∃ t0, get_task_row db task_id = Some t0
        ∧ put_accepted data
        ∧ flush_dirty (replaced data (utcnow env) t0) = true
        ∧ r = TaskBody (replaced data (utcnow env) t0)
        ∧ db' = mkDB (users db) (categories db)
                  (replace_first (λ x, Z.eqb (Task.id x) task_id)
                     (replaced data (utcnow env) t0) (tasks db)).
Proof.
  unfold update_task.
  destruct (is_empty data) eqn:Hempty; [done|].
  destruct (get_task_row db task_id) as [t0|] eqn:Hrow; [|done].
  destruct (validate_required_fields data _) as [[] msg] eqn:Hreq; [|done].
  cbv beta iota zeta. simpl negb. cbv iota.
  match goal with |- context [match ?m with inl _ => _ | inr _ => _ end] =>
    destruct m as [r'|t1] eqn:Hsteps end.
  - intros [= -> <-]. exfalso.
    repeat (apply and_then_inl in Hsteps as [Hsteps|(? & _ & Hsteps)]);
      first [ by apply assign_enum_inl in Hsteps | done ].
  - apply update_task_steps in Hsteps as (Hs & Hp & ->).
    unfold save_task, commit, database_error, error.
    destruct (flush_dirty _) eqn:Hflush; [|done].
    destruct (commit_outcome env); [|done..].
    intros [= <- <-]. exists t0. unfold put_accepted. rewrite Hreq. by repeat split.
Qed.

(** An accepted full update of an existing row, flushed and committed,
    answers 200. *)
Lemma update_task_accepted env task_id data db t0 :
  get_task_row db task_id = Some t0 →
  put_accepted data →
  flush_dirty (replaced data (utcnow env) t0) = true →
  commit_outcome env = Committed →
  update_task env task_id data db =
    ((TaskBody (replaced data (utcnow env) t0), 200),
     mkDB (users db) (categories db)
       (replace_first (λ x, Z.eqb (Task.id x) task_id)
          (replaced data (utcnow env) t0) (tasks db))).
Proof.
  intros Hrow Hacc Hflush Hcommit. rewrite (update_task_saves _ _ _ _ t0) by done.
  unfold save_task, commit. by rewrite Hflush, Hcommit.
Qed.

Lemma replaced_twice data now1 now2 t :
  replaced data now2 (replaced data now1 t)
  = Task.set_updated_at now2 (replaced data now1 t).
Proof.
  unfold replaced, Task.set_updated_at. simpl.
  f_equal; by destruct (data !! _).
Qed.

(** A partial update that passes its checks hands the patched row to the
    flush. *)
Lemma partial_update_task_saves env task_id data db t0 :
  get_task_row db task_id = Some t0 →
  patch_accepted data db →
  partial_update_task env task_id data db
  = save_task env task_id (patched data (utcnow env) t0) db.
Proof.
  intros Hrow (Hempty & Hs & Hp & Hc & Hu).
  unfold partial_update_task. rewrite Hempty, Hrow.
  match goal with |- context [match ?m with inl _ => _ | inr _ => _ end] =>
    assert (m = inr (patched data (utcnow env) t0)) as ->
      by (by apply partial_update_steps) end.
  done.
Qed.

(** Where a handler leaves the store: as it was, or as its success says. *)
Lemma update_task_store env task_id data db :
  (update_task env task_id data db).2 = db
  ∨ ∃ r, update_task env task_id data db = ((r, 200), (update_task env task_id data db).2).
Proof.
  unfold update_task, save_task, commit, database_error, error.
  repeat case_match; simpl; eauto.
Qed.

Lemma partial_update_task_store env task_id data db :
  (partial_update_task env task_id data db).2 = db
  ∨ ∃ r, partial_update_task env task_id data db
         = ((r, 200), (partial_update_task env task_id data db).2).
Proof.
  unfold partial_update_task, save_task, commit, database_error, error.
  repeat case_match; simpl; eauto.
Qed.

Lemma create_user_store env data db :
  (create_user env data db).2 = db
  ∨ ∃ r, create_user env data db = ((r, 201), (create_user env data db).2).
Proof. unfold create_user, error. repeat case_match; simpl; eauto. Qed.

Lemma create_category_store env data db :
  (create_category env data db).2 = db
  ∨ ∃ r, create_category env data db = ((r, 201), (create_category env data db).2).
Proof. unfold create_category, commit, error. repeat case_match; simpl; eauto. Qed.

Lemma create_task_store env data db :
  (create_task env data db).2 = db
  ∨ ∃ r, create_task env data db = ((r, 201), (create_task env data db).2).
Proof.
  unfold create_task, commit, database_error, error. repeat case_match; simpl; eauto.
Qed.

Lemma delete_task_store env task_id db :
  (delete_task env task_id db).2 = db
  ∨ ∃ r, delete_task env task_id db = ((r, 200), (delete_task env task_id db).2).
Proof. unfold delete_task, commit, error. repeat case_match; simpl; eauto. Qed.

Lemma delete_category_store env category_id db :
  (delete_category env category_id db).2 = db
  ∨ ∃ r, delete_category env category_id db
         = ((r, 200), (delete_category env category_id db).2).
Proof. unfold delete_category, commit, error. repeat case_match; simpl; eauto. Qed.
End Answered.

(** *** Enum values that are not strings *)

Section RawEnumValues.
Context `{Runtime}.

Lemma validate_enum_value_raw {E} `{PyEnum E} (v : json) (field_name : string) :
  v ≠ JNull → is_str v = false →
  validate_enum_value (E:=E) v field_name = (true, None, RRaw v).
Proof. by destruct v. Qed.

Lemma assign_enum_raw {E} `{PyEnum E} data key (set : resolved E → Task.t → Task.t)
    t v :
  v ≠ JNull → is_str v = false → data !! key = Some v →
  assign_enum data key set t = inr (set (RRaw v) t).
Proof.
  intros Hnull Hstr Hv. unfold assign_enum.
  by rewrite Hv, validate_enum_value_raw.
Qed.

Lemma missing_fields_not_invalid_enum data fields msg E `{PyEnum E} field_name :
  validate_required_fields data fields = (false, msg) →
  (ErrorBody msg, 400) ≠ invalid_enum E field_name.
Proof.
  unfold validate_required_fields, invalid_enum, invalid_enum_msg.
  destruct (List.filter _ _); [done|]. by intros [= <-] [= Hmsg].
Qed.

Lemma invalid_priority_not_status data t r :
  assign_enum data "priority" Task.set_priority t = inl r →
  r ≠ invalid_enum TaskStatus "status".
Proof.
  unfold assign_enum. destruct (data !! "priority") as [v|]; [|done].
  destruct v; try done. simpl. destruct (enum_getitem (upper s)); [done|].
  by intros [= <-] [= Hmsg].
Qed.

Lemma invalid_status_not_priority data t r :
  assign_enum data "status" Task.set_status t = inl r →
  r ≠ invalid_enum TaskPriority "priority".
Proof.
  unfold assign_enum. destruct (data !! "status") as [v|]; [|done].
  destruct v; try done. simpl. destruct (enum_getitem (upper s)); [done|].
  by intros [= <-] [= Hmsg].
Qed.

Lemma commit_not_invalid_enum env old new ok E `{PyEnum E} field_name :
  ok.2 ≠ 400 → (commit env old new ok).1 ≠ invalid_enum E field_name.
Proof.
  unfold commit, invalid_enum, error. destruct (commit_outcome env); simpl; [|done..].
  intros Hok Heq. by rewrite Heq in Hok.
Qed.

Lemma save_task_not_invalid_enum env task_id task db E `{PyEnum E} field_name :
  (save_task env task_id task db).1 ≠ invalid_enum E field_name.
Proof.
  unfold save_task. destruct (flush_dirty task); [by apply commit_not_invalid_enum|].
  done.
Qed.

Lemma query_key_not_invalid_enum {A} env (lookup : json → option A) v r
    E `{PyEnum E} field_name :
  query_key env lookup v = inl r → r ≠ invalid_enum E field_name.
Proof. intros Hr%query_key_inl [= Heq]. rewrite Heq in Hr. done. Qed.

Lemma assign_reference_not_invalid_enum {R} env data key (lookup : json → option R)
    msg set t r E `{PyEnum E} field_name :
  assign_reference env data key lookup msg set t = inl r → r ≠ invalid_enum E field_name.
Proof.
  intros [Hr|Hr]%assign_reference_inl [= Heq]; rewrite Heq in Hr; done.
Qed.

(** A row that holds a raw value in an enum attribute is not flushed. *)
Lemma flush_new_raw (x : Task.t) (v : json) :
  Task.status x = RRaw v ∨ Task.priority x = RRaw v → flush_new x = None.
Proof.
  intros Hraw. apply flush_new_refused. by destruct Hraw as [-> | ->]; [left|right].
Qed.

Lemma flush_dirty_raw (x : Task.t) (v : json) :
  Task.status x = RRaw v ∨ Task.priority x = RRaw v → flush_dirty x = false.
Proof.
  unfold flush_dirty. intros [-> | ->]; [done|]. by rewrite andb_false_r.
Qed.

Lemma created_raw data now db v :
  v ≠ JNull → is_str v = false →
  data !! "status" = Some v ∨ data !! "priority" = Some v →
  Task.status (created data now db) = RRaw v
  ∨ Task.priority (created data now db) = RRaw v.
Proof.
  intros Hnull Hstr [Hv|Hv]; [left|right]; unfold created; simpl;
    by rewrite Hv, validate_enum_value_raw.
Qed.

Lemma replaced_raw data now t0 v :
  v ≠ JNull → is_str v = false →
  data !! "status" = Some v ∨ data !! "priority" = Some v →
  Task.status (replaced data now t0) = RRaw v
  ∨ Task.priority (replaced data now t0) = RRaw v.
Proof.
  intros Hnull Hstr [Hv|Hv]; [left|right]; unfold replaced; simpl;
    by rewrite Hv, validate_enum_value_raw.
Qed.

Lemma patched_raw data now t0 v :
  v ≠ JNull → is_str v = false →
  data !! "status" = Some v ∨ data !! "priority" = Some v →
  Task.status (patched data now t0) = RRaw v
  ∨ Task.priority (patched data now t0) = RRaw v.
Proof.
  intros Hnull Hstr [Hv|Hv]; [left|right]; unfold patched; simpl;
    by rewrite Hv, validate_enum_value_raw.
Qed.

Lemma create_task_not_invalid_status env data db v :
  v ≠ JNull → is_str v = false → data !! "status" = Some v →
  (create_task env data db).1 ≠ invalid_enum TaskStatus "status".
Proof.
  intros Hnull Hstr Hv. unfold create_task. rewrite Hv.
  rewrite (validate_enum_value_raw v "status" Hnull Hstr).
  destruct (is_empty data); [done|].
  destruct (validate_required_fields data _) as [[] msg] eqn:Hreq; simpl;
    [|by eapply missing_fields_not_invalid_enum].
  destruct (query_key env (find_user db) _) as [r|[u|]] eqn:Hu;
    [by eapply query_key_not_invalid_enum| |done].
  destruct (query_key env (find_category db) _) as [r|[c|]] eqn:Hc;
    [by eapply query_key_not_invalid_enum| |done].
  destruct (data !! "priority") as [p|]; [|done].
  destruct p; simpl; try done.
  by destruct (enum_getitem (upper s)).
Qed.

Lemma create_task_not_invalid_priority env data db v :
  v ≠ JNull → is_str v = false → data !! "priority" = Some v →
  (create_task env data db).1 ≠ invalid_enum TaskPriority "priority".
Proof.
  intros Hnull Hstr Hv. unfold create_task. rewrite Hv.
  rewrite (validate_enum_value_raw v "priority" Hnull Hstr).
  destruct (is_empty data); [done|].
  destruct (validate_required_fields data _) as [[] msg] eqn:Hreq; simpl;
    [|by eapply missing_fields_not_invalid_enum].
  destruct (query_key env (find_user db) _) as [r|[u|]] eqn:Hu;
    [by eapply query_key_not_invalid_enum| |done].
  destruct (query_key env (find_category db) _) as [r|[c|]] eqn:Hc;
    [by eapply query_key_not_invalid_enum| |done].
  destruct (data !! "status") as [p|];
    [destruct p; simpl; try destruct (enum_getitem (upper s)); simpl|];
    first [done | by rewrite (flush_new_raw _ v) by (by right)].
Qed.

Lemma update_task_not_invalid_status env task_id data db v :
  v ≠ JNull → is_str v = false → data !! "status" = Some v →
  (update_task env task_id data db).1 ≠ invalid_enum TaskStatus "status".
Proof.
  intros Hnull Hstr Hv. unfold update_task.
  destruct (is_empty data); [done|].
  destruct (get_task_row db task_id) as [task|]; [|done].
  destruct (validate_required_fields data _) as [[] msg] eqn:Hreq; simpl;
    [|by eapply missing_fields_not_invalid_enum].
  rewrite (assign_enum_raw _ _ _ _ v) by done. simpl.
  destruct (assign_enum data "priority" _ _) as [r|t2] eqn:Hp; simpl.
  - by eapply invalid_priority_not_status.
  - by apply save_task_not_invalid_enum.
Qed.

Lemma update_task_not_invalid_priority env task_id data db v :
  v ≠ JNull → is_str v = false → data !! "priority" = Some v →
  (update_task env task_id data db).1 ≠ invalid_enum TaskPriority "priority".
Proof.
  intros Hnull Hstr Hv. unfold update_task.
  destruct (is_empty data); [done|].
  destruct (get_task_row db task_id) as [task|]; [|done].
  destruct (validate_required_fields data _) as [[] msg] eqn:Hreq; simpl;
    [|by eapply missing_fields_not_invalid_enum].
  destruct (assign_enum data "status" _ _) as [r|t1] eqn:Hs; simpl.
  - by eapply invalid_status_not_priority.
  - rewrite (assign_enum_raw _ _ _ _ v) by done. simpl.
    by apply save_task_not_invalid_enum.
Qed.

Lemma partial_update_task_not_invalid_status env task_id data db v :
  v ≠ JNull → is_str v = false → data !! "status" = Some v →
  (partial_update_task env task_id data db).1 ≠ invalid_enum TaskStatus "status".
Proof.
  intros Hnull Hstr Hv. unfold partial_update_task.
  destruct (is_empty data); [done|].
  destruct (get_task_row db task_id) as [task|]; [|done]. cbv zeta.
  rewrite (assign_enum_raw _ _ _ _ v) by done. simpl.
  destruct (assign_enum data "priority" _ _) as [r|t2] eqn:Hp; simpl;
    [by eapply invalid_priority_not_status|].
  destruct (assign_reference env data "category_id" _ _ _ _) as [r|t3] eqn:Hc; simpl;
    [by eapply assign_reference_not_invalid_enum|].
  destruct (assign_reference env data "user_id" _ _ _ _) as [r|t4] eqn:Hu; simpl;
    [by eapply assign_reference_not_invalid_enum|].
  by apply save_task_not_invalid_enum.
Qed.

Lemma partial_update_task_not_invalid_priority env task_id data db v :
  v ≠ JNull → is_str v = false → data !! "priority" = Some v →
  (partial_update_task env task_id data db).1 ≠ invalid_enum TaskPriority "priority".
Proof.
  intros Hnull Hstr Hv. unfold partial_update_task.
  destruct (is_empty data); [done|].
  destruct (get_task_row db task_id) as [task|]; [|done]. cbv zeta.
  destruct (assign_enum data "status" _ _) as [r|t1] eqn:Hs; simpl;
    [by eapply invalid_status_not_priority|].
  rewrite (assign_enum_raw _ _ _ _ v) by done. simpl.
  destruct (assign_reference env data "category_id" _ _ _ _) as [r|t3] eqn:Hc; simpl;
    [by eapply assign_reference_not_invalid_enum|].
  destruct (assign_reference env data "user_id" _ _ _ _) as [r|t4] eqn:Hu; simpl;
    [by eapply assign_reference_not_invalid_enum|].
  by apply save_task_not_invalid_enum.
Qed.

(** With a raw value in an enum attribute no request succeeds, and the store
    stays as it was. *)
Lemma create_task_raw_fails env data db v :
  v ≠ JNull → is_str v = false →
  data !! "status" = Some v ∨ data !! "priority" = Some v →
  (create_task env data db).1.2 ≠ 201 ∧ (create_task env data db).2 = db.
Proof.
  intros Hnull Hstr Hv.
  assert (Hno : (create_task env data db).1.2 ≠ 201).
  { destruct (create_task env data db) as [[r code] db'] eqn:Hrun. simpl.
    intros ->. apply create_task_201_inv in Hrun as (x & _ & _ & _ & Hflush).
    by rewrite (flush_new_raw _ v) in Hflush by (by apply created_raw). }
  split; [done|].
  destruct (create_task_store env data db) as [Hdb|[r Hr]]; [done|].
  by rewrite Hr in Hno.
Qed.

Lemma update_task_raw_fails env task_id data db v :
  v ≠ JNull → is_str v = false →
  data !! "status" = Some v ∨ data !! "priority" = Some v →
  (update_task env task_id data db).1.2 ≠ 200 ∧ (update_task env task_id data db).2 = db.
Proof.
  intros Hnull Hstr Hv.
  assert (Hno : (update_task env task_id data db).1.2 ≠ 200).
  { destruct (update_task env task_id data db) as [[r code] db'] eqn:Hrun. simpl.
    intros ->. apply update_task_200_inv in Hrun as (t0 & _ & _ & Hflush & _).
    by rewrite (flush_dirty_raw _ v) in Hflush by (by apply replaced_raw). }
  split; [done|].
  destruct (update_task_store env task_id data db) as [Hdb|[r Hr]]; [done|].
  by rewrite Hr in Hno.
Qed.

Lemma partial_update_task_raw_fails env task_id data db v :
  v ≠ JNull → is_str v = false →
  data !! "status" = Some v ∨ data !! "priority" = Some v →
  (partial_update_task env task_id data db).1.2 ≠ 200
  ∧ (partial_update_task env task_id data db).2 = db.
Proof.
  intros Hnull Hstr Hv.
  assert (Hno : (partial_update_task env task_id data db).1.2 ≠ 200).
  { destruct (partial_update_task env task_id data db) as [[r code] db'] eqn:Hrun. simpl.
    intros ->. apply partial_update_task_200 in Hrun as (t0 & _ & _ & Hflush & _).
    by rewrite (flush_dirty_raw _ v) in Hflush by (by apply patched_raw). }
  split; [done|].
  destruct (partial_update_task_store env task_id data db) as [Hdb|[r Hr]]; [done|].
  by rewrite Hr in Hno.
Qed.

(** The listing rejects every value of [status] that is not empty and does
    not validate. *)
Lemma get_all_tasks_invalid_status (args : gmap string string) (db : DB) (s : string) :
  args !! "status" = Some s → s ≠ "" →
  (validate_enum_value (E:=TaskStatus) (JStr s) "status").1.1 = false →
  get_all_tasks args db = invalid_enum TaskStatus "status".
Proof.
  intros Hs Hne Hinvalid. rewrite get_all_tasks_eq. unfold enum_filter at 1.
  rewrite Hs. apply String.eqb_neq in Hne. rewrite Hne.
  simpl in *. by destruct (enum_getitem (upper s)).
Qed.

(** C9, as amended.  A value that is neither null nor a string passes
    [validate_enum_value] as valid and comes back unchanged, for any enum
    class.  With such a value under [status] or [priority], none of the
    create, full-update and partial-update handlers answers with the
    invalid-value error of that field; none of them accepts the value
    either: the request is not answered with its success status and the
    store stays as it was, and a request that passes every other check is
    answered 500 with the text of the engine, which refuses the row when it
    is flushed.  The task listing takes [status] from the query string, a
    string, and rejects it when it is not empty and does not validate. *)
Theorem non_string_enum_values_are_not_checked (v : json) :
  v ≠ JNull → is_str v = false →
  (∀ E (HE : PyEnum E) field_name,
     validate_enum_value (E:=E) v field_name = (true, None, RRaw v))
  ∧ (∀ env task_id data db, data !! "status" = Some v →
       (create_task env data db).1 ≠ invalid_enum TaskStatus "status"
       ∧ (update_task env task_id data db).1 ≠ invalid_enum TaskStatus "status"
       ∧ (partial_update_task env task_id data db).1 ≠ invalid_enum TaskStatus "status")
  ∧ (∀ env task_id data db, data !! "priority" = Some v →
       (create_task env data db).1 ≠ invalid_enum TaskPriority "priority"
       ∧ (update_task env task_id data db).1 ≠ invalid_enum TaskPriority "priority"
       ∧ (partial_update_task env task_id data db).1
         ≠ invalid_enum TaskPriority "priority")
  ∧ (∀ env task_id data db,
       data !! "status" = Some v ∨ data !! "priority" = Some v →
       ((create_task env data db).1.2 ≠ 201 ∧ (create_task env data db).2 = db)
       ∧ ((update_task env task_id data db).1.2 ≠ 200
          ∧ (update_task env task_id data db).2 = db)
       ∧ ((partial_update_task env task_id data db).1.2 ≠ 200
          ∧ (partial_update_task env task_id data db).2 = db))
  ∧ (∀ env task_id data db t0,
       data !! "status" = Some v ∨ data !! "priority" = Some v →
       (post_accepted data db → create_task env data db = (database_error env, db))
       ∧ (get_task_row db task_id = Some t0 → put_accepted data →
          update_task env task_id data db = (database_error env, db))
       ∧ (get_task_row db task_id = Some t0 → patch_accepted data db →
          partial_update_task env task_id data db = (database_error env, db)))
  ∧ (∀ args db s, args !! "status" = Some s → s ≠ "" →
       (validate_enum_value (E:=TaskStatus) (JStr s) "status").1.1 = false →
       get_all_tasks args db = invalid_enum TaskStatus "status").
Proof.
  intros Hnull Hstr. split; [|split; [|split; [|split; [|split]]]].
  - intros E HE field_name. by apply validate_enum_value_raw.
  - intros env task_id data db Hv. split; [|split].
    + by eapply create_task_not_invalid_status.
    + by eapply update_task_not_invalid_status.
    + by eapply partial_update_task_not_invalid_status.
  - intros env task_id data db Hv. split; [|split].
    + by eapply create_task_not_invalid_priority.
    + by eapply update_task_not_invalid_priority.
    + by eapply partial_update_task_not_invalid_priority.
  - intros env task_id data db Hv. split; [|split].
    + by eapply create_task_raw_fails.
    + by eapply update_task_raw_fails.
    + by eapply partial_update_task_raw_fails.
  - intros env task_id data db t0 Hv. split; [|split].
    + intros Hacc. rewrite create_task_flushes by done.
      by rewrite (flush_new_raw _ v) by (by apply created_raw).
    + intros Hrow Hacc. rewrite (update_task_saves _ _ _ _ t0) by done.
      unfold save_task. by rewrite (flush_dirty_raw _ v) by (by apply replaced_raw).
    + intros Hrow Hacc. rewrite (partial_update_task_saves _ _ _ _ t0) by done.
      unfold save_task. by rewrite (flush_dirty_raw _ v) by (by apply patched_raw).
  - apply get_all_tasks_invalid_status.
Qed.
End RawEnumValues.

(** C9, as stated, fails: the handlers do not accept a value that is no
    string.  The number 5 passes [validate_enum_value] unchanged, but the
    creation, the full update and the partial update of a task with
    [status] 5 are answered 500 and nothing is stored. *)
Lemma handlers_refuse_numeric_status :
  @validate_enum_value Sample.runtime TaskStatus _ (JInt 5) "status"
  = (true, None, RRaw (JInt 5))
  ∧ @create_task Sample.runtime (Sample.env 200) Sample.numeric_status Sample.db
    = (error "Database error: statement refused" 500, Sample.db)
  ∧ @update_task Sample.runtime (Sample.env 200) 1 Sample.numeric_status Sample.db
    = (error "Database error: statement refused" 500, Sample.db)
  ∧ @partial_update_task Sample.runtime (Sample.env 200) 1 Sample.numeric_status
      Sample.db
    = (error "Database error: statement refused" 500, Sample.db).
Proof. repeat split; vm_compute; reflexivity. Qed.

Lemma non_string_enum_values_are_not_checked_witness :
  @validate_enum_value Sample.runtime TaskStatus _ (JInt 5) "status"
  = (true, None, RRaw (JInt 5))
  ∧ (@create_task Sample.runtime (Sample.env 200) Sample.numeric_status Sample.db).1
    ≠ invalid_enum TaskStatus "status"
  ∧ (@create_task Sample.runtime (Sample.env 200) Sample.numeric_status Sample.db).1.2
    ≠ 201
  ∧ @create_task Sample.runtime (Sample.env 200) Sample.numeric_status Sample.db
    = (database_error (Sample.env 200), Sample.db).
Proof.
  pose proof (@non_string_enum_values_are_not_checked Sample.runtime (JInt 5))
    as (Hvalidate & Hstatus & _ & Hfails & Hrefused & _); [done | reflexivity |].
  split; [apply Hvalidate|]. split; [|split].
  - destruct (Hstatus (Sample.env 200) 1 Sample.numeric_status Sample.db) as [Hcreate _];
      [reflexivity | exact Hcreate].
  - destruct (Hfails (Sample.env 200) 1 Sample.numeric_status Sample.db)
      as [[Hcreate _] _]; [left; reflexivity | exact Hcreate].
  - destruct (Hrefused (Sample.env 200) 1 Sample.numeric_status Sample.db
                (Sample.task 1 PENDING LOW 101)) as [Hcreate _]; [left; reflexivity|].
    apply Hcreate.
    unfold post_accepted. split; [reflexivity|]. split; [reflexivity|].
    split; [by eexists|]. split; [reflexivity|]. split; [by eexists|].
    split; intros w Hw; vm_compute in Hw; by simplify_eq.
Defined.

(** ** Further properties *)

(** *** Listing: which rows, in which order *)

Lemma filter_filter {A} (f g : A → bool) (l : list A) :
  List.filter f (List.filter g l) = List.filter (λ x, g x && f x) l.
Proof.
  induction l as [|x l IH]; [done|]. simpl.
  destruct (g x); simpl; [destruct (f x); by rewrite IH | done].
Qed.

Section ListingRows.
Context `{Runtime}.

Lemma enum_filter_inr {E} `{PyEnum E, EqDecision E} (args : gmap string string)
    (key : string) (column : Task.t → resolved E) (query rows : list Task.t) :
  enum_filter args key column query = inr rows →
  rows = List.filter (enum_selected args key column) query.
Proof.
  unfold enum_filter, enum_selected.
  destruct (args !! key) as [s|]; [|intros [= <-]; by rewrite filter_true].
  destruct (String.eqb s ""); [intros [= <-]; by rewrite filter_true|].
  simpl. destruct (enum_getitem (upper s)) as [e|]; [|done].
  by intros [= <-].
Qed.

Lemma int_filter_selected (args : gmap string string) (key : string)
    (column : Task.t → json) (query : list Task.t) :
  int_filter args key column query = List.filter (int_selected args key column) query.
Proof.
  unfold int_filter, int_selected, truthy_int.
  destruct (get_int args key) as [n|]; [|by rewrite filter_true].
  destruct (Z.eqb n 0); simpl; [by rewrite filter_true | done].
Qed.

(** The rows of a listing, before they are ordered. *)
Lemma get_all_tasks_rows (args : gmap string string) (db : DB) (rows : list Task.t) :
  get_all_tasks args db = (TaskList rows, 200) →
  let sort_by := default "created_at" (args !! "sort_by") in
  let order := lower (default "desc" (args !! "order")) in
  rows = (if String.eqb order "desc"
          then order_by (desc (sort_column sort_by)) (List.filter (selected args) (tasks db))
          else order_by (asc (sort_column sort_by)) (List.filter (selected args) (tasks db))).
Proof.
  rewrite get_all_tasks_eq.
  destruct (enum_filter args "status" _ _) as [r|q1] eqn:Hs.
  { destruct (enum_filter_cases args "status" Task.status) as [[m Hm]|[f Hf]];
      intros; congruence. }
  destruct (enum_filter args "priority" _ _) as [r|q2] eqn:Hp.
  { destruct (enum_filter_cases args "priority" Task.priority) as [[m Hm]|[f Hf]];
      intros; congruence. }
  apply enum_filter_inr in Hs as ->. apply enum_filter_inr in Hp as ->.
  rewrite !int_filter_selected, !filter_filter.
  match goal with |- context [List.filter ?f (tasks db)] =>
    rewrite (filter_ext f (selected args))
      by (intros x; unfold selected; by rewrite ?andb_assoc) end.
  cbv zeta.
  destruct (str_in (default "created_at" _) _); [|done].
  destruct (str_in (lower _) _); [|done].
  by intros [= <-].
Qed.

(** X1.  The rows of a task listing are the rows of the table that match all
    four filters, each once: nothing is left out and nothing is added. *)
Theorem get_all_tasks_returns_the_selected_rows (args : gmap string string) (db : DB)
    (rows : list Task.t) :
  get_all_tasks args db = (TaskList rows, 200) →
  rows ≡ₚ List.filter (selected args) (tasks db).
Proof.
  intros ->%get_all_tasks_rows. cbv zeta.
  destruct (String.eqb _ "desc"); apply merge_sort_Permutation.
Qed.

(** X2.  The rows of a task listing are sorted by the requested column,
    downwards unless [order] is [asc]; with no sort parameter at all they
    come newest first. *)
Theorem get_all_tasks_orders_as_requested (args : gmap string string) (db : DB)
    (rows : list Task.t) :
  get_all_tasks args db = (TaskList rows, 200) →
  let sort_by := default "created_at" (args !! "sort_by") in
  let order := lower (default "desc" (args !! "order")) in
  (order = "desc" → StronglySorted (desc (sort_column sort_by)) rows)
  ∧ (order = "asc" → StronglySorted (asc (sort_column sort_by)) rows)
  ∧ (args !! "sort_by" = None → args !! "order" = None →
     StronglySorted (λ x y, (Task.created_at y ≤ Task.created_at x)%Z) rows).
Proof.
  intros Hget sort_by order. pose proof (get_all_tasks_rows _ _ _ Hget) as Hrows.
  cbv zeta in Hrows. fold sort_by order in Hrows.
  assert (Hdesc : order = "desc" → StronglySorted (desc (sort_column sort_by)) rows).
  { intros Hord. rewrite Hord in Hrows. simpl in Hrows. subst rows.
    apply (@StronglySorted_merge_sort _ (desc (sort_column sort_by)) _
             (desc_trans _) (desc_total _)). }
  split; [done|]. split.
  - intros Hord. rewrite Hord in Hrows. simpl in Hrows. subst rows.
    apply (@StronglySorted_merge_sort _ (asc (sort_column sort_by)) _
             (asc_trans _) (asc_total _)).
  - intros Hs Ho. subst sort_by order. rewrite Hs, Ho in Hdesc. simpl in Hdesc.
    rewrite lower_ascii_text in Hdesc by done.
    eapply StronglySorted_weaken; [|by apply Hdesc].
    intros x y. unfold desc. simpl. intros Hle%Is_true_true. by apply Z.leb_le.
Qed.

(** X3.  A [status] or [priority] query parameter that is empty counts as
    absent; values that differ only in the case of their ASCII letters
    select the same rows; and a [status] that is not empty and whose
    upper-case form, as [str.upper] gives it, is no member name is answered
    400 with the list of valid values, whatever the store and the other
    parameters are. *)
Theorem get_all_tasks_enum_filter_edges (args : gmap string string) (db : DB) :
  get_all_tasks (<["status" := ""]> args) db = get_all_tasks (delete "status" args) db
  ∧ get_all_tasks (<["priority" := ""]> args) db
    = get_all_tasks (delete "priority" args) db
  ∧ (∀ s1 s2, differ_only_in_case s1 s2 = true →
       get_all_tasks (<["status" := s1]> args) db
       = get_all_tasks (<["status" := s2]> args) db
       ∧ get_all_tasks (<["priority" := s1]> args) db
         = get_all_tasks (<["priority" := s2]> args) db)
  ∧ (∀ s, s ≠ "" → enum_getitem (E:=TaskStatus) (upper s) = None →
       get_all_tasks (<["status" := s]> args) db
       = error "Invalid status. Must be one of: pending, in_progress, completed" 400).
Proof.
  split; [|split; [|split]].
  - unfold get_all_tasks, enum_filter, int_filter, get_int. by payload_lookups.
  - unfold get_all_tasks, enum_filter, int_filter, get_int. by payload_lookups.
  - intros s1 s2 Hcase.
    assert (String.eqb s1 "" = String.eqb s2 "") as Hempty.
    { destruct s1, s2; simpl in *; done. }
    split; unfold get_all_tasks, enum_filter, int_filter, get_int; payload_lookups;
      unfold validate_enum_value; by rewrite Hempty, (differ_only_in_case_upper _ _ Hcase).
  - intros s Hs Hnone. unfold get_all_tasks, enum_filter. payload_lookups.
    apply String.eqb_neq in Hs. rewrite Hs. simpl. by rewrite Hnone.
Qed.

(** X4.  A [category_id] or [user_id] query parameter that is not an integer
    is dropped without an error: both listings answer as if it had not been
    sent. *)
Theorem unparsable_integer_filter_is_ignored (args : gmap string string) (db : DB)
    (text : string) :
  py_int text = None →
  get_all_tasks (<["category_id" := text]> args) db
    = get_all_tasks (delete "category_id" args) db
  ∧ get_all_tasks (<["user_id" := text]> args) db
    = get_all_tasks (delete "user_id" args) db
  ∧ get_all_categories (<["user_id" := text]> args) db
    = get_all_categories (delete "user_id" args) db.
Proof.
  intros Hbad. repeat split.
  - unfold get_all_tasks, enum_filter, int_filter, get_int.
    payload_lookups. simpl. by rewrite Hbad.
  - unfold get_all_tasks, enum_filter, int_filter, get_int.
    payload_lookups. simpl. by rewrite Hbad.
  - unfold get_all_categories, get_int.
    payload_lookups. simpl. by rewrite Hbad.
Qed.
End ListingRows.

(** *** Rows of the store *)

Lemma find_app_Some {A} (p : A → bool) (l l' : list A) x :
  List.find p l = Some x → List.find p (l ++ l') = Some x.
Proof.
  induction l as [|y l IH]; [done|]. simpl. destruct (p y); [done | exact IH].
Qed.

Lemma find_app_None {A} (p : A → bool) (l l' : list A) :
  List.find p l = None → List.find p (l ++ l') = List.find p l'.
Proof.
  induction l as [|y l IH]; [done|]. simpl. destruct (p y); [done | exact IH].
Qed.

Lemma is_Some_find_app {A} (p : A → bool) (l l' : list A) :
  is_Some (List.find p l) → is_Some (List.find p (l ++ l')).
Proof. intros [x Hx]. exists x. by apply find_app_Some. Qed.

Lemma next_id_fresh (ids : list Z) (i : Z) : i ∈ ids → i < next_id ids.
Proof.
  unfold next_id. induction ids as [|j ids IH]; [by intros ?%elem_of_nil|].
  simpl. intros [->|Hi]%elem_of_cons; [lia|]. specialize (IH Hi). lia.
Qed.

Lemma find_fresh_id {A} (key : A → Z) (l : list A) :
  List.find (λ x, Z.eqb (key x) (next_id (key <$> l))) l = None.
Proof.
  destruct (List.find _ l) as [x|] eqn:Hfind; [|done].
  apply find_some in Hfind as [Hin Heq]. apply Z.eqb_eq in Heq.
  assert (key x < next_id (key <$> l)); [|lia].
  apply next_id_fresh, list_elem_of_fmap. exists x. split; [done|].
  by apply list_elem_of_In.
Qed.

Lemma find_appended {A} (key : A → Z) (l : list A) (new : A) :
  key new = next_id (key <$> l) →
  List.find (λ x, Z.eqb (key x) (key new)) (l ++ [new]) = Some new.
Proof.
  intros Hkey. rewrite find_app_None; [simpl; by rewrite Z.eqb_refl|].
  rewrite Hkey. apply find_fresh_id.
Qed.

Lemma remove_first_absent {A} (p : A → bool) (l : list A) :
  List.find p l = None → remove_first p l = l.
Proof.
  induction l as [|y l IH]; [done|]. simpl. destruct (p y); [done|].
  intros Hl. by rewrite IH.
Qed.

Lemma find_remove_first_other {A} (p q : A → bool) (l : list A) c :
  List.find p l = Some c → q c = false →
  List.find q (remove_first p l) = List.find q l.
Proof.
  induction l as [|y l IH]; [done|]. simpl. destruct (p y).
  - intros [= ->] Hq. by rewrite Hq.
  - intros Hc Hq. simpl. destruct (q y); [done | by apply IH].
Qed.

Lemma find_remove_first_gone {A} (key : A → Z) (k : Z) (l : list A) :
  NoDup (key <$> l) →
  List.find (λ x, Z.eqb (key x) k) (remove_first (λ x, Z.eqb (key x) k) l) = None.
Proof.
  induction l as [|y l IH]; [done|]. rewrite fmap_cons.
  intros [Hy Hl]%NoDup_cons. simpl. destruct (Z.eqb_spec (key y) k) as [Hk|Hk].
  - destruct (List.find _ l) as [x|] eqn:Hfind; [|done].
    apply find_some in Hfind as [Hin Heq%Z.eqb_eq]. exfalso. apply Hy.
    apply list_elem_of_fmap. exists x. split; [lia | by apply list_elem_of_In].
  - simpl. destruct (Z.eqb_spec (key y) k); [done | by apply IH].
Qed.

Lemma elem_of_remove_first {A} (p : A → bool) (l : list A) x :
  x ∈ remove_first p l → x ∈ l.
Proof.
  induction l as [|y l IH]; [done|]. simpl. destruct (p y).
  - intros Hx. by right.
  - intros [->|Hx]%elem_of_cons; [by left | right; auto].
Qed.

Lemma elem_of_replace_first {A} (p : A → bool) (new : A) (l : list A) x :
  x ∈ replace_first p new l → x = new ∨ x ∈ l.
Proof.
  induction l as [|y l IH]; [by intros ?%elem_of_nil|]. simpl. destruct (p y).
  - intros [->|Hx]%elem_of_cons; [by left | right; by right].
  - intros [->|Hx]%elem_of_cons; [right; by left|].
    destruct (IH Hx) as [->|Hin]; [by left | right; by right].
Qed.

Lemma replace_first_Forall2 {A} (R : relation A) (p : A → bool) (new : A) (l : list A) :
  (∀ x, R x x) → (∀ x, p x = true → R x new) →
  Forall2 R l (replace_first p new l).
Proof.
  intros Hrefl Hnew. induction l as [|y l IH]; [constructor|]. simpl.
  destruct (p y) eqn:Hy; constructor; auto.
  by apply Forall_Forall2_diag, Forall_forall.
Qed.

(** *** Creation *)

Section Creation.
Context `{Runtime}.

(** X5.  A task creation answered 201 appends one row and changes no other
    row of any table.  The row takes the payload's title when it is a
    string and the payload's category and user when they are integers, and
    the user and the category it names were found.  Its [status] and
    [priority] hold members: PENDING and MEDIUM when the key is absent and
    also when it is null, since the column default applies to an attribute
    that holds [None]; the member named when the value is a string.  An
    absent [description] gives the empty string, an absent due date none. *)
Theorem create_task_defaults (env : Env) (data : gmap string json) (db : DB)
    (r : body) (db' : DB) :
  create_task env data db = ((r, 201), db') →
  ∃ x, r = TaskBody x
       ∧ users db' = users db ∧ categories db' = categories db
       ∧ tasks db' = (tasks db ++ [x])%list
       ∧ (∀ s, data !! "title" = Some (JStr s) → Task.title x = JStr s)
       ∧ (∀ n, data !! "category_id" = Some (JInt n) → Task.category_id x = JInt n)
       ∧ (∀ n, data !! "user_id" = Some (JInt n) → Task.user_id x = JInt n)
       ∧ is_Some (find_user db (Task.user_id x))
       ∧ is_Some (find_category db (Task.category_id x))
       ∧ (∃ s, Task.status x = RMember s)
       ∧ (∃ p, Task.priority x = RMember p)
       ∧ (data !! "status" = None ∨ data !! "status" = Some JNull →
          Task.status x = RMember PENDING)
       ∧ (data !! "priority" = None ∨ data !! "priority" = Some JNull →
          Task.priority x = RMember MEDIUM)
       ∧ (∀ s e, data !! "status" = Some (JStr s) → enum_getitem (upper s) = Some e →
                 Task.status x = RMember e)
       ∧ (∀ s e, data !! "priority" = Some (JStr s) → enum_getitem (upper s) = Some e →
                 Task.priority x = RMember e)
       ∧ (data !! "description" = None → Task.description x = JStr "")
       ∧ (data !! "due_date" = None → Task.due_date x = None).
Proof.
  intros (x & -> & -> & Hacc & Hflush)%create_task_201_inv.
  destruct Hacc as (_ & _ & Hfu & _ & Hfc & _).
  apply flush_new_Some in Hflush as (-> & Hs & Hp).
  eexists. split; [reflexivity|]. simpl in *.
  split; [done|]. split; [done|]. split; [done|].
  unfold getitem, get.
  split; [by intros s ->|]. split; [by intros n ->|]. split; [by intros n ->|].
  split; [done|]. split; [done|].
  split. { destruct (column_default PENDING _); [done | by eexists | done]. }
  split. { destruct (column_default MEDIUM _); [done | by eexists | done]. }
  split; [by intros [-> | ->]|]. split; [by intros [-> | ->]|].
  split; [intros s e -> He; simpl; by rewrite He|].
  split; [intros s e -> He; simpl; by rewrite He|].
  split; by intros ->.
Qed.

(** X6.  What a creation returns can be read back: after a task, category or
    user creation answered 201, the read-by-id handler answers 200 with the
    same row under the key the creation returned, and every row that could
    be read before is read unchanged. *)
Theorem created_rows_can_be_read_back (env : Env) (data : gmap string json) (db : DB) :
  (∀ x db', create_task env data db = ((TaskBody x, 201), db') →
     get_task (Task.id x) db' = (TaskBody x, 200)
     ∧ ∀ id y, get_task id db = (TaskBody y, 200) → get_task id db' = (TaskBody y, 200))
  ∧ (∀ c db', create_category env data db = ((CategoryBody c, 201), db') →
     get_category (Category.id c) db' = (CategoryBody c, 200)
     ∧ ∀ id y, get_category id db = (CategoryBody y, 200) →
               get_category id db' = (CategoryBody y, 200))
  ∧ (∀ u db', create_user env data db = ((UserBody u, 201), db') →
     get_user (User.id u) db' = (UserBody u, 200)
     ∧ ∀ id y, get_user id db = (UserBody y, 200) → get_user id db' = (UserBody y, 200)).
Proof.
  split; [|split].
  - intros x db' (x' & [= <-] & -> & _ & Hflush)%create_task_201_inv.
    assert (Hid : Task.id x = next_id (Task.id <$> tasks db))
      by (by apply flush_new_Some in Hflush as (-> & _)).
    unfold get_task, get_task_row. simpl. split.
    + by rewrite (find_appended Task.id).
    + intros id y. destruct (List.find _ (tasks db)) as [z|] eqn:Hz; [|done].
      intros [= ->]. by rewrite (find_app_Some _ _ _ _ Hz).
  - intros c db' (c' & [= <-] & -> & Hid & _)%create_category_201_inv.
    unfold get_category, get_category_row. simpl. split.
    + by rewrite (find_appended Category.id).
    + intros id y. destruct (List.find _ (categories db)) as [z|] eqn:Hz; [|done].
      intros [= ->]. by rewrite (find_app_Some _ _ _ _ Hz).
  - intros u db' (u' & [= <-] & -> & Hid & _)%create_user_201_inv.
    unfold get_user, get_user_row. simpl. split.
    + by rewrite (find_appended User.id).
    + intros id y. destruct (List.find _ (users db)) as [z|] eqn:Hz; [|done].
      intros [= ->]. by rewrite (find_app_Some _ _ _ _ Hz).
Qed.
End Creation.

(** *** Deletion *)

Lemma filter_excluded {A} (f : A → bool) (l : list A) :
  List.filter f (List.filter (λ x, negb (f x)) l) = [].
Proof.
  induction l as [|x l IH]; [done|]. simpl.
  destruct (f x) eqn:Hx; simpl; [done | by rewrite Hx].
Qed.

Section Deletion.
Context `{Runtime}.

Lemma delete_task_200_inv env task_id db r db' :
  delete_task env task_id db = ((r, 200), db') →
  is_Some (get_task_row db task_id)
  ∧ db' = mkDB (users db) (categories db)
            (remove_first (λ x, Z.eqb (Task.id x) task_id) (tasks db)).
Proof.
  unfold delete_task, commit, error.
  destruct (get_task_row db task_id) as [x|]; [|done].
  destruct (commit_outcome env); [|done..].
  intros [= <- <-]. split; [by eexists | done].
Qed.

Lemma delete_category_200_inv env category_id db r db' :
  delete_category env category_id db = ((r, 200), db') →
  ∃ c, get_category_row db category_id = Some c
       ∧ db' = mkDB (users db)
                 (remove_first (λ c, Z.eqb (Category.id c) category_id) (categories db))
                 (List.filter (λ x, negb (in_category c x)) (tasks db)).
Proof.
  unfold delete_category, commit, error.
  destruct (get_category_row db category_id) as [c|]; [|done].
  destruct (commit_outcome env); [|done..].
  intros [= <- <-]. by exists c.
Qed.

(** X7.  In a table whose keys are distinct, a task deletion answered 200
    removes the task for good: reading it or deleting it again is answered
    404; every other task is read as before, and users and categories are
    untouched. *)
Theorem delete_task_removes_the_task (env env' : Env) (task_id : Z) (db : DB)
    (r : body) (db' : DB) :
  NoDup (Task.id <$> tasks db) →
  delete_task env task_id db = ((r, 200), db') →
  r = MessageBody "Task deleted successfully"
  ∧ get_task task_id db' = error "Task not found" 404
  ∧ delete_task env' task_id db' = (error "Task not found" 404, db')
  ∧ (∀ other, other ≠ task_id → get_task other db' = get_task other db)
  ∧ users db' = users db
  ∧ categories db' = categories db.
Proof.
  intros Hkeys Hrun.
  assert (r = MessageBody "Task deleted successfully") as ->.
  { revert Hrun. unfold delete_task, commit, error.
    destruct (get_task_row db task_id); [|done].
    destruct (commit_outcome env); [|done..]. by intros [= <- _]. }
  apply delete_task_200_inv in Hrun as [[x Hx] ->].
  assert (Hgone : get_task_row
                    (mkDB (users db) (categories db)
                       (remove_first (λ x, Z.eqb (Task.id x) task_id) (tasks db)))
                    task_id = None).
  { unfold get_task_row. simpl. by apply (find_remove_first_gone Task.id). }
  split; [done|]. split; [|split; [|split; [|done]]].
  - unfold get_task. by rewrite Hgone.
  - unfold delete_task. by rewrite Hgone.
  - intros other Hother. unfold get_task, get_task_row. simpl.
    rewrite (find_remove_first_other _ _ _ x); [done | exact Hx |].
    apply find_some in Hx as [_ Hid%Z.eqb_eq]. apply Z.eqb_neq. lia.
Qed.

(** X8.  In a table whose keys are distinct, a category deletion answered
    200 takes the category's tasks with it: the category can no longer be
    read, the tasks left are exactly the tasks that were not in it, in their
    order, no user is touched, and a task listing filtered by the deleted
    key is empty. *)
Theorem delete_category_cascades (env : Env) (category_id : Z) (db : DB)
    (r : body) (db' : DB) :
  NoDup (Category.id <$> categories db) →
  delete_category env category_id db = ((r, 200), db') →
  ∃ c, get_category_row db category_id = Some c
       ∧ get_category category_id db' = error "Category not found" 404
       ∧ tasks db' = List.filter (λ x, negb (in_category c x)) (tasks db)
       ∧ (∀ x, x ∈ tasks db' → in_category c x = false)
       ∧ users db' = users db
       ∧ (∀ other, other ≠ category_id →
                   get_category other db' = get_category other db)
       ∧ (∀ text, py_int text = Some category_id → category_id ≠ 0 →
                  get_all_tasks {[ "category_id" := text ]} db' = (TaskList [], 200)).
Proof.
  intros Hkeys (c & Hc & ->)%delete_category_200_inv.
  exists c. split; [done|]. simpl.
  assert (Hid : Category.id c = category_id).
  { apply find_some in Hc as [_ Hid%Z.eqb_eq]. done. }
  split; [|split; [done|split; [|split; [done|split]]]].
  - unfold get_category, get_category_row. simpl.
    by rewrite (find_remove_first_gone Category.id).
  - intros x [_ Hx]%list_elem_of_In%filter_In. by apply negb_true_iff.
  - intros other Hother. unfold get_category, get_category_row. simpl.
    rewrite (find_remove_first_other _ _ _ c); [done | exact Hc |].
    apply Z.eqb_neq. lia.
  - intros text Htext Hnonzero.
    unfold get_all_tasks, enum_filter, int_filter, get_int.
    rewrite !lookup_singleton_ne by done. rewrite lookup_singleton_eq. simpl.
    rewrite (lower_ascii_text "desc") by done. rewrite Htext. simpl.
    apply Z.eqb_neq in Hnonzero. rewrite Hnonzero. simpl.
    rewrite <- Hid. unfold in_category.
    by rewrite (filter_excluded (λ x, key_eq (Category.id c) (Task.category_id x))).
Qed.
End Deletion.

(** *** Full update *)

Section FullUpdate.
Context `{Runtime}.

(** X9.  A full update is idempotent up to [updated_at]: when one has
    answered 200, the same payload sent again (and committed) answers 200
    with the same row, stamped with the time of the second request, and the
    two stores differ in that stamp only. *)
Theorem update_task_idempotent (env1 env2 : Env) (task_id : Z)
    (data : gmap string json) (db : DB) (r1 : body) (db1 : DB) :
  update_task env1 task_id data db = ((r1, 200), db1) →
  commit_outcome env2 = Committed →
  ∃ t1 db2,
    r1 = TaskBody t1
    ∧ get_task_row db1 task_id = Some t1
    ∧ Task.updated_at t1 = utcnow env1
    ∧ update_task env2 task_id data db1
      = ((TaskBody (Task.set_updated_at (utcnow env2) t1), 200), db2)
    ∧ same_except_updated_at task_id db1 db2.
Proof.
  intros Hfirst Hcommit.
  apply update_task_200_inv in Hfirst as (t0 & Hrow & Hacc & Hflush & -> & ->).
  set (t1 := replaced data (utcnow env1) t0) in *.
  set (p := λ x : Task.t, Z.eqb (Task.id x) task_id).
  set (db1 := mkDB _ _ _).
  assert (Hid : Task.id t0 = task_id).
  { apply find_some in Hrow as [_ Hid]. by apply Z.eqb_eq in Hid. }
  assert (Hp1 : p t1 = true) by (by apply Z.eqb_eq).
  assert (Hrow1 : get_task_row db1 task_id = Some t1).
  { apply (find_replace_first p); [by exists t0 | done]. }
  pose proof (replaced_twice data (utcnow env1) (utcnow env2) t0) as Htwice.
  fold t1 in Htwice.
  assert (Hflush1 : flush_dirty (replaced data (utcnow env2) t1) = true).
  { rewrite Htwice. exact Hflush. }
  pose proof (update_task_accepted env2 task_id data db1 t1 Hrow1 Hacc Hflush1 Hcommit)
    as Hsecond.
  rewrite Htwice in Hsecond. clear Htwice.
  exists t1. eexists. split; [done|]. split; [done|]. split; [done|].
  split; [exact Hsecond|].
  split; [done|]. split; [done|]. simpl.
  rewrite (replace_first_twice p) by done.
  apply replace_first_related; [by left|]. right. by split.
Qed.
End FullUpdate.

(** *** Representations *)

Lemma replace_found_Forall2 {A} (R : relation A) (p : A → bool) (new x : A)
    (l : list A) :
  (∀ y, R y y) → List.find p l = Some x → R x new →
  Forall2 R l (replace_first p new l).
Proof.
  intros Hrefl Hfind Hnew. induction l as [|y l IH]; [constructor|]. simpl in *.
  destruct (p y) eqn:Hy.
  - injection Hfind as ->. constructor; [done|].
    by apply Forall_Forall2_diag, Forall_forall.
  - constructor; auto.
Qed.

Section RoundTrip.
Context `{Runtime}.

Lemma validate_status_value (e : TaskStatus) (field_name : string) :
  validate_enum_value (enum_to_json (RMember e)) field_name = (true, None, RMember e).
Proof.
  unfold validate_enum_value, enum_to_json. rewrite upper_status_value. by destruct e.
Qed.

Lemma validate_priority_value (e : TaskPriority) (field_name : string) :
  validate_enum_value (enum_to_json (RMember e)) field_name = (true, None, RMember e).
Proof.
  unfold validate_enum_value, enum_to_json. rewrite upper_priority_value. by destruct e.
Qed.

(** X10.  The external form of an enum attribute is accepted back: whatever
    [validate_enum_value] has resolved a value to, the serialised form of
    that result validates to the same result; in particular every member's
    lowercase value resolves to the member. *)
Theorem enum_representation_round_trip :
  (∀ v field_name msg r,
     validate_enum_value (E:=TaskStatus) v field_name = (true, msg, r) →
     validate_enum_value (enum_to_json r) field_name = (true, None, r))
  ∧ (∀ v field_name msg r,
       validate_enum_value (E:=TaskPriority) v field_name = (true, msg, r) →
       validate_enum_value (enum_to_json r) field_name = (true, None, r))
  ∧ (∀ (e : TaskStatus) field_name,
       validate_enum_value (enum_to_json (RMember e)) field_name
       = (true, None, RMember e))
  ∧ (∀ (e : TaskPriority) field_name,
       validate_enum_value (enum_to_json (RMember e)) field_name
       = (true, None, RMember e)).
Proof.
  split; [|split; [|split]].
  - intros v field_name msg r. destruct v; try by intros [= <- <-].
    unfold validate_enum_value at 1.
    destruct (enum_getitem (upper s)) as [e|]; [|done]. intros [= <- <-].
    apply validate_status_value.
  - intros v field_name msg r. destruct v; try by intros [= <- <-].
    unfold validate_enum_value at 1.
    destruct (enum_getitem (upper s)) as [e|]; [|done]. intros [= <- <-].
    apply validate_priority_value.
  - apply validate_status_value.
  - apply validate_priority_value.
Qed.
End RoundTrip.

Section Representation.
Context `{Runtime} (isoformat : datetime → string).

Lemma task_payload_lookup (x : Task.t) :
  task_payload isoformat x !! "title" = Some (Task.title x)
  ∧ task_payload isoformat x !! "description" = Some (Task.description x)
  ∧ task_payload isoformat x !! "status" = Some (enum_to_json (Task.status x))
  ∧ task_payload isoformat x !! "priority" = Some (enum_to_json (Task.priority x))
  ∧ task_payload isoformat x !! "due_date"
    = Some (match Task.due_date x with
            | Some d => JStr (isoformat d)
            | None => JNull
            end)
  ∧ task_payload isoformat x !! "category_id" = Some (Task.category_id x)
  ∧ task_payload isoformat x !! "user_id" = Some (Task.user_id x).
Proof.
  unfold task_payload, task_to_dict. rewrite !list_to_map_cons.
  repeat split; by payload_lookups.
Qed.

(** X11.  Sending a task's own representation back as a full update changes
    nothing but [updated_at]: for a stored task whose enum attributes hold
    members, whose required attributes are not empty strings and whose due
    date is parsed back from its printed form, the update is answered 200
    with the task as it was, stamped with the time of the request. *)
Theorem update_task_with_own_representation (env : Env) (task_id : Z) (db : DB)
    (x : Task.t) (s : TaskStatus) (p : TaskPriority) :
  get_task_row db task_id = Some x →
  Task.status x = RMember s →
  Task.priority x = RMember p →
  Task.title x ≠ JStr "" →
  Task.category_id x ≠ JStr "" →
  Task.user_id x ≠ JStr "" →
  (∀ d, Task.due_date x = Some d → parse_datetime (JStr (isoformat d)) = Some d) →
  commit_outcome env = Committed →
  update_task env task_id (task_payload isoformat x) db
  = ((TaskBody (Task.set_updated_at (utcnow env) x), 200),
     mkDB (users db) (categories db)
       (replace_first (λ y, Z.eqb (Task.id y) task_id)
          (Task.set_updated_at (utcnow env) x) (tasks db)))
  ∧ same_except_updated_at task_id db
      (update_task env task_id (task_payload isoformat x) db).2.
Proof.
  intros Hrow Hs Hp Ht Hc Hu Hdue Hcommit.
  destruct (task_payload_lookup x) as (Lt & Ld & Ls & Lp & Ldue & Lc & Lu).
  assert (Hacc : put_accepted (task_payload isoformat x)).
  { split; [|split].
    - unfold validate_required_fields. simpl. unfold missing_or_empty.
      rewrite Lt, Lc, Lu.
      assert (Hne : ∀ v, v ≠ JStr "" →
                match v with JStr s => String.eqb s "" | _ => false end = false).
      { intros [] Hv; try done. apply String.eqb_neq. congruence. }
      by rewrite !Hne.
    - intros v. rewrite Ls, Hs. intros [= <-].
      exact (f_equal (λ r, r.1.1) (validate_status_value s "status")).
    - intros v. rewrite Lp, Hp. intros [= <-].
      exact (f_equal (λ r, r.1.1) (validate_priority_value p "priority")). }
  assert (Hsame : replaced (task_payload isoformat x) (utcnow env) x
                  = Task.set_updated_at (utcnow env) x).
  { unfold replaced, getitem, get. rewrite Lt, Ld, Ls, Lp, Ldue, Lc, Lu, Hs, Hp.
    rewrite validate_status_value, validate_priority_value.
    destruct x as [i ti de st pr du ca us cr up].
    unfold Task.set_updated_at. cbn in *. subst st pr. f_equal.
    destruct du as [d|]; [by apply Hdue | done]. }
  assert (Hflush : flush_dirty (replaced (task_payload isoformat x) (utcnow env) x)
                   = true).
  { rewrite Hsame. unfold flush_dirty. simpl. by rewrite Hs, Hp. }
  rewrite (update_task_accepted env task_id _ db x Hrow Hacc Hflush Hcommit), Hsame.
  split; [done|]. simpl. split; [done|]. split; [done|]. simpl.
  apply (replace_found_Forall2 _ _ _ x); [by left | exact Hrow |].
  right. split; [|done].
  apply find_some in Hrow as [_ Hid]. by apply Z.eqb_eq in Hid.
Qed.

Lemma only_task_changed_refl task_id db : only_task_changed task_id db db.
Proof.
  split; [done|]. split; [done|].
  apply Forall_Forall2_diag, Forall_forall. intros; by left.
Qed.

(** X12.  An update touches one row at most.  Whatever a full or partial
    task update answers, the users and categories are as before and every
    task row is as before or is a row of the addressed task, with its key and
    creation time kept; whatever a category update answers, the users and
    tasks are as before and every category row is as before or is a row of
    the addressed category, with its key kept. *)
Theorem updates_change_one_row_at_most (env : Env) (id : Z) (data : gmap string json)
    (db : DB) :
  only_task_changed id db (update_task env id data db).2
  ∧ only_task_changed id db (partial_update_task env id data db).2
  ∧ only_category_changed id db (update_category env id data db).2.
Proof.
  split; [|split].
  - destruct (update_task_store env id data db) as [->|[r Hrun]];
      [apply only_task_changed_refl|].
    apply update_task_200_inv in Hrun as (t0 & Hrow & _ & _ & _ & ->).
    split; [done|]. split; [done|]. simpl.
    apply (replace_found_Forall2 _ _ _ t0); [by left | exact Hrow |].
    right. apply find_some in Hrow as [_ Hid%Z.eqb_eq]. done.
  - destruct (partial_update_task_store env id data db) as [->|[r Hrun]];
      [apply only_task_changed_refl|].
    apply partial_update_task_200 in Hrun as (t0 & Hrow & _ & _ & _ & ->).
    split; [done|]. split; [done|]. simpl.
    apply (replace_found_Forall2 _ _ _ t0); [by left | exact Hrow |].
    right. apply find_some in Hrow as [_ Hid%Z.eqb_eq]. done.
  - unfold update_category, commit, error.
    destruct (is_empty data); simpl.
    { split; [done|]. split; [done|]. apply Forall_Forall2_diag, Forall_forall.
      intros; by left. }
    destruct (get_category_row db id) as [c|] eqn:Hrow; simpl.
    2:{ split; [done|]. split; [done|]. apply Forall_Forall2_diag, Forall_forall.
        intros; by left. }
    destruct (validate_required_fields data _) as [[] msg]; simpl.
    2:{ split; [done|]. split; [done|]. apply Forall_Forall2_diag, Forall_forall.
        intros; by left. }
    destruct (commit_outcome env); simpl.
    2,3: split; [done|]; split; [done|]; apply Forall_Forall2_diag, Forall_forall;
         intros; by left.
    split; [done|]. split; [done|]. simpl.
    apply (replace_found_Forall2 _ _ _ c); [by left | exact Hrow |].
    right. apply find_some in Hrow as [_ Hid%Z.eqb_eq]. done.
Qed.
End Representation.

(** *** Status codes and error bodies *)

Section StatusCodes.
Context `{Runtime}.

Lemma assign_enum_error {E} `{PyEnum E} data key (set : resolved E → Task.t → Task.t)
    t r :
  assign_enum data key set t = inl r → ∃ s, r = (ErrorBody (Some s), 400).
Proof.
  unfold assign_enum. destruct (data !! key) as [v|]; [|done].
  destruct (validate_enum_value v key) as [[[] msg] e] eqn:Hv; [done|].
  apply validate_enum_value_message in Hv as [s ->]. intros [= <-]. by eexists.
Qed.

Lemma query_key_error {A} env (lookup : json → option A) v r :
  query_key env lookup v = inl r → ∃ s, r = error s 500.
Proof.
  unfold query_key, internal_error, database_error.
  destruct (bind v); [done|..]; intros [= <-]; by eexists.
Qed.

Lemma assign_reference_error {R} env data key (lookup : json → option R) msg set t r :
  assign_reference env data key lookup msg set t = inl r →
  r = error msg 404 ∨ ∃ s, r = error s 500.
Proof.
  unfold assign_reference. destruct (data !! key) as [v|]; [|done].
  destruct (query_key env lookup v) as [r'|[x|]] eqn:Hq; [|done|].
  - intros [= <-]. right. by eapply query_key_error.
  - intros [= <-]. by left.
Qed.

Lemma enum_filter_error {E} `{PyEnum E, EqDecision E} (args : gmap string string)
    key (column : Task.t → resolved E) query r :
  enum_filter args key column query = inl r → ∃ s, r = (ErrorBody (Some s), 400).
Proof.
  unfold enum_filter. destruct (args !! key) as [v|]; [|done].
  destruct (String.eqb v ""); [done|].
  destruct (validate_enum_value (JStr v) key) as [[[] msg] e] eqn:Hv; [done|].
  apply validate_enum_value_message in Hv as [s ->]. intros [= <-]. by eexists.
Qed.

Lemma commit_answers env old new ok success failures :
  ok.2 = success → (∀ msg, ok.1 ≠ ErrorBody msg) → 500 ∈ failures →
  answers success failures (commit env old new ok).1.
Proof.
  intros Hcode Hbody H500. unfold commit, error.
  destruct (commit_outcome env); simpl.
  - left. by split.
  - right. split; [done | by eexists].
  - right. split; [done | by eexists].
Qed.

Lemma save_task_answers env task_id task db failures :
  500 ∈ failures → answers 200 failures (save_task env task_id task db).1.
Proof.
  intros H500. unfold save_task. destruct (flush_dirty task).
  - by apply commit_answers.
  - right. split; [done | by eexists].
Qed.

(** X13.  Every handler answers with a status its docstring lists, and the
    body goes with the status: the success status comes with a body that is
    not an error, every other status with an error body that holds a message
    (never null). *)
Theorem handlers_answer_as_documented (env : Env) (id : Z) (data : gmap string json)
    (args : gmap string string) (db : DB) :
  answers 201 [400; 500] (create_user env data db).1
  ∧ answers 200 [404; 500] (get_user id db)
  ∧ answers 200 [500] (get_all_users db)
  ∧ answers 201 [400; 404; 500] (create_category env data db).1
  ∧ answers 200 [500] (get_all_categories args db)
  ∧ answers 200 [404; 500] (get_category id db)
  ∧ answers 200 [400; 404; 500] (update_category env id data db).1
  ∧ answers 200 [404; 500] (delete_category env id db).1
  ∧ answers 201 [400; 404; 500] (create_task env data db).1
  ∧ answers 200 [400; 500] (get_all_tasks args db)
  ∧ answers 200 [404; 500] (get_task id db)
  ∧ answers 200 [400; 404; 500] (update_task env id data db).1
  ∧ answers 200 [400; 404; 500] (partial_update_task env id data db).1
  ∧ answers 200 [404; 500] (delete_task env id db).1.
Proof.
  repeat apply conj.
  - unfold create_user, error. destruct (is_empty data); [answer|].
    destruct (validate_required_fields data _) as [[] msg] eqn:Hreq; simpl.
    + destruct (commit_outcome env); answer.
    + apply validate_required_fields_message in Hreq as [s ->]. answer.
  - unfold get_user, error. destruct (get_user_row db id); answer.
  - unfold get_all_users. answer.
  - unfold create_category, error. destruct (is_empty data); [answer|].
    destruct (validate_required_fields data _) as [[] msg] eqn:Hreq; simpl.
    + destruct (query_key env (find_user db) _) as [r|[u|]] eqn:Hu; [| |answer].
      { apply query_key_error in Hu as [s ->]. answer. }
      apply commit_answers; [done..|answer_mem].
    + apply validate_required_fields_message in Hreq as [s ->]. answer.
  - unfold get_all_categories. answer.
  - unfold get_category, error. destruct (get_category_row db id); answer.
  - unfold update_category, error. destruct (is_empty data); [answer|].
    destruct (get_category_row db id); [|answer].
    destruct (validate_required_fields data _) as [[] msg] eqn:Hreq; simpl.
    + apply commit_answers; [done..|answer_mem].
    + apply validate_required_fields_message in Hreq as [s ->]. answer.
  - unfold delete_category, error. destruct (get_category_row db id); [|answer].
    apply commit_answers; [done..|answer_mem].
  - unfold create_task, error. destruct (is_empty data); [answer|].
    destruct (validate_required_fields data _) as [[] msg] eqn:Hreq; simpl.
    2:{ apply validate_required_fields_message in Hreq as [s ->]. answer. }
    destruct (query_key env (find_user db) _) as [r|[u|]] eqn:Hu; [| |answer].
    { apply query_key_error in Hu as [s ->]. answer. }
    destruct (query_key env (find_category db) _) as [r|[c|]] eqn:Hc; [| |answer].
    { apply query_key_error in Hc as [s ->]. answer. }
    destruct (match data !! "status" with Some v => _ | None => _ end)
      as [[[] ms] s] eqn:Hs; simpl.
    2:{ destruct (data !! "status"); [|done].
        apply validate_enum_value_message in Hs as [m ->]. answer. }
    destruct (match data !! "priority" with Some v => _ | None => _ end)
      as [[[] mp] p] eqn:Hp; simpl.
    2:{ destruct (data !! "priority"); [|done].
        apply validate_enum_value_message in Hp as [m ->]. answer. }
    destruct (flush_new _); [|unfold database_error; answer].
    apply commit_answers; [done..|answer_mem].
  - rewrite get_all_tasks_eq.
    destruct (enum_filter args "status" _ _) as [r|q1] eqn:Hs.
    { apply enum_filter_error in Hs as [s ->]. answer. }
    destruct (enum_filter args "priority" _ _) as [r|q2] eqn:Hp.
    { apply enum_filter_error in Hp as [s ->]. answer. }
    cbv zeta. destruct (str_in _ _); [|answer]. destruct (str_in _ _); answer.
  - unfold get_task, error. destruct (get_task_row db id); answer.
  - unfold update_task, error. destruct (is_empty data); [answer|].
    destruct (get_task_row db id); [|answer].
    destruct (validate_required_fields data _) as [[] msg] eqn:Hreq; simpl.
    2:{ apply validate_required_fields_message in Hreq as [s ->]. answer. }
    destruct (assign_enum data "status" _ _) as [r|t1] eqn:Hs; simpl.
    { apply assign_enum_error in Hs as [s ->]. answer. }
    destruct (assign_enum data "priority" _ _) as [r|t2] eqn:Hp; simpl.
    { apply assign_enum_error in Hp as [s ->]. answer. }
    apply save_task_answers. answer_mem.
  - unfold partial_update_task, error. destruct (is_empty data); [answer|].
    destruct (get_task_row db id); [|answer]. cbv zeta.
    destruct (assign_enum data "status" _ _) as [r|t1] eqn:Hs; simpl.
    { apply assign_enum_error in Hs as [s ->]. answer. }
    destruct (assign_enum data "priority" _ _) as [r|t2] eqn:Hp; simpl.
    { apply assign_enum_error in Hp as [s ->]. answer. }
    destruct (assign_reference env data "category_id" _ _ _ _) as [r|t3] eqn:Hc; simpl.
    { apply assign_reference_error in Hc as [->|[s ->]]; answer. }
    destruct (assign_reference env data "user_id" _ _ _ _) as [r|t4] eqn:Hu; simpl.
    { apply assign_reference_error in Hu as [->|[s ->]]; answer. }
    apply save_task_answers. answer_mem.
  - unfold delete_task, error. destruct (get_task_row db id); [|answer].
    apply commit_answers; [done..|answer_mem].
Qed.
End StatusCodes.

(** *** References *)

Section References.
Context `{Runtime}.

Lemma consistent_intro (db db' : DB) :
  consistent db →
  (∀ v, is_Some (find_user db v) → is_Some (find_user db' v)) →
  (∀ c, c ∈ categories db' →
        c ∈ categories db ∨ is_Some (find_user db' (Category.user_id c))) →
  (∀ x, x ∈ tasks db' →
        (x ∈ tasks db ∧ (is_Some (find_category db (Task.category_id x)) →
                         is_Some (find_category db' (Task.category_id x))))
        ∨ (is_Some (find_user db' (Task.user_id x))
           ∧ is_Some (find_category db' (Task.category_id x)))) →
  consistent db'.
Proof.
  intros [Hcats Htasks] Husers Hc Hx. split.
  - intros c [Hold|Hnew]%Hc; [apply Husers, Hcats, Hold | exact Hnew].
  - intros x [[Hold Hcat]|Hnew]%Hx; [|exact Hnew].
    destruct (Htasks x Hold). split; [by apply Husers | by apply Hcat].
Qed.

(** X14.  References that resolve keep resolving.  If every category of the
    store names a user that is found and every task names a user and a
    category that are found, the same holds of the store that a user,
    category or task creation, a partial task update, a task deletion or a
    category deletion returns, whatever it answers. *)
Theorem references_stay_resolved (env : Env) (id : Z) (data : gmap string json)
    (db : DB) :
  consistent db →
  consistent (create_user env data db).2
  ∧ consistent (create_category env data db).2
  ∧ consistent (create_task env data db).2
  ∧ consistent (partial_update_task env id data db).2
  ∧ consistent (delete_task env id db).2
  ∧ consistent (delete_category env id db).2.
Proof.
  intros Hdb. split; [|split; [|split; [|split; [|split]]]].
  - destruct (create_user_store env data db) as [->|[r Hrun]]; [done|].
    apply create_user_201_inv in Hrun as (u & _ & -> & _).
    apply (consistent_intro db); [done|..]; simpl.
    + intros v. unfold find_user. simpl. apply is_Some_find_app.
    + intros c Hc. by left.
    + intros x Hx. left. by split.
  - destruct (create_category_store env data db) as [->|[r Hrun]]; [done|].
    apply create_category_201_inv in Hrun as (c & _ & -> & _ & _ & _ & Hu & _ & Hfound).
    apply (consistent_intro db); [done|..]; simpl.
    + done.
    + intros c' [Hc|Heq%list_elem_of_singleton]%elem_of_app; [by left|].
      subst c'. right. by rewrite Hu.
    + intros x Hx. left. split; [done|].
      unfold find_category. simpl. apply is_Some_find_app.
  - destruct (create_task_store env data db) as [->|[r Hrun]]; [done|].
    apply create_task_201_inv in Hrun
      as (x & _ & -> & (_ & _ & Hfu & _ & Hfc & _) & (-> & _)%flush_new_Some).
    apply (consistent_intro db); [done|..]; simpl.
    + done.
    + intros c Hc'. by left.
    + intros y [Hy|Heq%list_elem_of_singleton]%elem_of_app; [left; by split|].
      subst y. right. by split.
  - destruct (partial_update_task_store env id data db) as [->|[r Hrun]]; [done|].
    apply partial_update_task_200 in Hrun as (t0 & Hrow & Hacc & _ & _ & ->).
    destruct Hacc as (_ & _ & _ & Hc & Hu).
    apply (consistent_intro db); [done|..]; simpl.
    + done.
    + intros c Hc'. by left.
    + intros y [->|Hy]%elem_of_replace_first; [|left; by split].
      right. unfold patched. simpl.
      apply find_some in Hrow as [Hin%list_elem_of_In _].
      destruct Hdb as [_ Htasks]. destruct (Htasks t0 Hin) as [Hfu Hfc].
      split.
      * destruct (data !! "user_id") as [v|] eqn:Hv; simpl; [by apply Hu | done].
      * destruct (data !! "category_id") as [v|] eqn:Hv; simpl; [by apply Hc | done].
  - destruct (delete_task_store env id db) as [->|[r Hrun]]; [done|].
    apply delete_task_200_inv in Hrun as [_ ->].
    apply (consistent_intro db); [done|..]; simpl.
    + done.
    + intros c Hc. by left.
    + intros y Hy%elem_of_remove_first. left. by split.
  - destruct (delete_category_store env id db) as [->|[r Hrun]]; [done|].
    apply delete_category_200_inv in Hrun as (c & Hrow & ->).
    apply (consistent_intro db); [done|..]; simpl.
    + done.
    + intros c' Hc'%elem_of_remove_first. by left.
    + intros y [Hy Hout]%list_elem_of_In%filter_In. left.
      split; [by apply list_elem_of_In|].
      unfold find_category. simpl. intros Hfound.
      rewrite (find_remove_first_other _ _ _ c); [done | exact Hrow |].
      apply negb_true_iff in Hout. exact Hout.
Qed.
End References.

(** *** What a payload can and cannot do *)

Section Payloads.
Context `{Runtime}.

Lemma required_fields_other_key (data : gmap string json) k v w fields :
  str_in k fields = false →
  validate_required_fields (<[k := v]> data) fields
  = validate_required_fields (<[k := w]> data) fields.
Proof.
  intros Hnot. apply validate_required_fields_ext. intros f Hf.
  assert (k ≠ f).
  { intros <-. apply list_elem_of_In in Hf.
    assert (str_in k fields = true); [|congruence].
    apply existsb_exists. exists k. by rewrite String.eqb_refl. }
  by rewrite !lookup_insert_ne.
Qed.

(** X15.  What a full update keeps and what it resets.  After a full task
    update answered 200, the status, the priority and the due date are the
    stored ones when their key is absent, the description is emptied when its
    key is absent, and a due date that is sent but cannot be parsed erases
    the stored one; the key and the creation time are kept, [updated_at]
    is the time of the request, and a title that is a string is the new
    title.  After a full category update answered 200, an absent description
    keeps the stored one, and a name or a description that is a string and a
    user that is an integer are the new ones. *)
Theorem full_update_keeps_and_resets (env : Env) (id : Z) (data : gmap string json)
    (db : DB) :
  (∀ x db', update_task env id data db = ((TaskBody x, 200), db') →
     ∃ t0, get_task_row db id = Some t0
           ∧ Task.id x = Task.id t0
           ∧ Task.created_at x = Task.created_at t0
           ∧ Task.updated_at x = utcnow env
           ∧ (∀ s, data !! "title" = Some (JStr s) → Task.title x = JStr s)
           ∧ (data !! "status" = None → Task.status x = Task.status t0)
           ∧ (data !! "priority" = None → Task.priority x = Task.priority t0)
           ∧ (data !! "due_date" = None → Task.due_date x = Task.due_date t0)
           ∧ (∀ v, data !! "due_date" = Some v → Task.due_date x = parse_datetime v)
           ∧ (data !! "description" = None → Task.description x = JStr ""))
  ∧ (∀ c db', update_category env id data db = ((CategoryBody c, 200), db') →
       ∃ c0, get_category_row db id = Some c0
             ∧ Category.id c = Category.id c0
             ∧ (∀ s, data !! "name" = Some (JStr s) → Category.name c = JStr s)
             ∧ (∀ n, data !! "user_id" = Some (JInt n) → Category.user_id c = JInt n)
             ∧ (data !! "description" = None →
                Category.description c = Category.description c0)
             ∧ (∀ s, data !! "description" = Some (JStr s) →
                     Category.description c = JStr s)).
Proof.
  split.
  - intros x db' (t0 & Hrow & _ & _ & [= ->] & _)%update_task_200_inv.
    exists t0. split; [done|]. unfold replaced, getitem, get. simpl.
    repeat split; try done; try by intros ->.
    + by intros s ->.
    + by intros v ->.
  - intros c db'. unfold update_category, commit, error.
    destruct (is_empty data); [done|].
    destruct (get_category_row db id) as [c0|]; [|done].
    destruct (validate_required_fields data _) as [[] msg] eqn:Hreq; [|done]. simpl.
    destruct (commit_outcome env); [|done..].
    intros [= <- <-]. exists c0. split; [done|]. simpl. unfold getitem, get.
    repeat split; try done; try by intros ->.
    + by intros s ->.
    + by intros n ->.
    + by intros s ->.
Qed.

(** X16.  No payload key reaches a task's key or timestamps.  A key that is
    none of title, description, status, priority, due_date, category_id and
    user_id has no effect on the creation, the full update or the partial
    update of a task: whatever value it holds, the answer and the store are
    the same. *)
Theorem unknown_payload_keys_have_no_effect (env : Env) (id : Z)
    (data : gmap string json) (db : DB) (k : string) (v w : json) :
  str_in k ["title"; "description"; "status"; "priority"; "due_date";
            "category_id"; "user_id"] = false →
  create_task env (<[k := v]> data) db = create_task env (<[k := w]> data) db
  ∧ update_task env id (<[k := v]> data) db = update_task env id (<[k := w]> data) db
  ∧ partial_update_task env id (<[k := v]> data) db
    = partial_update_task env id (<[k := w]> data) db.
Proof.
  intros Hk.
  assert (k ≠ "title" ∧ k ≠ "description" ∧ k ≠ "status" ∧ k ≠ "priority"
          ∧ k ≠ "due_date" ∧ k ≠ "category_id" ∧ k ≠ "user_id")
    as (? & ? & ? & ? & ? & ? & ?).
  { repeat split; intros ->; done. }
  assert (Hreq : validate_required_fields (<[k := v]> data)
                   ["title"; "category_id"; "user_id"]
                 = validate_required_fields (<[k := w]> data)
                     ["title"; "category_id"; "user_id"]).
  { apply required_fields_other_key. apply not_true_is_false. intros Hin.
    apply existsb_exists in Hin as (f & Hf & ->%String.eqb_eq).
    simpl in Hf. intuition congruence. }
  split; [|split].
  - unfold create_task. rewrite !is_empty_insert, Hreq. by payload_lookups.
  - unfold update_task. rewrite !is_empty_insert, Hreq. by payload_lookups.
  - unfold partial_update_task. rewrite !is_empty_insert. by payload_lookups.
Qed.
End Payloads.

(** *** The further properties at concrete inputs *)

Lemma get_all_tasks_returns_the_selected_rows_witness :
  [Sample.task 1 PENDING LOW 101]
  ≡ₚ List.filter (@selected Sample.runtime Sample.pending_only) (tasks Sample.db).
Proof.
  apply (@get_all_tasks_returns_the_selected_rows Sample.runtime Sample.pending_only
           Sample.db).
  vm_compute. reflexivity.
Defined.

Lemma get_all_tasks_orders_as_requested_witness :
  StronglySorted (λ x y, (Task.created_at y ≤ Task.created_at x)%Z)
    [Sample.task 3 IN_PROGRESS MEDIUM 103; Sample.task 2 COMPLETED HIGH 102;
     Sample.task 1 PENDING LOW 101].
Proof.
  pose proof (@get_all_tasks_orders_as_requested Sample.runtime ∅ Sample.db
                [Sample.task 3 IN_PROGRESS MEDIUM 103; Sample.task 2 COMPLETED HIGH 102;
                 Sample.task 1 PENDING LOW 101]) as Hthm.
  destruct Hthm as (_ & _ & Hdefault); [vm_compute; reflexivity|].
  apply Hdefault; reflexivity.
Defined.

Lemma unparsable_integer_filter_is_ignored_witness :
  @py_int Sample.runtime "abc" = None
  ∧ @get_all_tasks Sample.runtime (<["category_id" := "abc"]> Sample.pending_only)
      Sample.db
    = @get_all_tasks Sample.runtime (delete "category_id" Sample.pending_only) Sample.db.
Proof.
  split; [reflexivity|].
  apply (@unparsable_integer_filter_is_ignored Sample.runtime Sample.pending_only
           Sample.db "abc").
  reflexivity.
Defined.

Lemma create_task_defaults_witness :
  ∃ x, (@create_task Sample.runtime (Sample.env 200) Fixture.new_task Fixture.db).1.1
       = TaskBody x
       ∧ Task.status x = RMember PENDING
       ∧ Task.priority x = RMember MEDIUM
       ∧ Task.description x = JStr "".
Proof.
  destruct (@create_task_defaults Sample.runtime (Sample.env 200) Fixture.new_task
              Fixture.db
              (@create_task Sample.runtime (Sample.env 200) Fixture.new_task
                 Fixture.db).1.1
              (@create_task Sample.runtime (Sample.env 200) Fixture.new_task
                 Fixture.db).2)
    as (x & Hx & _ & _ & _ & _ & _ & _ & _ & _ & _ & _ & Hs & Hp & _ & _ & Hd & _).
  { vm_compute. reflexivity. }
  exists x. split; [exact Hx|]. split; [apply Hs; right; reflexivity|].
  split; [apply Hp; left; reflexivity | apply Hd; reflexivity].
Defined.

Lemma delete_task_removes_the_task_witness :
  get_task 7 (delete_task (Sample.env 200) 7 Fixture.db).2 = error "Task not found" 404
  ∧ get_task 8 (delete_task (Sample.env 200) 7 Fixture.db).2 = get_task 8 Fixture.db.
Proof.
  destruct (delete_task_removes_the_task (Sample.env 200) (Sample.env 300) 7 Fixture.db
              (delete_task (Sample.env 200) 7 Fixture.db).1.1
              (delete_task (Sample.env 200) 7 Fixture.db).2)
    as (_ & Hgone & _ & Hothers & _).
  { refine (bool_decide_unpack _ _). vm_compute. exact I. }
  { vm_compute. reflexivity. }
  split; [exact Hgone | apply Hothers; discriminate].
Defined.

Lemma delete_category_cascades_witness :
  tasks (@delete_category Sample.runtime (Sample.env 200) 2 Fixture.db).2
  = [Sample.task 1 PENDING LOW 101; Fixture.report]
  ∧ @get_all_tasks Sample.runtime Fixture.in_home
      (@delete_category Sample.runtime (Sample.env 200) 2 Fixture.db).2
    = (TaskList [], 200).
Proof.
  destruct (@delete_category_cascades Sample.runtime (Sample.env 200) 2 Fixture.db
              (@delete_category Sample.runtime (Sample.env 200) 2 Fixture.db).1.1
              (@delete_category Sample.runtime (Sample.env 200) 2 Fixture.db).2)
    as (c & _ & _ & _ & _ & _ & _ & Hlisting).
  { refine (bool_decide_unpack _ _). vm_compute. exact I. }
  { vm_compute. reflexivity. }
  split; [vm_compute; reflexivity|].
  apply (Hlisting "2"); [reflexivity | discriminate].
Defined.

Lemma update_task_idempotent_witness :
  ∃ t1 db2,
    (@update_task Sample.runtime (Sample.env 200) 7 Fixture.rename Fixture.db).1.1
    = TaskBody t1
    ∧ @update_task Sample.runtime (Sample.env 300) 7 Fixture.rename
        (@update_task Sample.runtime (Sample.env 200) 7 Fixture.rename Fixture.db).2
      = ((TaskBody (Task.set_updated_at 300 t1), 200), db2)
    ∧ same_except_updated_at 7
        (@update_task Sample.runtime (Sample.env 200) 7 Fixture.rename Fixture.db).2 db2.
Proof.
  destruct (@update_task_idempotent Sample.runtime (Sample.env 200) (Sample.env 300) 7
              Fixture.rename Fixture.db
              (@update_task Sample.runtime (Sample.env 200) 7 Fixture.rename
                 Fixture.db).1.1
              (@update_task Sample.runtime (Sample.env 200) 7 Fixture.rename
                 Fixture.db).2)
    as (t1 & db2 & Hr & _ & _ & Hsecond & Hsame).
  { vm_compute. reflexivity. }
  { reflexivity. }
  exists t1, db2. split; [exact Hr|]. split; [exact Hsecond | exact Hsame].
Defined.

Lemma update_task_with_own_representation_witness :
  @update_task Sample.runtime (Sample.env 200) 7
    (task_payload Fixture.isoformat Fixture.report) Fixture.db
  = ((TaskBody (Task.set_updated_at 200 Fixture.report), 200),
     mkDB (users Fixture.db) (categories Fixture.db)
       (replace_first (λ y, Z.eqb (Task.id y) 7)
          (Task.set_updated_at 200 Fixture.report) (tasks Fixture.db))).
Proof.
  apply (@update_task_with_own_representation Sample.runtime Fixture.isoformat
           (Sample.env 200) 7 Fixture.db Fixture.report IN_PROGRESS HIGH);
    try reflexivity; try discriminate.
  intros d Hd. injection Hd as <-. reflexivity.
Defined.

Lemma references_stay_resolved_witness :
  @consistent Sample.runtime Fixture.db
  ∧ @consistent Sample.runtime
      (@create_task Sample.runtime (Sample.env 200) Fixture.new_task Fixture.db).2
  ∧ @consistent Sample.runtime
      (@delete_category Sample.runtime (Sample.env 200) 2 Fixture.db).2.
Proof.
  assert (Hdb : @consistent Sample.runtime Fixture.db).
  { split; apply Forall_forall; repeat constructor; vm_compute; by eexists. }
  split; [exact Hdb|].
  destruct (@references_stay_resolved Sample.runtime (Sample.env 200) 2 Fixture.new_task
              Fixture.db Hdb) as (_ & _ & Hcreate & _ & _ & Hdelete).
  split; [exact Hcreate | exact Hdelete].
Defined.

Lemma unknown_payload_keys_have_no_effect_witness :
  @create_task Sample.runtime (Sample.env 200) (<["id" := JInt 99]> Fixture.new_task)
    Fixture.db
  = @create_task Sample.runtime (Sample.env 200) (<["id" := JInt 1]> Fixture.new_task)
      Fixture.db.
Proof.
  apply (@unknown_payload_keys_have_no_effect Sample.runtime (Sample.env 200) 1
           Fixture.new_task Fixture.db "id" (JInt 99) (JInt 1)).
  reflexivity.
Defined.
